(** * Cyber_Crime_Analysis2: the synthetic generator and the schema adapter

    A shallow embedding of [generate_expanded_data.py] and of
    [modules/data_adapter.py], with the properties their specification
    states about them, and of the two loaders that call the adapter,
    [modules/data_loader.py] and [modules_v2/data_loader_global.py].

    Conventions of the embedding.
    - Python's [random] and NumPy's [np.random] are a tape of raw words
      read left to right; every primitive draw consumes one word.  The
      theorems hold for every tape, hence for whatever the Mersenne
      Twister produces.
    - [int] and [float] values are carried as the rational number they
      denote ([Z] where the source has an [int]); rounding of binary
      floating point is not represented.
    - a [str] is a [string]; [lower] acts on the ASCII letters.
    - a DataFrame is on the default [RangeIndex], as [pd.read_csv]
      delivers it, and its cells are missing values, numbers, strings or
      instants; what pandas itself parses and prints (dates, numbers) is
      a parameter of the development.  Instants carry no time zone.
    - no dtype is kept with a column: where pandas decides by dtype, in
      the merge of the coordinates, the dtype is the one [pd.read_csv]
      infers from the cells.
    - the source pins no version of pandas; where the versions differ,
      in what [astype(str)] makes of a missing value, the version is a
      parameter as well, and the theorems hold for both.
    - [st.stop()] ends a run with the exception [StopExecution], which
      no [except Exception] catches; what Streamlit displays is left
      out. *)

From Stdlib Require Import List String Ascii ZArith QArith Qround Lia Bool.
From Stdlib Require Import Sorted Permutation Lqa.
From Stdlib Require DecimalString.
Import ListNotations.

Local Open Scope string_scope.
Local Open Scope list_scope.
Local Open Scope Z_scope.

(** ** The random source and the state monad that threads it *)

Record rng := mk_rng { tape : nat -> N; cursor : nat }.

Definition St (A : Type) : Type := rng -> A * rng.

Definition ret {A} (a : A) : St A := fun g => (a, g).

Definition bind {A B} (m : St A) (k : A -> St B) : St B :=
  fun g => let (a, g') := m g in k a g'.

Declare Scope st_scope.
Delimit Scope st_scope with st.
Notation "x <- m ;; k" := (bind m (fun x => k))
  (at level 61, m at next level, right associativity) : st_scope.
Local Open Scope st_scope.

Definition next_word : St N :=
  fun g => (tape g (cursor g), mk_rng (tape g) (S (cursor g))).

(** [_randbelow(n)]: an integer in [0, n). *)
Definition randbelow (n : Z) : St Z :=
  w <- next_word ;; ret (Z.of_N w mod n).

(** [random()]: 53 random bits scaled into [0, 1). *)
Definition random : St Q :=
  w <- next_word ;; ret (Qmake (Z.of_N w mod 2 ^ 53) (2 ^ 53)).

(** [randint(a, b)]: both ends included. *)
Definition randint (a b : Z) : St Z :=
  k <- randbelow (b - a + 1) ;; ret (a + k).

(** [uniform(a, b) = a + (b - a) * random()]. *)
Definition uniform (a b : Q) : St Q :=
  u <- random ;; ret (a + (b - a) * u)%Q.

(** [choice(seq) = seq[_randbelow(len(seq))]]; [d] stands for the
    element type's default and is never returned for a non-empty [seq]. *)
Definition choice_of {A} (d : A) (xs : list A) : St A :=
  k <- randbelow (Z.of_nat (List.length xs)) ;; ret (nth (Z.to_nat k) xs d).

Definition choice (xs : list string) : St string := choice_of "" xs.

(** [size=n]: the same draw [n] times over. *)
Fixpoint draw_n {A} (n : nat) (m : St A) : St (list A) :=
  match n with
  | O => ret []
  | S k => x <- m ;; rest <- draw_n k m ;; ret (x :: rest)
  end.

Fixpoint accumulate (acc : Q) (ws : list Q) : list Q :=
  match ws with
  | [] => []
  | w :: r => (acc + w)%Q :: accumulate (acc + w)%Q r
  end.

(** [bisect(cum, x, 0, hi)]: the first index below [hi] whose entry
    exceeds [x], and [hi] when there is none. *)
Fixpoint bisect (cum : list Q) (x : Q) (hi : nat) : nat :=
  match hi, cum with
  | S h, c :: r => if Qle_bool c x then S (bisect r x h) else O
  | _, _ => O
  end.

(** [choices(population, weights=ws, k=1)[0]] *)
Definition choices1 (population : list string) (ws : list Q) : St string :=
  u <- random ;;
  let cum := accumulate 0 ws in
  let total := last cum 0%Q in
  ret (nth (bisect cum (u * total)%Q (List.length population - 1)) population "").

(** [list(range(lo, hi))] *)
Fixpoint count_from (lo : Z) (n : nat) : list Z :=
  match n with
  | O => []
  | S k => lo :: count_from (lo + 1) k
  end.

Definition range (lo hi : Z) : list Z := count_from lo (Z.to_nat (hi - lo)).

(** ** Strings as Python uses them here *)

Definition lower_ascii (c : ascii) : ascii :=
  let n := nat_of_ascii c in
  if (65 <=? n)%nat && (n <=? 90)%nat then ascii_of_nat (n + 32) else c.

(** [s.lower()] *)
Fixpoint lower (s : string) : string :=
  match s with
  | EmptyString => EmptyString
  | String c rest => String (lower_ascii c) (lower rest)
  end.

(** [str(n)] for an integer *)
Definition str_of_Z (z : Z) : string :=
  DecimalString.NilZero.string_of_int (Z.to_int z).

(** [needle in hay] *)
Fixpoint contains (needle hay : string) : bool :=
  String.prefix needle hay
  || match hay with
     | EmptyString => false
     | String _ rest => contains needle rest
     end.

(** [s.endswith(suffix)], which is what the pattern [*suffix] asks of a
    file name. *)
Fixpoint ends_with (suffix s : string) : bool :=
  String.eqb suffix s
  || match s with
     | EmptyString => false
     | String _ rest => ends_with suffix rest
     end.

Definition mem_str (x : string) (xs : list string) : bool :=
  existsb (String.eqb x) xs.

(** [d.get(key, default)] over a literal dictionary *)
Fixpoint dict_get {V} (d : list (string * V)) (key : string) : option V :=
  match d with
  | [] => None
  | (k, v) :: r => if String.eqb k key then Some v else dict_get r key
  end.

Definition dict_get_default {V} (d : list (string * V)) (key : string) (default : V) : V :=
  match dict_get d key with Some v => v | None => default end.

(** * generate_expanded_data.py *)

Module Generator.

Definition MAJOR_COUNTRIES : list (string * Q) :=
  [ ("USA", 3.5); ("China", 3.5); ("Russia", 3); ("UK", 2.5); ("Germany", 2.5);
    ("France", 2.5); ("India", 2.5); ("Japan", 2); ("South Korea", 2);
    ("Brazil", 2); ("Canada", 2); ("Australia", 2); ("Italy", 2);
    ("Spain", 2); ("Netherlands", 2); ("Poland", 1.5); ("Sweden", 1.5);
    ("Belgium", 1.5); ("Switzerland", 1.5); ("Israel", 1.5); ("Turkey", 1.5) ]%Q.

Definition NUM_RECORDS : nat := Z.to_nat 30000.

(** Instants are seconds counted from [START_DATE = datetime(2019, 1, 1)].
    [(END_DATE - START_DATE).days] is 2191, the 31st of December 2024. *)
Definition delta_days : Z := 2191.

Definition COUNTRIES : list string :=
  [ "USA"; "UK"; "Germany"; "France"; "China"; "India"; "Brazil"; "Russia";
    "Australia"; "Canada"; "Japan"; "South Korea"; "Mexico"; "Italy"; "Spain";
    "Netherlands"; "Singapore"; "UAE"; "Saudi Arabia"; "Turkey"; "Poland";
    "Sweden"; "Norway"; "Denmark"; "Finland"; "Belgium"; "Switzerland";
    "Argentina"; "Chile"; "Colombia"; "Peru"; "Indonesia"; "Thailand";
    "Vietnam"; "Philippines"; "Malaysia"; "Pakistan"; "Bangladesh"; "Egypt";
    "Nigeria"; "South Africa"; "Kenya"; "Morocco"; "Israel"; "New Zealand" ].

Definition ATTACK_TYPES : list string :=
  [ "Malware"; "Ransomware"; "Phishing"; "DDoS"; "SQL Injection";
    "Man-in-the-Middle"; "Zero-Day Exploit"; "Brute Force";
    "Cross-Site Scripting"; "Password Attack"; "DNS Spoofing";
    "Session Hijacking"; "Trojan"; "Spyware"; "Backdoor";
    "APT"; "Cryptojacking"; "IoT Attack"; "Supply Chain Attack";
    "Business Email Compromise"; "Credential Stuffing"; "Rootkit"; "Worm" ].

Definition TARGET_INDUSTRIES : list string :=
  [ "Finance"; "Healthcare"; "Government"; "Retail"; "Education";
    "Technology"; "Manufacturing"; "Energy"; "Telecommunications";
    "Transportation"; "Media"; "Legal"; "Insurance"; "Real Estate";
    "Hospitality"; "Agriculture"; "Defense"; "Aerospace" ].

Definition TARGET_SYSTEMS : list string :=
  [ "Web Server"; "Database"; "Email Server"; "File Server";
    "Application Server"; "Cloud Storage"; "Network Router";
    "Firewall"; "VPN Gateway"; "DNS Server"; "Active Directory";
    "IoT Device"; "Mobile App"; "Desktop Application"; "API Gateway" ].

Definition ATTACK_SOURCES : list string :=
  [ "Hacker Group"; "Nation State"; "Insider Threat"; "Cybercriminal";
    "Hacktivist"; "Bot Network"; "Script Kiddie"; "APT Group";
    "Organized Crime"; "Competitor"; "Disgruntled Employee" ].

Definition SECURITY_VULNERABILITIES : list string :=
  [ "Unpatched Software"; "Weak Password"; "Misconfiguration";
    "Social Engineering"; "Zero-Day"; "SQL Injection"; "XSS";
    "Default Credentials"; "Missing Encryption"; "Open Port";
    "Outdated Protocol"; "Poor Access Control"; "No MFA";
    "Unsecured API"; "Legacy System" ].

Definition DEFENSE_MECHANISMS : list string :=
  [ "Firewall"; "IDS/IPS"; "Antivirus"; "WAF"; "DLP"; "SIEM";
    "Endpoint Protection"; "Network Segmentation"; "MFA";
    "Encryption"; "Patch Management"; "Access Control";
    "Security Monitoring"; "Threat Intelligence"; "VPN" ].

Definition ACTION_TAKEN : list string :=
  [ "Blocked"; "Quarantined"; "Logged"; "Alerted"; "Isolated";
    "Patched"; "Investigated"; "Remediated"; "Escalated";
    "Monitored"; "Contained"; "Restored" ].

(** [generate_timestamp]: the offset is drawn from the module-level
    [random], the generator that [random.seed(42)] has seeded. *)
Definition generate_timestamp : St Z :=
  let total_seconds := delta_days * 86400 in
  random_offset <- randint 0 total_seconds ;;
  ret random_offset.

(** [timestamp.year] for an instant of the window 2019-2024 (2020 and
    2024 are leap years). *)
Definition year_of (t : Z) : Z :=
  let day := t / 86400 in
  if (day <? 365)%Z then 2019
  else if (day <? 731)%Z then 2020
  else if (day <? 1096)%Z then 2021
  else if (day <? 1461)%Z then 2022
  else if (day <? 1826)%Z then 2023
  else 2024.

Definition severity_weights : list (string * (Z * Z)) :=
  [ ("Ransomware", (7, 10));
    ("Zero-Day Exploit", (8, 10));
    ("APT", (8, 10));
    ("Supply Chain Attack", (7, 10));
    ("Rootkit", (7, 9));
    ("SQL Injection", (6, 9));
    ("Malware", (5, 9));
    ("Worm", (5, 8));
    ("Backdoor", (6, 9));
    ("DDoS", (4, 8));
    ("Trojan", (5, 8));
    ("IoT Attack", (4, 7));
    ("Cryptojacking", (3, 6));
    ("Phishing", (3, 7));
    ("Business Email Compromise", (5, 8));
    ("Credential Stuffing", (4, 7));
    ("Brute Force", (3, 6));
    ("Spyware", (4, 7)) ].

Definition industry_user_multiplier : list (string * Z) :=
  [ ("Finance", 10); ("Healthcare", 8); ("Government", 15);
    ("Retail", 20); ("Education", 12); ("Technology", 5) ].

(** [round(x, 2)], ties to even. *)
Definition round_half_even (q : Q) : Z :=
  let f := Qfloor q in
  let r := (q - inject_Z f)%Q in
  if Qle_bool r (1 # 2) && negb (Qle_bool (1 # 2) r) then f
  else if Qle_bool (1 # 2) r && negb (Qle_bool r (1 # 2)) then f + 1
  else if Z.even f then f else f + 1.

Definition round2 (q : Q) : Q := Qmake (round_half_even (q * 100)) 100.

(** [int(x)] truncates toward zero. *)
Definition int_of (q : Q) : Z := Z.quot (Qnum q) (Zpos (Qden q)).

(** The dictionary that [generate_attack_record] returns. *)
Record attack_record := mk_record {
  timestamp : Z;
  year : Z;
  location : string;
  attack_type : string;
  target_industry : string;
  target_system : string;
  attack_severity : Z;
  attack_duration_min : Q;
  data_compromised_GB : Q;
  financial_impact_USD : Q;
  response_time_min : Q;
  mitigation_method : string;
  outcome : string;
  attack_vector : string;
  attacker_origin : string;
  affected_users : Z
}.

(** The local variables of [generate_attack_record] when it reaches its
    [return]. *)
Record locals := mk_locals {
  l_country : string;
  l_year : Z;
  l_attack_type : string;
  l_target_industry : string;
  l_target_system : string;
  l_attack_severity : Z;
  l_financial_loss : Q;
  l_affected_users : Z;
  l_attack_source : string;
  l_vulnerability : string;
  l_defense : string;
  l_action : string;
  l_resolution_time : Q;
  l_data_loss : Q;
  l_attack_duration : Q;
  l_outcome : string;
  l_timestamp : Z
}.

(** The body of [generate_attack_record] up to its [return]. *)
Definition draw_attack : St locals :=
  major <- random ;;
  country <-
    (if negb (Qle_bool 0.7 major) then
       let country_weights :=
         map (fun c => dict_get_default MAJOR_COUNTRIES c 0.5%Q) COUNTRIES in
       choices1 COUNTRIES country_weights
     else choice COUNTRIES) ;;
  year <- randint 2019 2024 ;;
  attack_type <- choice ATTACK_TYPES ;;
  target_industry <- choice TARGET_INDUSTRIES ;;
  target_system <- choice TARGET_SYSTEMS ;;
  let severity_range := dict_get_default severity_weights attack_type (3, 8) in
  attack_severity <- randint (fst severity_range) (snd severity_range) ;;
  base_loss <- uniform 1000 50000 ;;
  jitter <- uniform 0.5 2.0 ;;
  let financial_loss := (base_loss * (inject_Z attack_severity / 5) * jitter)%Q in
  let multiplier := dict_get_default industry_user_multiplier target_industry 7 in
  users <- randint 10 500 ;;
  spread <- uniform 0.5 1.5 ;;
  let affected_users := int_of (inject_Z (users * multiplier) * spread)%Q in
  attack_source <- choice ATTACK_SOURCES ;;
  vulnerability <- choice SECURITY_VULNERABILITIES ;;
  defense <- choice DEFENSE_MECHANISMS ;;
  action <- choice ACTION_TAKEN ;;
  base_resolution <- uniform 2 72 ;;
  resolution_factor <-
    (if (8 <=? attack_severity)%Z then uniform 0.3 0.7
     else if (5 <=? attack_severity)%Z then uniform 0.6 1.2
     else uniform 1.0 1.8) ;;
  let resolution_time := (base_resolution * resolution_factor)%Q in
  data_loss <-
    (if mem_str attack_type ["Ransomware"; "SQL Injection"; "Supply Chain Attack"; "APT"] then
       u <- uniform 1 100 ;; ret (u * (inject_Z attack_severity / 3))%Q
     else if mem_str attack_type ["Business Email Compromise"; "Credential Stuffing"] then
       u <- uniform 0.5 20 ;; ret (u * (inject_Z attack_severity / 4))%Q
     else if mem_str attack_type ["DDoS"; "Brute Force"; "Cryptojacking"] then
       uniform 0.1 5
     else if mem_str attack_type ["Backdoor"; "Rootkit"; "Trojan"; "Spyware"] then
       u <- uniform 5 80 ;; ret (u * (inject_Z attack_severity / 4))%Q
     else
       u <- uniform 0.5 50 ;; ret (u * (inject_Z attack_severity / 5))%Q) ;;
  attack_duration <-
    (if mem_str attack_type ["DDoS"; "Ransomware"; "Worm"] then uniform 30 180
     else if mem_str attack_type ["APT"; "Supply Chain Attack"; "Rootkit"] then uniform 60 240
     else if mem_str attack_type ["Cryptojacking"; "IoT Attack"] then uniform 120 300
     else if mem_str attack_type ["Phishing"; "Business Email Compromise"] then uniform 5 30
     else uniform 10 90) ;;
  let outcome :=
    if mem_str action ["Blocked"; "Quarantined"; "Contained"] then "Mitigated"
    else if mem_str action ["Logged"; "Monitored"] then "Detected"
    else "Resolved" in
  timestamp <- generate_timestamp ;;
  ret (mk_locals country year attack_type target_industry target_system
         attack_severity financial_loss affected_users attack_source
         vulnerability defense action resolution_time data_loss
         attack_duration outcome timestamp).

(** The [return { ... }] of [generate_attack_record]. *)
Definition returned (l : locals) : attack_record :=
  {| timestamp := l_timestamp l;
     year := year_of (l_timestamp l);
     location := l_country l;
     attack_type := l_attack_type l;
     target_industry := l_target_industry l;
     target_system := l_target_system l;
     attack_severity := l_attack_severity l;
     attack_duration_min := round2 (l_attack_duration l);
     data_compromised_GB := round2 (l_data_loss l);
     financial_impact_USD := round2 (l_financial_loss l);
     response_time_min := round2 (l_resolution_time l * 60)%Q;
     mitigation_method := l_defense l;
     outcome := l_outcome l;
     attack_vector := l_vulnerability l;
     attacker_origin :=
       if negb (contains "Insider" (l_attack_source l)) then "External" else "Internal";
     affected_users := l_affected_users l |}.

Definition generate_attack_record : St attack_record :=
  l <- draw_attack ;; ret (returned l).

(** The loop of [generate_dataset]: [records.append(...)] once per index. *)
Fixpoint draw_many (num_records : nat) : St (list locals) :=
  match num_records with
  | O => ret []
  | S n => l <- draw_attack ;; rest <- draw_many n ;; ret (l :: rest)
  end.

(** [sort_values('timestamp')]: ascending in the timestamp; rows with the
    same timestamp keep their order here. *)
Fixpoint insert_by_time (r : attack_record) (rs : list attack_record) : list attack_record :=
  match rs with
  | [] => [r]
  | x :: rest =>
      if (timestamp r <=? timestamp x)%Z then r :: rs
      else x :: insert_by_time r rest
  end.

Definition sort_values_timestamp (rs : list attack_record) : list attack_record :=
  fold_right insert_by_time [] rs.

Definition generate_dataset (num_records : nat) : St (list attack_record) :=
  ls <- draw_many num_records ;;
  ret (sort_values_timestamp (map returned ls)).

(** One run of the script: [random.seed(42)] has put the module-level
    generator into the state [seeded]; whatever else differs from one
    process to the next (clock, operating-system entropy) is
    [os_entropy], which nothing in the script reads. *)
Record process := mk_process { seeded : rng; os_entropy : nat -> N }.

Definition run (p : process) (num_records : nat) : list attack_record :=
  fst (generate_dataset num_records (seeded p)).

Definition main (p : process) : list attack_record := run p NUM_RECORDS.

End Generator.

(** * modules/data_adapter.py *)

Module Adapter.

(** ** Tables *)

(** A cell of a DataFrame.  [NaN] is the missing value; an [Instant]
    counts nanoseconds from the epoch, as [datetime64[ns]] does. *)
Inductive cell : Type :=
| NaN
| Num (q : Q)
| Str (s : string)
| Instant (t : Z).

Definition column : Type := list cell.

(** A DataFrame on the default [RangeIndex]: the length of its index and
    its columns in order. *)
Record frame := mk_frame { n_rows : nat; columns : list (string * column) }.

(** [mapped.get(key, default)] gives back a column or the default. *)
Inductive value : Type :=
| Series (col : column)
| Scalar (x : cell).

Fixpoint get_col (c : string) (cols : list (string * column)) : option column :=
  match cols with
  | [] => None
  | (k, v) :: rest => if String.eqb k c then Some v else get_col c rest
  end.

Fixpoint set_col (c : string) (v : column) (cols : list (string * column))
  : list (string * column) :=
  match cols with
  | [] => [(c, v)]
  | (k, x) :: rest =>
      if String.eqb k c then (k, v) :: rest else (k, x) :: set_col c v rest
  end.

Definition get (c : string) (df : frame) : option column := get_col c (columns df).

(** [c in df.columns] *)
Definition has (c : string) (df : frame) : bool :=
  match get c df with Some _ => true | None => false end.

(** [s.reindex(df.index)]: the first [n] cells, padded with [NaN]. *)
Definition reindex (n : nat) (col : column) : column :=
  firstn n col ++ repeat NaN (n - List.length col).

(** [df[c] = col]: the new column is aligned with the index of [df]. *)
Definition setitem (c : string) (col : column) (df : frame) : frame :=
  mk_frame (n_rows df) (set_col c (reindex (n_rows df) col) (columns df)).

(** [df.get(c, default)] *)
Definition frame_get (c : string) (df : frame) (default : value) : value :=
  match get c df with Some col => Series col | None => default end.

(** [s.fillna(v)] *)
Definition fillna (v : cell) (col : column) : column :=
  map (fun x => match x with NaN => v | _ => x end) col.

(** Every column as long as the index. *)
Definition rect (df : frame) : Prop :=
  Forall (fun kv => List.length (snd kv) = n_rows df) (columns df).

(** ** Finding the data set *)

(** The file names [find_dataset] looks for, in its order of preference. *)
Definition candidates : list string :=
  [ "Global_Cybersecurity_Threats_2015-2024_LARGE.csv";
    "Global_Cybersecurity_Threats_2015-2024.csv";
    "cybersecurity_large_synthesized_data.csv";
    "cybersecurity_attacks.csv" ].

(** A directory as [find_dataset] meets it: the names of its entries in
    the order [root.glob] yields them, each with the answer [exists()]
    gives for it.  A symbolic link whose target is gone is listed, yet
    does not exist.  Names are compared as they are, as on a POSIX file
    system. *)
Definition directory : Type := list (string * bool).

(** [(root / p).exists()] *)
Definition path_exists (root : directory) (p : string) : bool :=
  existsb (fun entry => String.eqb (fst entry) p && snd entry) root.

(** [root.glob('*.csv')] *)
Definition glob_csv (root : directory) : list string :=
  map fst (filter (fun entry => ends_with ".csv" (fst entry)) root).

Definition find_dataset (root : directory) : option string :=
  match find (path_exists root) candidates with
  | Some p => Some p
  | None =>
      match glob_csv root with
      | p :: _ => Some p
      | [] => None
      end
  end.

(** ** Exceptions, the clock and the monad of the adapter *)

Inductive exn : Type := TypeError | ValueError | NameError | KeyError | StopExecution.

Inductive result (A : Type) : Type :=
| Ok (a : A)
| Raise (e : exn).
Arguments Ok {A} a.
Arguments Raise {A} e.

(** What the adapter reads besides its argument: NumPy's generator and
    the clock behind [pd.Timestamp.now()]. *)
Record world := mk_world { gen : rng; clock : nat -> Z; ticks : nat }.

Definition M (A : Type) : Type := world -> result A * world.

Definition retM {A} (a : A) : M A := fun w => (Ok a, w).

Definition raise {A} (e : exn) : M A := fun w => (Raise e, w).

Definition bindM {A B} (m : M A) (k : A -> M B) : M B :=
  fun w =>
    match m w with
    | (Ok a, w') => k a w'
    | (Raise e, w') => (Raise e, w')
    end.

Definition draw {A} (m : St A) : M A :=
  fun w => let (a, g') := m (gen w) in (Ok a, mk_world g' (clock w) (ticks w)).

(** [pd.Timestamp.now()] *)
Definition now : M Z :=
  fun w => (Ok (clock w (ticks w)), mk_world (gen w) (clock w) (S (ticks w))).

Definition lift {A} (r : result A) : M A := fun w => (r, w).

Declare Scope adapter_scope.
Delimit Scope adapter_scope with M.
Notation "x <- m ;; k" := (bindM m (fun x => k))
  (at level 61, m at next level, right associativity) : adapter_scope.
Local Open Scope adapter_scope.

(** [df[c]] *)
Definition getitem (c : string) (df : frame) : M column :=
  match get c df with
  | Some col => retM col
  | None => raise KeyError
  end.

(** [s.apply(f)], where [f] may raise. *)
Fixpoint apply_cells (f : cell -> result cell) (col : column) : result column :=
  match col with
  | [] => Ok []
  | x :: rest =>
      match f x with
      | Raise e => Raise e
      | Ok y =>
          match apply_cells f rest with
          | Raise e => Raise e
          | Ok ys => Ok (y :: ys)
          end
      end
  end.

(** [x >= k] and [x > k] for a cell and a number: false on [NaN], a
    [TypeError] on a string or an instant. *)
Definition ge_cell (x : cell) (k : Q) : result bool :=
  match x with
  | Num q => Ok (Qle_bool k q)
  | NaN => Ok false
  | Str _ | Instant _ => Raise TypeError
  end.

Definition gt_cell (x : cell) (k : Q) : result bool :=
  match x with
  | Num q => Ok (negb (Qle_bool q k))
  | NaN => Ok false
  | Str _ | Instant _ => Raise TypeError
  end.

(** [a if test else b], the test being able to raise. *)
Definition if_ {A} (test : result bool) (a b : result A) : result A :=
  match test with
  | Raise e => Raise e
  | Ok true => a
  | Ok false => b
  end.

(** ** What pandas and Python convert *)

(** The conversions between text, numbers and instants that pandas and
    Python carry out: [str] of a number and of a timestamp,
    [pd.to_datetime] of a string and of a number, [pd.to_numeric] of a
    string.  The source pins no version of pandas, and [astype(str)]
    depends on it: before pandas 3 a missing value becomes the text
    "nan" ([missing_as_text] is [true]), from pandas 3 on it stays
    missing ([false]). *)
Class Conversions := {
  str_of_num : Q -> string;
  str_of_instant : Z -> string;
  parse_datetime : string -> option Z;
  datetime_of_num : Q -> option Z;
  parse_number : string -> option Q;
  missing_as_text : bool
}.

Section Pandas.
Context {cv : Conversions}.

(** [str(x)], as an f-string writes a cell *)
Definition str_of_cell (x : cell) : string :=
  match x with
  | NaN => "nan"
  | Num q => str_of_num q
  | Str s => s
  | Instant t => str_of_instant t
  end.

(** [col.astype(str)] on one cell: the text of the cell, a missing cell
    as the version of pandas has it. *)
Definition astype_str_cell (x : cell) : cell :=
  match x with
  | NaN => if missing_as_text then Str "nan" else NaN
  | _ => Str (str_of_cell x)
  end.

Definition astype_str (col : column) : column := map astype_str_cell col.

(** [col + suffix] on a column of text: a missing cell stays missing. *)
Definition str_add (suffix : string) (col : column) : column :=
  map (fun x => match x with Str s => Str (s ++ suffix) | _ => NaN end) col.

(** [col.str.lower()]: a cell that is not text comes out missing. *)
Definition str_lower (col : column) : column :=
  map (fun x => match x with Str s => Str (lower s) | _ => NaN end) col.

(** [pd.to_datetime(col, errors='coerce')] *)
Definition to_datetime_cell (x : cell) : cell :=
  match x with
  | NaN => NaN
  | Instant t => Instant t
  | Str s => match parse_datetime s with Some t => Instant t | None => NaN end
  | Num q => match datetime_of_num q with Some t => Instant t | None => NaN end
  end.

Definition to_datetime_coerce (col : column) : column := map to_datetime_cell col.

(** [pd.to_datetime(col)]: a [ValueError] where a cell does not read as
    a date; a missing cell stays missing. *)
Definition to_datetime_strict (col : column) : result column :=
  apply_cells
    (fun x => match x with
              | NaN => Ok NaN
              | Instant t => Ok (Instant t)
              | Str s => match parse_datetime s with
                         | Some t => Ok (Instant t)
                         | None => Raise ValueError
                         end
              | Num q => match datetime_of_num q with
                         | Some t => Ok (Instant t)
                         | None => Raise ValueError
                         end
              end)
    col.

(** [pd.to_numeric(col, errors='coerce')]; an instant is read as its
    count of nanoseconds. *)
Definition to_numeric_cell (x : cell) : cell :=
  match x with
  | NaN => NaN
  | Num q => Num q
  | Str s => match parse_number s with Some q => Num q | None => NaN end
  | Instant t => Num (inject_Z t)
  end.

Definition to_numeric (col : column) : column := map to_numeric_cell col.

(** [pd.to_datetime(mapped['Year'].astype(str) + '-01-01')] *)
Definition january_first (year : column) : result column :=
  to_datetime_strict (str_add "-01-01" (astype_str year)).

(** ** Placeholder synthesis: the first half of [map_global_schema] *)

Definition CANONICAL_COLUMNS : list string :=
  [ "Timestamp"; "Device Information"; "Attack Type"; "Anomaly Scores";
    "Packet Length"; "Source Port"; "Destination Port"; "Source IP Address";
    "Destination IP Address"; "Protocol"; "Action Taken"; "IDS/IPS Alerts";
    "Malware Indicators"; "Firewall Logs"; "Proxy Information"; "Attack Signature";
    "Severity Level" ].

Definition FINANCIAL_LOSS : string := "Financial Loss (in Million $)".
Definition AFFECTED_USERS : string := "Number of Affected Users".

(** [pd.Series(np.random.choice(xs, size=n))] *)
Definition np_choice (xs : list string) (n : nat) : M column :=
  picks <- draw (draw_n n (choice xs)) ;; retM (map Str picks).

(** [np.random.randint(lo, hi, size=n)]: [hi] is excluded. *)
Definition np_randint (lo hi : Z) (n : nat) : M column :=
  picks <- draw (draw_n n (randint lo (hi - 1))) ;;
  retM (map (fun k => Num (inject_Z k)) picks).

(** [if c not in mapped.columns: mapped[c] = make()] *)
Definition ensure (c : string) (make : M column) (mapped : frame) : M frame :=
  if negb (has c mapped) then
    col <- make ;; retM (setitem c col mapped)
  else retM mapped.

Definition fill_timestamp (mapped : frame) : M frame :=
  ensure "Timestamp"
    (if has "Year" mapped then
       year <- getitem "Year" mapped ;;
       lift (january_first year)
     else
       t <- now ;; retM (repeat (Instant t) (n_rows mapped)))
    mapped.

Definition device_types : list string :=
  [ "Network Sensor"; "Firewall"; "IDS"; "Server"; "Workstation"; "IoT Device" ].

Definition fill_device_information (mapped : frame) : M frame :=
  ensure "Device Information" (np_choice device_types (n_rows mapped)) mapped.

Definition attack_types : list string :=
  [ "DDoS"; "SQL Injection"; "XSS"; "Malware"; "Phishing"; "Zero-day Exploit" ].

Definition fill_attack_type (mapped : frame) : M frame :=
  if has "Attack Type" mapped then
    col <- getitem "Attack Type" mapped ;;
    retM (setitem "Attack Type" col mapped)
  else if has "attack_type" mapped then
    col <- getitem "attack_type" mapped ;;
    retM (setitem "Attack Type" col mapped)
  else
    col <- np_choice attack_types (n_rows mapped) ;;
    retM (setitem "Attack Type" col mapped).

(** [np.random.beta(2, 5, size=n)]: numbers of the unit interval. *)
Definition fill_anomaly_scores (mapped : frame) : M frame :=
  ensure "Anomaly Scores"
    (picks <- draw (draw_n (n_rows mapped) random) ;; retM (map Num picks))
    mapped.

Definition fill_packet_length (mapped : frame) : M frame :=
  ensure "Packet Length" (np_randint 64 1500 (n_rows mapped)) mapped.

Definition fill_source_port (mapped : frame) : M frame :=
  ensure "Source Port" (np_randint 1024 65535 (n_rows mapped)) mapped.

Definition common_ports : list Z :=
  [80; 443; 22; 21; 25; 53] ++ range 1024 65535.

Definition fill_destination_port (mapped : frame) : M frame :=
  ensure "Destination Port"
    (picks <- draw (draw_n (n_rows mapped) (choice_of 0 common_ports)) ;;
     retM (map (fun k => Num (inject_Z k)) picks))
    mapped.

(** The closure [generate_ip]: a private address three times out of ten. *)
Definition generate_ip : St string :=
  (u <- random ;;
   if negb (Qle_bool 0.3 u) then
     a <- randint 0 254 ;;
     b <- randint 1 254 ;;
     ret ("192.168." ++ str_of_Z a ++ "." ++ str_of_Z b)%string
   else
     a <- randint 1 222 ;;
     b <- randint 0 254 ;;
     c <- randint 0 254 ;;
     d <- randint 1 254 ;;
     ret (str_of_Z a ++ "." ++ str_of_Z b ++ "." ++ str_of_Z c ++ "." ++ str_of_Z d)%string)%st.

(** [[generate_ip() for _ in range(n)]] *)
Definition generated_ips (n : nat) : M column :=
  ips <- draw (draw_n n generate_ip) ;; retM (map Str ips).

(** The same comprehension where [generate_ip] was never defined: the
    name is looked up when the first row is reached. *)
Definition unbound_generate_ip (n : nat) : M column :=
  match n with
  | O => retM []
  | S _ => raise NameError
  end.

(** The two address columns.  [generate_ip] is defined inside the [if]
    that fills the source addresses, and only there. *)
Definition fill_ip_addresses (mapped : frame) : M frame :=
  if negb (has "Source IP Address" mapped) then
    src <- generated_ips (n_rows mapped) ;;
    let mapped := setitem "Source IP Address" src mapped in
    ensure "Destination IP Address" (generated_ips (n_rows mapped)) mapped
  else
    ensure "Destination IP Address" (unbound_generate_ip (n_rows mapped)) mapped.

Definition protocols : list string :=
  [ "TCP"; "UDP"; "ICMP"; "HTTP"; "HTTPS"; "DNS"; "SMTP" ].

Definition fill_protocol (mapped : frame) : M frame :=
  ensure "Protocol" (np_choice protocols (n_rows mapped)) mapped.

Definition actions : list string :=
  [ "Blocked"; "Allowed"; "Quarantined"; "Logged"; "Alerted"; "Escalated" ].

Definition fill_action_taken (mapped : frame) : M frame :=
  ensure "Action Taken"
    (if has "outcome" mapped then getitem "outcome" mapped
     else np_choice actions (n_rows mapped))
    mapped.

Definition alert_types : list string :=
  [ "Signature Match"; "Anomaly Detected"; "Policy Violation"; "No Alert"; "False Positive" ].

Definition fill_ids_alerts (mapped : frame) : M frame :=
  ensure "IDS/IPS Alerts" (np_choice alert_types (n_rows mapped)) mapped.

Definition indicators : list string :=
  [ "None Detected"; "Suspicious Binary"; "Known Malware"; "Potential Backdoor";
    "Ransomware Pattern" ].

Definition fill_malware_indicators (mapped : frame) : M frame :=
  ensure "Malware Indicators" (np_choice indicators (n_rows mapped)) mapped.

Definition log_types : list string :=
  [ "Connection Blocked"; "Traffic Allowed"; "Rate Limited"; "NAT Translation"; "VPN Access" ].

Definition fill_firewall_logs (mapped : frame) : M frame :=
  ensure "Firewall Logs" (np_choice log_types (n_rows mapped)) mapped.

Definition proxy_info : list string :=
  [ "Direct Connection"; "Via Corporate Proxy"; "VPN Endpoint"; "TOR Exit Node";
    "Unknown Proxy" ].

Definition fill_proxy_information (mapped : frame) : M frame :=
  ensure "Proxy Information" (np_choice proxy_info (n_rows mapped)) mapped.

(** [mapped['Attack Type'].apply(lambda x: f"{x}_{np.random.randint(1000, 9999)}")] *)
Definition fill_attack_signature (mapped : frame) : M frame :=
  ensure "Attack Signature"
    (types <- getitem "Attack Type" mapped ;;
     ks <- draw (draw_n (List.length types) (randint 1000 9998)) ;;
     retM (map (fun xk => Str (str_of_cell (fst xk) ++ "_" ++ str_of_Z (snd xk))%string)
             (combine types ks)))
    mapped.

(** [lambda x: 'Critical' if x >= 8 else ('High' if x >= 6 else
    ('Medium' if x >= 4 else 'Low'))] *)
Definition label_of_severity (x : cell) : result cell :=
  if_ (ge_cell x 8) (Ok (Str "Critical"))
    (if_ (ge_cell x 6) (Ok (Str "High"))
       (if_ (ge_cell x 4) (Ok (Str "Medium")) (Ok (Str "Low")))).

(** [lambda x: 'Critical' if x > 100 else ('High' if x > 50 else
    ('Medium' if x > 10 else 'Low'))] *)
Definition label_of_loss (x : cell) : result cell :=
  if_ (gt_cell x 100) (Ok (Str "Critical"))
    (if_ (gt_cell x 50) (Ok (Str "High"))
       (if_ (gt_cell x 10) (Ok (Str "Medium")) (Ok (Str "Low")))).

Definition severity_levels : list string := [ "Low"; "Medium"; "High"; "Critical" ].
Definition weights : list Q := [ 0.4; 0.3; 0.2; 0.1 ]%Q.

Definition fill_severity_level (mapped : frame) : M frame :=
  ensure "Severity Level"
    (if has "attack_severity" mapped then
       col <- getitem "attack_severity" mapped ;;
       lift (apply_cells label_of_severity col)
     else if has FINANCIAL_LOSS mapped then
       col <- getitem FINANCIAL_LOSS mapped ;;
       lift (apply_cells label_of_loss col)
     else
       picks <- draw (draw_n (n_rows mapped) (choices1 severity_levels weights)) ;;
       retM (map Str picks))
    mapped.

Definition country_coords : list (string * (Q * Q)) :=
  [ ("USA", (37.0902, -95.7129));
    ("China", (35.8617, 104.1954));
    ("Russia", (61.5240, 105.3188));
    ("UK", (55.3781, -3.4360));
    ("India", (20.5937, 78.9629)) ]%Q.

(** The left merge on the country name: the coordinate of a listed
    country, [NaN] for any other cell. *)
Definition merged (pick : Q * Q -> Q) (country : column) : column :=
  map (fun x =>
         match x with
         | Str s => match dict_get country_coords s with
                    | Some ll => Num (pick ll)
                    | None => NaN
                    end
         | _ => NaN
         end)
      country.

(** Whether pandas holds a column as text rather than as numbers or as
    instants: no dtype is kept with a column, it is the one [pd.read_csv]
    infers from the cells, text for a column that has a string in it. *)
Definition holds_text (col : column) : bool :=
  existsb (fun x => match x with Str _ => true | _ => false end) col.

(** The name of a column in a merged table: a name that both tables have
    gets the suffix of its side. *)
Definition suffixed (overlap : list string) (suffix c : string) : string :=
  if mem_str c overlap then (c ++ suffix)%string else c.

(** [mapped.merge(coord_df, left_on='Country', right_index=True,
    how='left')].  pandas does not match a column of numbers or of
    instants with the country names, a [ValueError], unless the table has
    no rows.  A column of [mapped] called "lat" or "lon" becomes "lat_x"
    or "lon_x" and the coordinate "lat_y" or "lon_y"; where [mapped]
    already has a column of the new name, pandas raises a [MergeError],
    which is a [ValueError]. *)
Definition merge_coords (mapped : frame) (country : column) : result frame :=
  let overlap := filter (fun c => has c mapped) ["lat"; "lon"] in
  if match country with [] => false | _ => negb (holds_text country) end
  then Raise ValueError
  else if existsb (fun c => has (c ++ "_x") mapped) overlap
  then Raise ValueError
  else
    Ok (mk_frame (n_rows mapped)
          (map (fun kv => (suffixed overlap "_x" (fst kv), snd kv)) (columns mapped)
             ++ [ (suffixed overlap "_y" "lat", merged fst country);
                  (suffixed overlap "_y" "lon", merged snd country) ])).

Definition fill_coordinates (mapped : frame) : M frame :=
  if has "Country" mapped && negb (has "Latitude" mapped) then
    country <- getitem "Country" mapped ;;
    joined <- lift (merge_coords mapped country) ;;
    lat <- getitem "lat" joined ;;
    let mapped := setitem "Latitude" (fillna (Num 0) lat) mapped in
    lon <- getitem "lon" joined ;;
    retM (setitem "Longitude" (fillna (Num 0) lon) mapped)
  else retM mapped.

(** [pd.to_datetime(mapped['Timestamp'], errors='coerce').fillna(pd.Timestamp.now())] *)
Definition coerce_timestamp (name : string) (df : frame) : M column :=
  col <- getitem name df ;;
  t <- now ;;
  retM (fillna (Instant t) (to_datetime_coerce col)).

Definition fill_timestamp_type (mapped : frame) : M frame :=
  ts <- coerce_timestamp "Timestamp" mapped ;;
  retM (setitem "Timestamp" ts mapped).

(** [for c in CANONICAL_COLUMNS: if c not in mapped.columns: mapped[c] = None ...] *)
Fixpoint fill_canonical (names : list string) (mapped : frame) : M frame :=
  match names with
  | [] => retM mapped
  | c :: rest =>
      mapped <- ensure c (retM (repeat NaN (n_rows mapped))) mapped ;;
      fill_canonical rest mapped
  end.

(** Lines 48 to 173 of the source, in their order. *)
Definition fill_placeholders (df : frame) : M frame :=
  mapped <- fill_timestamp df ;;
  mapped <- fill_device_information mapped ;;
  mapped <- fill_attack_type mapped ;;
  mapped <- fill_anomaly_scores mapped ;;
  mapped <- fill_packet_length mapped ;;
  mapped <- fill_source_port mapped ;;
  mapped <- fill_destination_port mapped ;;
  mapped <- fill_ip_addresses mapped ;;
  mapped <- fill_protocol mapped ;;
  mapped <- fill_action_taken mapped ;;
  mapped <- fill_ids_alerts mapped ;;
  mapped <- fill_malware_indicators mapped ;;
  mapped <- fill_firewall_logs mapped ;;
  mapped <- fill_proxy_information mapped ;;
  mapped <- fill_attack_signature mapped ;;
  mapped <- fill_severity_level mapped ;;
  mapped <- fill_coordinates mapped ;;
  mapped <- fill_timestamp_type mapped ;;
  fill_canonical CANONICAL_COLUMNS mapped.

(** ** The canonical projection: the second half of [map_global_schema] *)

(** [_as_series(val)]: a column is re-indexed, a scalar is repeated. *)
Definition as_series (n : nat) (val : value) : column :=
  match val with
  | Series col => reindex n col
  | Scalar x => repeat x n
  end.

Definition std_timestamp (mapped : frame) : M column :=
  if has "Timestamp" mapped then coerce_timestamp "Timestamp" mapped
  else if has "timestamp" mapped then coerce_timestamp "timestamp" mapped
  else if has "Year" mapped then
    year <- getitem "Year" mapped ;;
    lift (january_first year)
  else
    t <- now ;; retM (as_series (n_rows mapped) (Scalar (Instant t))).

Definition std_attack_type (mapped : frame) : M column :=
  if has "Attack Type" mapped then
    col <- getitem "Attack Type" mapped ;;
    retM (as_series (n_rows mapped) (Series col))
  else if has "attack_type" mapped then
    col <- getitem "attack_type" mapped ;;
    retM (as_series (n_rows mapped) (Series col))
  else
    retM (as_series (n_rows mapped)
            (frame_get "Attack Signature" mapped (Scalar (Str "Unknown")))).

Definition std_target_system (mapped : frame) : column :=
  as_series (n_rows mapped)
    (frame_get "Device Information" mapped
       (frame_get "Target" mapped
          (frame_get "Target Industry" mapped (Scalar (Str "Unknown System"))))).

Definition std_location (mapped : frame) : M column :=
  if has "location" mapped then
    col <- getitem "location" mapped ;;
    retM (as_series (n_rows mapped) (Series col))
  else if has "Country" mapped then
    col <- getitem "Country" mapped ;;
    retM (as_series (n_rows mapped) (Series col))
  else
    retM (as_series (n_rows mapped) (Scalar (Str "Unknown"))).

Definition std_industry (mapped : frame) : column :=
  as_series (n_rows mapped)
    (frame_get "Industry" mapped
       (frame_get "industry" mapped
          (frame_get "Target Industry" mapped (Scalar (Str "Various"))))).

(** The nested [sev_to_num], applied to the lower-cased label. *)
Definition sev_to_num (x : string) : Z :=
  if contains "critical" x then 9
  else if contains "high" x then 7
  else if contains "medium" x then 5
  else if contains "low" x then 2
  else 5.

(** [sev_to_num] on a cell: ['critical' in x] is a [TypeError] when [x]
    is a missing value and not a string. *)
Definition sev_of_label (x : cell) : result cell :=
  match x with
  | Str s => Ok (Num (inject_Z (sev_to_num s)))
  | _ => Raise TypeError
  end.

(** The nested [loss_to_sev]. *)
Definition loss_to_sev (x : cell) : result cell :=
  if_ (gt_cell x 100) (Ok (Num 9))
    (if_ (gt_cell x 50) (Ok (Num 7))
       (if_ (gt_cell x 10) (Ok (Num 5)) (Ok (Num 3)))).

(** [lambda x: 7 if x > 100000 else (5 if x > 10000 else 3)] *)
Definition users_to_sev (x : cell) : result cell :=
  if_ (gt_cell x 100000) (Ok (Num 7))
    (if_ (gt_cell x 10000) (Ok (Num 5)) (Ok (Num 3))).

(** [pd.to_numeric(mapped[c], errors='coerce').fillna(d)] *)
Definition numeric_or (d : Q) (col : column) : column :=
  fillna (Num d) (to_numeric col).

Definition std_attack_severity (mapped : frame) : M column :=
  if has "attack_severity" mapped then
    col <- getitem "attack_severity" mapped ;;
    retM (numeric_or 5 col)
  else if has "Severity Level" mapped then
    col <- getitem "Severity Level" mapped ;;
    let lvl := str_lower (astype_str col) in
    sev <- lift (apply_cells sev_of_label lvl) ;;
    retM (reindex (n_rows mapped) sev)
  else if has FINANCIAL_LOSS mapped then
    col <- getitem FINANCIAL_LOSS mapped ;;
    let loss := numeric_or 0 col in
    sev <- lift (apply_cells loss_to_sev loss) ;;
    retM (reindex (n_rows mapped) sev)
  else if has AFFECTED_USERS mapped then
    col <- getitem AFFECTED_USERS mapped ;;
    let users := numeric_or 0 col in
    sev <- lift (apply_cells users_to_sev users) ;;
    retM (reindex (n_rows mapped) sev)
  else
    retM (as_series (n_rows mapped) (Scalar (Num 5))).

(** [col * k] on a numeric column *)
Definition times (k : Q) (col : column) : column :=
  map (fun x => match x with Num q => Num (q * k) | _ => NaN end) col.

Definition std_data_compromised (mapped : frame) : M column :=
  if has "data_compromised_GB" mapped then
    col <- getitem "data_compromised_GB" mapped ;;
    retM (numeric_or 0 col)
  else if has FINANCIAL_LOSS mapped then
    col <- getitem FINANCIAL_LOSS mapped ;;
    let loss := numeric_or 0 col in
    retM (reindex (n_rows mapped) (times 0.5 loss))
  else if has AFFECTED_USERS mapped then
    col <- getitem AFFECTED_USERS mapped ;;
    let users := numeric_or 0 col in
    retM (reindex (n_rows mapped) (times 0.001 users))
  else
    retM (as_series (n_rows mapped) (Scalar (Num 0))).

(** [lambda x: 'Resolved' if x > 0 else 'Unknown'] *)
Definition outcome_of_hours (x : cell) : result cell :=
  if_ (gt_cell x 0) (Ok (Str "Resolved")) (Ok (Str "Unknown")).

Definition RESOLUTION_HOURS : string := "Incident Resolution Time (in Hours)".

Definition std_outcome (mapped : frame) : M column :=
  if has "Action Taken" mapped then
    col <- getitem "Action Taken" mapped ;;
    retM (as_series (n_rows mapped) (Series col))
  else if has "outcome" mapped then
    col <- getitem "outcome" mapped ;;
    retM (as_series (n_rows mapped) (Series col))
  else if has RESOLUTION_HOURS mapped then
    col <- getitem RESOLUTION_HOURS mapped ;;
    let hrs := numeric_or 0 col in
    out <- lift (apply_cells outcome_of_hours hrs) ;;
    retM (reindex (n_rows mapped) out)
  else
    retM (as_series (n_rows mapped) (Scalar (Str "Unknown"))).

Definition std_attacker_ip (mapped : frame) : column :=
  as_series (n_rows mapped)
    (frame_get "Source IP Address" mapped
       (frame_get "attacker_ip" mapped (Scalar (Str "0.0.0.0")))).

Definition std_target_ip (mapped : frame) : column :=
  as_series (n_rows mapped)
    (frame_get "Destination IP Address" mapped
       (frame_get "target_ip" mapped (Scalar (Str "0.0.0.0")))).

Definition std_mitigation_method (mapped : frame) : column :=
  as_series (n_rows mapped)
    (frame_get "Defense Mechanism Used" mapped
       (frame_get "Defense Mechanism" mapped
          (frame_get "mitigation_method" mapped
             (frame_get "Attack Signature" mapped (Scalar (Str "Standard Protocol")))))).

Definition std_attack_duration (mapped : frame) : column :=
  numeric_or 30
    (as_series (n_rows mapped)
       (frame_get "attack_duration_min" mapped
          (frame_get "Duration (min)" mapped (Scalar (Num 30))))).

Definition std_response_time (mapped : frame) : column :=
  numeric_or 15
    (as_series (n_rows mapped)
       (frame_get "response_time_min" mapped
          (frame_get "Response Time (min)" mapped (Scalar (Num 15))))).

Definition std_security_tools (mapped : frame) : column :=
  as_series (n_rows mapped)
    (frame_get "Defense Mechanism Used" mapped
       (frame_get "security_tools_used" mapped (Scalar (Str "Basic Security Suite")))).

Definition std_user_role (mapped : frame) : column :=
  as_series (n_rows mapped) (frame_get "user_role" mapped (Scalar (Str "User"))).

(** [standardized[c] = standardized[c].astype(str)] *)
Definition retype_str (c : string) (standardized : frame) : M frame :=
  col <- getitem c standardized ;;
  retM (setitem c (astype_str col) standardized).

(** Lines 185 to 297 of the source, in their order. *)
Definition standardize (mapped : frame) : M frame :=
  let standardized := mk_frame (n_rows mapped) [] in
  ts <- std_timestamp mapped ;;
  let standardized := setitem "timestamp" ts standardized in
  ty <- std_attack_type mapped ;;
  let standardized := setitem "attack_type" ty standardized in
  let standardized := setitem "target_system" (std_target_system mapped) standardized in
  loc <- std_location mapped ;;
  let standardized := setitem "location" loc standardized in
  let standardized := setitem "industry" (std_industry mapped) standardized in
  sev <- std_attack_severity mapped ;;
  let standardized := setitem "attack_severity" sev standardized in
  gb <- std_data_compromised mapped ;;
  let standardized := setitem "data_compromised_GB" gb standardized in
  out <- std_outcome mapped ;;
  let standardized := setitem "outcome" out standardized in
  let standardized := setitem "attacker_ip" (std_attacker_ip mapped) standardized in
  let standardized := setitem "target_ip" (std_target_ip mapped) standardized in
  let standardized := setitem "mitigation_method" (std_mitigation_method mapped) standardized in
  let standardized := setitem "attack_duration_min" (std_attack_duration mapped) standardized in
  let standardized := setitem "response_time_min" (std_response_time mapped) standardized in
  let standardized := setitem "security_tools_used" (std_security_tools mapped) standardized in
  let standardized := setitem "user_role" (std_user_role mapped) standardized in
  standardized <- retype_str "attack_type" standardized ;;
  standardized <- retype_str "target_system" standardized ;;
  retype_str "location" standardized.

Definition map_global_schema (df : frame) : M frame :=
  mapped <- fill_placeholders df ;;
  standardize mapped.

(** [load_best_dataset], from the table that [find_dataset] and
    [pd.read_csv] deliver; [None] when no CSV file was found. *)
Definition load_best_dataset (found : option frame) : M frame :=
  match found with
  | None => raise StopExecution
  | Some df =>
      if has "Country" df && has FINANCIAL_LOSS df then
        map_global_schema df
      else if has "Timestamp" df && has "Attack Type" df then
        ts <- coerce_timestamp "Timestamp" df ;;
        retM (setitem "Timestamp" ts df)
      else
        map_global_schema df
  end.

End Pandas.

(** The field list of the canonical table, in the order
    [map_global_schema] creates the columns. *)
Definition CANONICAL_FIELDS : list string :=
  [ "timestamp"; "attack_type"; "target_system"; "location"; "industry";
    "attack_severity"; "data_compromised_GB"; "outcome"; "attacker_ip";
    "target_ip"; "mitigation_method"; "attack_duration_min";
    "response_time_min"; "security_tools_used"; "user_role" ].

End Adapter.

(** * Specification vocabulary *)

(** [post m P]: whatever the tape holds, the value that [m] returns
    satisfies [P]. *)
Definition post {A} (m : St A) (P : A -> Prop) : Prop :=
  forall g, P (fst (m g)).

(** Two characters that are the same but for their case: the same
    character, or a capital letter, of code 65 to 90, and the small letter
    32 codes later. *)
Definition same_letter (a b : ascii) : bool :=
  let x := nat_of_ascii a in
  let y := nat_of_ascii b in
  Nat.eqb x y
  || (Nat.leb 65 x && Nat.leb x 90 && Nat.eqb y (x + 32))
  || (Nat.leb 65 y && Nat.leb y 90 && Nat.eqb x (y + 32)).

(** Two strings that are the same but for the case of their letters. *)
Fixpoint same_word (s t : string) : bool :=
  match s, t with
  | EmptyString, EmptyString => true
  | String a s', String b t' => same_letter a b && same_word s' t'
  | _, _ => false
  end.

(** [mentions word s]: [word] occurs in [s] when the case of letters is
    disregarded. *)
Definition mentions (word s : string) : Prop :=
  exists pre mid post, s = (pre ++ mid ++ post)%string /\ same_word mid word = true.

(** The rule for a severity label as the specification words it: the
    first of "critical", "high", "medium" and "low" that the label
    mentions decides, and 5 stands for a label that mentions none. *)
Definition label_rule (label : string) (k : Z) : Prop :=
  (mentions "critical" label /\ k = 9)
  \/ (~ mentions "critical" label /\ mentions "high" label /\ k = 7)
  \/ (~ mentions "critical" label /\ ~ mentions "high" label
      /\ mentions "medium" label /\ k = 5)
  \/ (~ mentions "critical" label /\ ~ mentions "high" label
      /\ ~ mentions "medium" label /\ mentions "low" label /\ k = 2)
  \/ (~ mentions "critical" label /\ ~ mentions "high" label
      /\ ~ mentions "medium" label /\ ~ mentions "low" label /\ k = 5).

Module GeneratorSpec.
Import Generator.

Definition severity_band (ty : string) : Z * Z :=
  dict_get_default severity_weights ty (3, 8).

(** What one pass through the body of [generate_attack_record] fixes:
    the severity lies in the band of the drawn type, and the source is a
    word of the vocabulary. *)
Definition drawn_well (l : locals) : Prop :=
  fst (severity_band (l_attack_type l)) <= l_attack_severity l
    <= snd (severity_band (l_attack_type l))
  /\ In (l_attack_source l) ATTACK_SOURCES.

(** Sample runs. *)
Definition sample_tape (k : N) : nat -> N := fun _ => k.

Definition sample_record (k : N) : attack_record :=
  hd (returned (fst (draw_attack (mk_rng (sample_tape k) 0))))
     (fst (generate_dataset 1 (mk_rng (sample_tape k) 0))).

Definition process_a : process := mk_process (mk_rng (sample_tape 2) 0) (fun _ => 0%N).
Definition process_b : process := mk_process (mk_rng (sample_tape 2) 0) (fun k => N.of_nat k).

End GeneratorSpec.

Module AdapterSpec.
Import Adapter.
Local Open Scope adapter_scope.

(** [mwp m P E]: in every world, a value that [m] returns satisfies [P],
    and [m] raises only if [E] holds. *)
Definition mwp {A} (m : M A) (P : A -> Prop) (E : Prop) : Prop :=
  forall w, match fst (m w) with Ok a => P a | Raise _ => E end.

(** [touches N O m m']: [m'] has the rows of [m] and at least its columns;
    a column is the same in both unless its name is in [O], or is in [N]
    and [m] did not have it. *)
Definition touches (N O : list string) (m m' : frame) : Prop :=
  n_rows m' = n_rows m /\
  (forall c, has c m = true -> has c m' = true) /\
  (forall c, ~ In c O -> has c m = true \/ ~ In c N -> get c m' = get c m).

(** A step raises on a table without rows only for want of a column it
    reads. *)
Definition fault (req : list string) (m : frame) : Prop :=
  n_rows m <> O \/ exists c, In c req /\ has c m = false.

Definition step_spec (N O req : list string) (s : frame -> M frame) : Prop :=
  forall m, rect m ->
    mwp (s m) (fun m' => rect m' /\ touches N O m m') (fault req m).

(** The names [fill_placeholders] may add to a table, and the names it
    may overwrite. *)
Definition FILL_NEW : list string := CANONICAL_COLUMNS ++ ["Latitude"; "Longitude"].
Definition FILL_OVER : list string := ["Timestamp"; "Longitude"].

(** The columns for want of which a step can raise on a table without
    rows: the two that later steps read without testing for them, and
    "Latitude", without which the coordinates are merged. *)
Definition REQUIRED : list string := ["Timestamp"; "Attack Type"; "Latitude"].

(** Steps run one after the other. *)
Fixpoint run_steps (steps : list (frame -> M frame)) (m : frame) : M frame :=
  match steps with
  | [] => retM m
  | s :: rest => m' <- s m ;; run_steps rest m'
  end.

Section Steps.
Context {cv : Conversions}.

Definition steps_to_attack_type : list (frame -> M frame) :=
  [ fill_timestamp; fill_device_information; fill_attack_type ].

Definition steps_to_action_taken : list (frame -> M frame) :=
  [ fill_anomaly_scores; fill_packet_length; fill_source_port;
    fill_destination_port; fill_ip_addresses; fill_protocol; fill_action_taken ].

Definition steps_to_severity_level : list (frame -> M frame) :=
  [ fill_ids_alerts; fill_malware_indicators; fill_firewall_logs;
    fill_proxy_information; fill_attack_signature; fill_severity_level ].

Definition steps_to_end : list (frame -> M frame) :=
  [ fill_coordinates; fill_timestamp_type; fill_canonical CANONICAL_COLUMNS ].

Definition fill_steps : list (frame -> M frame) :=
  steps_to_attack_type ++ steps_to_action_taken
    ++ steps_to_severity_level ++ steps_to_end.

(** The table [standardize] returns, given the six columns it computes
    with a test on the columns of [mapped]. *)
Definition assembled (mapped : frame) (ts ty loc sev gb oc : column) : frame :=
  let n := n_rows mapped in
  mk_frame n
    [ ("timestamp", reindex n ts);
      ("attack_type", reindex n (astype_str (reindex n ty)));
      ("target_system", reindex n (astype_str (reindex n (std_target_system mapped))));
      ("location", reindex n (astype_str (reindex n loc)));
      ("industry", reindex n (std_industry mapped));
      ("attack_severity", reindex n sev);
      ("data_compromised_GB", reindex n gb);
      ("outcome", reindex n oc);
      ("attacker_ip", reindex n (std_attacker_ip mapped));
      ("target_ip", reindex n (std_target_ip mapped));
      ("mitigation_method", reindex n (std_mitigation_method mapped));
      ("attack_duration_min", reindex n (std_attack_duration mapped));
      ("response_time_min", reindex n (std_response_time mapped));
      ("security_tools_used", reindex n (std_security_tools mapped));
      ("user_role", reindex n (std_user_role mapped)) ].

End Steps.

(** The kinds of cell. *)
Definition is_num (x : cell) : bool := match x with Num _ => true | _ => false end.
Definition is_str (x : cell) : bool := match x with Str _ => true | _ => false end.
Definition is_instant (x : cell) : bool := match x with Instant _ => true | _ => false end.
Definition not_null (x : cell) : bool := match x with NaN => false | _ => true end.

Definition all_cells (p : cell -> bool) (col : column) : Prop :=
  Forall (fun x => p x = true) col.

(** The table has the column [c], and all its cells are of kind [p]. *)
Definition typed (p : cell -> bool) (c : string) (df : frame) : Prop :=
  exists col, get c df = Some col /\ all_cells p col.

(** The fields whose kind the normalizer secures: an instant, three
    strings and four numbers. *)
Definition fields_typed (out : frame) : Prop :=
  typed is_instant "timestamp" out /\
  typed is_str "attack_type" out /\
  typed is_str "target_system" out /\
  typed is_str "location" out /\
  typed is_num "attack_severity" out /\
  typed is_num "data_compromised_GB" out /\
  typed is_num "attack_duration_min" out /\
  typed is_num "response_time_min" out.

Section Kinds.
Context {cv : Conversions}.



End Kinds.



(** The severity the code reaches from a financial loss when the input
    has neither a severity nor a label: the loss is first turned into a
    label, and the label into a number. *)
Definition severity_of_loss (q : Q) : Q :=
  if negb (Qle_bool q 100) then 9
  else if negb (Qle_bool q 50) then 7
  else if negb (Qle_bool q 10) then 5
  else 2.

(** The names the steps before [fill_severity_level] may add. *)
Definition NEW_BEFORE_LABEL : list string :=
  [ "Timestamp"; "Device Information"; "Attack Type"; "Anomaly Scores";
    "Packet Length"; "Source Port"; "Destination Port"; "Source IP Address";
    "Destination IP Address"; "Protocol"; "Action Taken"; "IDS/IPS Alerts";
    "Malware Indicators"; "Firewall Logs"; "Proxy Information"; "Attack Signature" ].

(** A cell that holds one of the synthesized device types. *)
Definition is_device (x : cell) : bool :=
  match x with
  | Str s => mem_str s device_types
  | _ => false
  end.

(** A table already in the canonical shape: rectangular, with exactly the
    canonical fields as columns, those of a fixed kind holding cells of
    that kind. *)
Definition canonical_shape (df : frame) : Prop :=
  rect df
  /\ (forall c, has c df = true <-> In c CANONICAL_FIELDS)
  /\ fields_typed df.

(** The fields that normalizing a canonical table gives back as they
    were. *)
Definition PRESERVED_FIELDS : list string :=
  [ "attack_type"; "location"; "industry"; "attack_severity";
    "data_compromised_GB"; "outcome"; "mitigation_method";
    "attack_duration_min"; "response_time_min"; "security_tools_used";
    "user_role" ].


(** Sample conversions, worlds and tables. *)
Definition sample_conversions : Conversions :=
  {| str_of_num := fun q => str_of_Z (Qfloor q);
     str_of_instant := fun t => str_of_Z t;
     parse_datetime := fun _ => None;
     datetime_of_num := fun q => Some (Qfloor q);
     parse_number := fun _ => None;
     missing_as_text := false |}.

Definition sample_world (k : N) : world :=
  mk_world (mk_rng (fun _ => k) 0) (fun n => 1000 + Z.of_nat n) 0.

Definition loss_table : frame :=
  mk_frame 4 [ (FINANCIAL_LOSS, [Num 120; Num 60; Num 20; Num 5]) ].

Definition small_loss_table : frame :=
  mk_frame 1 [ (FINANCIAL_LOSS, [Num 5]) ].


Definition both_shapes_table : frame :=
  mk_frame 1 [ ("Country", [Str "USA"]); (FINANCIAL_LOSS, [Num 120]);
               ("Timestamp", [Str "2020"]); ("Attack Type", [Str "DDoS"]) ].

Definition severe_table : frame :=
  mk_frame 1 [ ("attack_severity", [Num 15]) ].

Definition canonical_table : frame :=
  mk_frame 1
    [ ("timestamp", [Instant 5]); ("attack_type", [Str "Phishing"]);
      ("target_system", [Str "Web Server"]); ("location", [Str "USA"]);
      ("industry", [Str "Finance"]); ("attack_severity", [Num 7]);
      ("data_compromised_GB", [Num 2]); ("outcome", [Str "Mitigated"]);
      ("attacker_ip", [Str "10.0.0.1"]); ("target_ip", [Str "10.0.0.2"]);
      ("mitigation_method", [Str "Firewall"]); ("attack_duration_min", [Num 45]);
      ("response_time_min", [Num 20]); ("security_tools_used", [Str "SIEM"]);
      ("user_role", [Str "Admin"]) ].

Definition labelled_table : frame :=
  mk_frame 5
    [ ("Severity Level", [Str "Critical"; Str "HiGh"; Str "unrated"; Num 3; Str "Slow"]) ].





End AdapterSpec.

(** * Further vocabulary *)

Module GeneratorMore.
Import Generator.

(** The last instant [generate_timestamp] can return: midnight of the
    31st of December 2024, in seconds from [START_DATE]. *)
Definition WINDOW_SECONDS : Z := delta_days * 86400.

Definition OUTCOMES : list string := [ "Mitigated"; "Detected"; "Resolved" ].

Definition by_time (a b : attack_record) : Prop := timestamp a <= timestamp b.

(** What one pass through the body of [generate_attack_record] fixes
    besides the severity band: every categorical value is a word of its
    vocabulary, the outcome is one of three, and the instant lies in the
    window. *)
Definition drawn_in_vocabulary (l : locals) : Prop :=
  In (l_country l) COUNTRIES
  /\ In (l_attack_type l) ATTACK_TYPES
  /\ In (l_target_industry l) TARGET_INDUSTRIES
  /\ In (l_target_system l) TARGET_SYSTEMS
  /\ In (l_vulnerability l) SECURITY_VULNERABILITIES
  /\ In (l_defense l) DEFENSE_MECHANISMS
  /\ In (l_outcome l) OUTCOMES
  /\ 0 <= l_timestamp l <= WINDOW_SECONDS.

(** The attack types whose data loss does not grow with the severity. *)
Definition LOW_LOSS_TYPES : list string := [ "DDoS"; "Brute Force"; "Cryptojacking" ].

(** The bounds one pass keeps on its two banded numbers. *)
Definition drawn_in_bands (l : locals) : Prop :=
  (5 <= l_attack_duration l <= 300)%Q
  /\ (In (l_attack_type l) LOW_LOSS_TYPES -> (0.1 <= l_data_loss l <= 5)%Q).

(** The bounds one pass keeps on its magnitudes: the loss in dollars,
    the users, and the hours to resolution, whose upper bound shrinks and
    whose lower bound grows with the severity band. *)
Definition drawn_in_ranges (l : locals) : Prop :=
  (300 <= l_financial_loss l /\ l_financial_loss l <= 200000)%Q
  /\ 25 <= l_affected_users l <= 15000
  /\ (3 # 5 <= l_resolution_time l /\ l_resolution_time l <= 648 # 5)%Q
  /\ (8 <= l_attack_severity l -> (l_resolution_time l <= 252 # 5)%Q)
  /\ (l_attack_severity l < 5 -> (2 <= l_resolution_time l)%Q).

End GeneratorMore.

Module AdapterMore.
Import Adapter AdapterSpec.
Local Open Scope adapter_scope.

(** A step that cannot raise: it returns a rectangular table, having
    added names of [N] and overwritten names of [O] at most. *)
Definition safe (N O : list string) (s : frame -> M frame) : Prop :=
  forall m, rect m -> mwp (s m) (fun m' => rect m' /\ touches N O m m') False.

(** A cell that [>=] and [>] compare with a number without an error. *)
Definition comparable (x : cell) : bool :=
  match x with
  | NaN | Num _ => true
  | Str _ | Instant _ => false
  end.

Definition column_or_empty (c : string) (df : frame) : column :=
  match get c df with Some col => col | None => [] end.

(** The column the severity labels are computed from when the table has
    no "Severity Level": the severity if there is one, else the
    financial loss. *)
Definition label_source (df : frame) : column :=
  match get "attack_severity" df with
  | Some col => col
  | None => column_or_empty FINANCIAL_LOSS df
  end.

(** A computation that does not read the clock: it leaves the clock and
    the count of its readings as they were. *)
Definition timeless {A} (m : M A) : Prop :=
  forall w, clock (snd (m w)) = clock w /\ ticks (snd (m w)) = ticks w.

(** The exception the merge of the coordinates ends with, if any: a
    [ValueError] when "Country" is not a column of text on a table with
    rows, or when a column "lat" or "lon" cannot be renamed because the
    table has a "lat_x" or "lon_x" as well; failing that, a [KeyError]
    when the table has a column "lat" or "lon", which the merge renames. *)
Definition merge_failure (df : frame) : option exn :=
  if has "Country" df && negb (has "Latitude" df) then
    if negb (Nat.eqb (n_rows df) 0) && negb (holds_text (column_or_empty "Country" df))
    then Some ValueError
    else if has "lat" df && has "lat_x" df || has "lon" df && has "lon_x" df
    then Some ValueError
    else if has "lat" df || has "lon" df then Some KeyError
    else None
  else None.

Section Outcome.
Context {cv : Conversions}.

(** A year that [pd.to_datetime] reads once "-01-01" is appended; a
    missing year that pandas keeps missing is not read at all. *)
Definition year_parses (y : cell) : bool :=
  match astype_str_cell y with
  | Str s => match parse_datetime (s ++ "-01-01")%string with
             | Some _ => true
             | None => false
             end
  | _ => true
  end.

(** The exception [map_global_schema] ends with, if any, read off the
    input table, in the order of the steps: an unreadable year where the
    time stamps are made from "Year"; source addresses without
    destination addresses on a table with rows; a cell that is neither a
    number nor missing where the labels are made from the severity or
    the loss; the exception of the merge; and, where pandas keeps missing
    values, a missing label where the severity is made from the labels
    of the input. *)
Definition failure (df : frame) : option exn :=
  if negb (has "Timestamp" df)
     && negb (forallb year_parses (column_or_empty "Year" df))
  then Some ValueError
  else if has "Source IP Address" df && negb (has "Destination IP Address" df)
          && negb (Nat.eqb (n_rows df) 0)
  then Some NameError
  else if negb (has "Severity Level" df)
          && negb (forallb comparable (label_source df))
  then Some TypeError
  else
    match merge_failure df with
    | Some e => Some e
    | None =>
        if negb missing_as_text && negb (has "attack_severity" df)
           && negb (forallb not_null (column_or_empty "Severity Level" df))
        then Some TypeError
        else None
    end.

End Outcome.

(** An address as [generate_ip] writes it: four numbers between dots,
    the first from 1 to 222, the last from 1 to 254, the middle ones from
    0 to 254. *)
Definition dotted_quad (s : string) : Prop :=
  exists a b c d,
    s = (str_of_Z a ++ "." ++ str_of_Z b ++ "." ++ str_of_Z c ++ "." ++ str_of_Z d)%string
    /\ 1 <= a <= 222 /\ 0 <= b <= 254 /\ 0 <= c <= 254 /\ 1 <= d <= 254.

(** A column whose cells are strings that satisfy [P]. *)
Definition strings (P : string -> Prop) (col : column) : Prop :=
  Forall (fun x => exists s, x = Str s /\ P s) col.

(** Sample conversions under which a year reads as a date: the instant
    of a text is the number its first four characters spell. *)
Definition calendar_conversions : Conversions :=
  {| str_of_num := fun q => str_of_Z (Qfloor q);
     str_of_instant := fun t => str_of_Z t;
     parse_datetime :=
       fun s => option_map Z.of_int
                  (DecimalString.NilZero.int_of_string (substring 0 4 s));
     datetime_of_num := fun q => Some (Qfloor q);
     parse_number := fun _ => None;
     missing_as_text := false |}.

(** The same under a pandas that writes a missing value as "nan". *)
Definition legacy_conversions : Conversions :=
  {| str_of_num := fun q => str_of_Z (Qfloor q);
     str_of_instant := fun t => str_of_Z t;
     parse_datetime := fun _ => None;
     datetime_of_num := fun q => Some (Qfloor q);
     parse_number := fun _ => None;
     missing_as_text := true |}.

(** Sample tables. *)
Definition source_only_table : frame :=
  mk_frame 1 [ ("Timestamp", [Instant 7]); ("Source IP Address", [Str "10.0.0.1"]) ].

Definition worded_severity_table : frame :=
  mk_frame 2 [ ("attack_severity", [Num 3; Str "high"]) ].

Definition threats_table : frame :=
  mk_frame 2
    [ ("Country", [Str "UK"; Str "India"]); ("Year", [Num 2019; Num 2023]);
      ("Attack Type", [Str "Phishing"; Str "DDoS"]);
      ("Target Industry", [Str "Retail"; Str "Banking"]);
      (FINANCIAL_LOSS, [Num 80; NaN]); (AFFECTED_USERS, [Num 773169; Num 12]);
      ("Defense Mechanism Used", [Str "VPN"; Str "Firewall"]);
      (RESOLUTION_HOURS, [Num 63; Num 0]) ].

Definition attack_types_table : frame :=
  mk_frame 2 [ ("Attack Type", [Str "Phishing"; NaN]) ].

Definition stamped_table : frame :=
  mk_frame 3 [ ("Timestamp", [Instant 7; NaN; Str "soon"]);
               ("Attack Type", [Str "DDoS"; Str "XSS"; NaN]) ].


Definition unlabelled_table : frame :=
  mk_frame 2 [ ("Severity Level", [Str "High"; NaN]) ].

Definition users_table : frame :=
  mk_frame 2 [ ("timestamp", [Str "2021-05-01"; Str "2021-05-02"]);
               (AFFECTED_USERS, [Num 2000; Str "many"]) ].

End AdapterMore.

(** * The loaders that call the adapter *)

Module Loaders.
Import Adapter.
Local Open Scope adapter_scope.

(** [try: ... except Exception: st.error(...); st.stop()]: whatever the
    body raises, the script run is stopped. *)
Definition or_stop {A} (m : M A) : M A :=
  fun w =>
    match m w with
    | (Ok a, w') => (Ok a, w')
    | (Raise _, w') => (Raise StopExecution, w')
    end.

(** [pd.cut(x, bins, labels)] on one number: the label of the interval
    (lo, hi] it lies in, and no label outside the bins. *)
Fixpoint cut_label (bins : list Q) (labels : list string) (q : Q) : cell :=
  match bins, labels with
  | lo :: ((hi :: _) as rest), l :: ls =>
      if negb (Qle_bool q lo) && Qle_bool q hi then Str l else cut_label rest ls q
  | _, _ => NaN
  end.

Definition cut (bins : list Q) (labels : list string) (x : cell) : result cell :=
  match x with
  | Num q => Ok (cut_label bins labels q)
  | NaN => Ok NaN
  | Str _ | Instant _ => Raise TypeError
  end.

Definition severity_category : cell -> result cell :=
  cut [0; 25; 50; 75; 100]%Q ["Low"; "Medium"; "High"; "Critical"].

Definition resolution_category : cell -> result cell :=
  cut [0; 24; 48; 72]%Q ["Fast"; "Moderate"; "Slow"].

(** [x.clip(lo, hi)] *)
Definition clip (lo hi q : Q) : Q :=
  if Qle_bool q lo then lo else if Qle_bool hi q then hi else q.

(** [x.round(1)], ties to even. *)
Definition round1 (q : Q) : Q := Qmake (Generator.round_half_even (q * 10)) 10.

(** [(x / 10).clip(1, 10).round(1)] on one cell. *)
Definition severity_score (x : cell) : result cell :=
  match x with
  | Num q => Ok (Num (round1 (clip 1 10 (q / 10))))
  | NaN => Ok NaN
  | Str _ | Instant _ => Raise TypeError
  end.

Section Loading.
Context {cv : Conversions}.


(** Lines 61 to 65 of [load_global_data], the impact score, are left
    open: a quotient by a maximum that may be zero. *)
Variable impact_score : frame -> M column.

(** The columns that [load_global_data] adds, lines 43 to 65. *)
Definition enrich (df : frame) : M frame :=
  year <- getitem "Year" df ;;
  date <- lift (january_first year) ;;
  let df := setitem "Date" date df in
  loss <- getitem FINANCIAL_LOSS df ;;
  category <- lift (apply_cells severity_category loss) ;;
  let df := setitem "Severity_Category" category df in
  loss <- getitem FINANCIAL_LOSS df ;;
  score <- lift (apply_cells severity_score loss) ;;
  let df := setitem "Severity_Score" score df in
  hours <- getitem RESOLUTION_HOURS df ;;
  resolution <- lift (apply_cells resolution_category hours) ;;
  let df := setitem "Resolution_Category" resolution df in
  impact <- impact_score df ;;
  retM (setitem "Impact_Score" impact df).

(** [data_loader_global.load_global_data], with the arguments of
    [load_data].  An exception of the adapter is answered by reading the
    requested file once more, which is not there; the two handlers at
    the end turn every exception into [st.stop()]. *)
Definition load_global_data (requested : option (result frame)) (adapter : bool)
           (found : option frame) : M frame :=
  or_stop
    (df <- match requested with
           | Some read => lift read
           | None => if adapter then load_best_dataset found else raise StopExecution
           end ;;
     enrich df).

End Loading.

(** ** Two entries of [get_data_summary] in [data_loader_global.py] *)

(** [x == 'Success'] on one cell *)
Definition is_success (x : cell) : bool :=
  match x with
  | Str s => String.eqb s "Success"
  | _ => false
  end.

Definition total (qs : list Q) : Q := fold_right Qplus 0%Q qs.

(** [s.mean()] on the numbers of a column, the missing cells skipped. *)
Definition mean (qs : list Q) : cell :=
  match qs with
  | [] => NaN
  | _ => Num (total qs / inject_Z (Z.of_nat (List.length qs)))
  end.

Definition indicator (b : bool) : Q := (if b then 1 else 0)%Q.

(** ['success_rate': (df['outcome'] == 'Success').mean() * 100
    if 'outcome' in df.columns else 0] *)
Definition success_rate (df : frame) : cell :=
  match get "outcome" df with
  | None => Num 0
  | Some col =>
      match mean (map (fun x => indicator (is_success x)) col) with
      | Num q => Num (q * 100)
      | x => x
      end
  end.

(** The numbers of a numeric column, [None] for a column that holds a
    string or an instant. *)
Fixpoint numbers (col : column) : option (list Q) :=
  match col with
  | [] => Some []
  | NaN :: rest => numbers rest
  | Num q :: rest => option_map (cons q) (numbers rest)
  | (Str _ | Instant _) :: _ => None
  end.

(** ['avg_severity': float(df['attack_severity'].mean())
    if 'attack_severity' in df.columns else 0] *)
Definition avg_severity (df : frame) : result cell :=
  match get "attack_severity" df with
  | None => Ok (Num 0)
  | Some col =>
      match numbers col with
      | Some qs => Ok (mean qs)
      | None => Raise TypeError
      end
  end.

(** A sample directory, and a sample for the open impact score. *)
Definition sample_directory : directory :=
  [ ("notes.txt", true); ("zeta.csv", true);
    ("cybersecurity_large_synthesized_data.csv", false);
    ("cybersecurity_attacks.csv", true); ("app.py", true) ].

(** A directory whose only known name is a link to a file that is gone. *)
Definition dangling_directory : directory :=
  [ ("zeta.csv", true); ("cybersecurity_attacks.csv", false) ].

Definition blank_impact (df : frame) : M column := retM (repeat NaN (n_rows df)).

End Loaders.

(** * Reasoning about draws *)


Lemma post_ret {A} (a : A) (P : A -> Prop) : P a -> post (ret a) P.
Proof. intros H g. exact H. Qed.

Lemma post_bind {A B} (m : St A) (k : A -> St B) (Q : A -> Prop) (P : B -> Prop) :
  post m Q -> (forall a, Q a -> post (k a) P) -> post (bind m k) P.
Proof.
  intros Hm Hk g. unfold bind.
  specialize (Hm g). destruct (m g) as [a g']. simpl in Hm.
  apply Hk. exact Hm.
Qed.

Lemma post_any {A} (m : St A) : post m (fun _ => True).
Proof. intros g. exact I. Qed.

Lemma post_bind_any {A B} (m : St A) (k : A -> St B) (P : B -> Prop) :
  (forall a, post (k a) P) -> post (bind m k) P.
Proof. intros Hk. apply (post_bind m k (fun _ => True)); auto using post_any. Qed.

Lemma randbelow_range (n : Z) : 0 < n -> post (randbelow n) (fun k => 0 <= k < n).
Proof.
  intros Hn g. unfold randbelow, bind, next_word, ret. simpl.
  apply Z.mod_pos_bound. exact Hn.
Qed.

Lemma randint_range (a b : Z) : a <= b -> post (randint a b) (fun k => a <= k <= b).
Proof.
  intros Hab. unfold randint.
  apply (post_bind _ _ (fun k => 0 <= k < b - a + 1)).
  - apply randbelow_range. lia.
  - intros k Hk. apply post_ret. lia.
Qed.

Lemma choice_in (xs : list string) : xs <> [] -> post (choice xs) (fun x => In x xs).
Proof.
  intros Hne. unfold choice, choice_of.
  apply (post_bind _ _ (fun k => 0 <= k < Z.of_nat (List.length xs))).
  - apply randbelow_range. destruct xs; [congruence | simpl; lia].
  - intros k Hk. apply post_ret. apply nth_In. lia.
Qed.

Lemma dict_get_Forall {V} (P : V -> Prop) (d : list (string * V)) (key : string) (v : V) :
  Forall (fun kv => P (snd kv)) d -> dict_get d key = Some v -> P v.
Proof.
  induction d as [|[k x] d IH]; simpl; intros HF Hget.
  - discriminate.
  - inversion HF; subst. destruct (String.eqb k key).
    + injection Hget as <-. assumption.
    + auto.
Qed.

(** * Substrings and letter case *)

Lemma mem_str_In (x : string) (xs : list string) : mem_str x xs = true <-> In x xs.
Proof.
  unfold mem_str. rewrite existsb_exists. split.
  - intros (y & Hy & E). apply String.eqb_eq in E. subst y. exact Hy.
  - intros H. exists x. split; [exact H | apply String.eqb_refl].
Qed.

Lemma prefix_app (p s : string) :
  String.prefix p s = true <-> exists rest, s = (p ++ rest)%string.
Proof.
  revert s. induction p as [|a p IH]; intros s.
  - split; [intros _; exists s; reflexivity | intros _; destruct s; reflexivity].
  - destruct s as [|b s]; simpl.
    + split; [discriminate | intros [rest H]; discriminate H].
    + destruct (Ascii.ascii_dec a b) as [->|Hne].
      * rewrite IH. split; intros [rest H]; exists rest.
        -- rewrite H. reflexivity.
        -- injection H as H. exact H.
      * split; [discriminate|]. intros [rest H]. injection H as H _. congruence.
Qed.

Lemma contains_app (needle hay : string) :
  contains needle hay = true <-> exists pre post, hay = (pre ++ needle ++ post)%string.
Proof.
  induction hay as [|c hay IH]; cbn [contains].
  - rewrite orb_false_r, prefix_app. split.
    + intros [rest H]. exists "", rest. exact H.
    + intros (pre & post & H). destruct pre as [|a pre]; [|discriminate H].
      exists post. exact H.
  - rewrite orb_true_iff, prefix_app, IH. split.
    + intros [[rest H]|(pre & post & H)].
      * exists "", rest. exact H.
      * exists (String c pre), post. simpl. rewrite H. reflexivity.
    + intros (pre & post & H). destruct pre as [|a pre]; simpl in H.
      * left. exists post. exact H.
      * right. injection H as _ H. exists pre, post. exact H.
Qed.

Lemma lower_app (a b : string) : lower (a ++ b) = (lower a ++ lower b)%string.
Proof. induction a as [|c a IH]; simpl; [reflexivity | rewrite IH; reflexivity]. Qed.

Lemma lower_app_inv (s a b : string) :
  lower s = (a ++ b)%string ->
  exists s1 s2, s = (s1 ++ s2)%string /\ lower s1 = a /\ lower s2 = b.
Proof.
  revert s. induction a as [|c a IH]; intros s H; simpl in H.
  - exists "", s. repeat split. exact H.
  - destruct s as [|d s]; [discriminate H|]. simpl in H. injection H as Hc H.
    destruct (IH s H) as (s1 & s2 & -> & <- & <-).
    exists (String d s1), s2. simpl. rewrite Hc. repeat split.
Qed.

(** Every character, for checking a property of characters case by case. *)
Definition all_ascii : list ascii := map ascii_of_nat (seq 0 256).

Lemma all_ascii_complete (a : ascii) : In a all_ascii.
Proof.
  rewrite <- (ascii_nat_embedding a). apply in_map, in_seq.
  pose proof (nat_ascii_bounded a). lia.
Qed.

Lemma letters_checked :
  forallb
    (fun a =>
       forallb
         (fun b => implb (Ascii.eqb (lower_ascii b) b)
                     (Bool.eqb (same_letter a b) (Ascii.eqb (lower_ascii a) b)))
         all_ascii)
    all_ascii = true.
Proof. vm_compute. reflexivity. Qed.

(** Against a character that is not a capital letter, [lower] decides
    whether two characters are the same letter. *)
Lemma same_letter_lower (a b : ascii) :
  lower_ascii b = b -> (same_letter a b = true <-> lower_ascii a = b).
Proof.
  intros Hb. pose proof letters_checked as H.
  rewrite forallb_forall in H. specialize (H a (all_ascii_complete a)).
  rewrite forallb_forall in H. specialize (H b (all_ascii_complete b)).
  apply (proj2 (Ascii.eqb_eq _ _)) in Hb. rewrite Hb in H. cbn [implb] in H.
  apply Bool.eqb_prop in H. rewrite H. apply Ascii.eqb_eq.
Qed.

Lemma same_word_lower (mid word : string) :
  lower word = word -> (same_word mid word = true <-> lower mid = word).
Proof.
  revert word. induction mid as [|a mid IH]; intros [|b word] Hw; cbn [same_word lower].
  - split; reflexivity.
  - split; discriminate.
  - split; discriminate.
  - cbn [lower] in Hw. injection Hw as Hb Hw.
    rewrite andb_true_iff, (same_letter_lower a b Hb), (IH word Hw). split.
    + intros [-> ->]. reflexivity.
    + intros H. injection H as -> ->. split; reflexivity.
Qed.

(** Python's test [word in label.lower()] is the case-insensitive
    mention of [word], for a word without capital letters. *)
Lemma contains_lower_mentions (word label : string) :
  lower word = word ->
  (contains word (lower label) = true <-> mentions word label).
Proof.
  intros Hw. rewrite contains_app. unfold mentions. split.
  - intros (a & b & H).
    destruct (lower_app_inv _ _ _ H) as (pre & rest & -> & <- & Hrest).
    destruct (lower_app_inv _ _ _ Hrest) as (mid & post & -> & Hmid & <-).
    exists pre, mid, post. split; [reflexivity|]. apply same_word_lower; assumption.
  - intros (pre & mid & post & -> & Hmid). apply same_word_lower in Hmid; [|exact Hw].
    exists (lower pre), (lower post). rewrite !lower_app, Hmid. reflexivity.
Qed.

Section GeneratorFacts.
Import Generator GeneratorSpec.

(** Every band of the severity table is a non-empty interval. *)
Lemma severity_weights_ordered :
  Forall (fun kv => fst (snd kv) <= snd (snd kv)) severity_weights.
Proof. unfold severity_weights. repeat constructor; simpl; lia. Qed.


Lemma severity_band_ordered (ty : string) :
  fst (severity_band ty) <= snd (severity_band ty).
Proof.
  unfold severity_band, dict_get_default.
  destruct (dict_get severity_weights ty) as [v|] eqn:E.
  - exact (dict_get_Forall (fun v => fst v <= snd v) _ _ _ severity_weights_ordered E).
  - simpl. lia.
Qed.


Ltac skip_draw := apply post_bind_any; intro.

Lemma draw_attack_well : post draw_attack drawn_well.
Proof.
  unfold draw_attack.
  do 3 skip_draw. apply post_bind_any; intros attack_type.
  do 2 skip_draw.
  apply (post_bind _ _ (fun s => fst (severity_band attack_type) <= s
                                  <= snd (severity_band attack_type))).
  { apply randint_range. apply severity_band_ordered. }
  intros sev Hsev.
  do 4 skip_draw.
  apply (post_bind _ _ (fun s => In s ATTACK_SOURCES)).
  { apply choice_in. discriminate. }
  intros src Hsrc.
  do 8 skip_draw.
  apply post_ret. split; assumption.
Qed.

Lemma draw_many_well (n : nat) : post (draw_many n) (Forall drawn_well).
Proof.
  induction n as [|n IH]; simpl.
  - apply post_ret. constructor.
  - apply (post_bind _ _ drawn_well); [apply draw_attack_well|].
    intros l Hl. apply (post_bind _ _ (Forall drawn_well)); [exact IH|].
    intros ls Hls. apply post_ret. constructor; assumption.
Qed.

Lemma insert_by_time_In (r x : attack_record) (rs : list attack_record) :
  In x (insert_by_time r rs) -> x = r \/ In x rs.
Proof.
  induction rs as [|y rs IH]; simpl.
  - intros [H|[]]; auto.
  - destruct (timestamp r <=? timestamp y); simpl.
    + intros [H|[H|H]]; auto.
    + intros [H|H]; auto. destruct (IH H); auto.
Qed.

Lemma sort_values_timestamp_In (x : attack_record) (rs : list attack_record) :
  In x (sort_values_timestamp rs) -> In x rs.
Proof.
  induction rs as [|r rs IH]; simpl.
  - auto.
  - intros H. apply insert_by_time_In in H. destruct H; auto.
Qed.

(** Every row of the data set is the [return] of one pass through the
    body, and that pass was drawn well. *)
Lemma generate_dataset_rows (g : rng) (n : nat) (r : attack_record) :
  In r (fst (generate_dataset n g)) ->
  exists l, In l (fst (draw_many n g)) /\ r = returned l /\ drawn_well l.
Proof.
  unfold generate_dataset, bind, ret.
  pose proof (draw_many_well n g) as Hall.
  destruct (draw_many n g) as [ls g']. simpl in *.
  intros Hin. apply sort_values_timestamp_In in Hin.
  apply in_map_iff in Hin. destruct Hin as (l & <- & Hl).
  exists l. split; [exact Hl|]. split; [reflexivity|].
  rewrite Forall_forall in Hall. apply Hall, Hl.
Qed.

(** C8.  Every record of a generated data set whose type is "Ransomware"
    has a severity between 7 and 10, every "Brute Force" record one
    between 3 and 6, and a record whose type the severity table does not
    list has one between 3 and 8. *)
Theorem generator_severity_in_band (g : rng) (n : nat) (r : attack_record) :
  In r (fst (generate_dataset n g)) ->
  (attack_type r = "Ransomware" -> 7 <= attack_severity r <= 10) /\
  (attack_type r = "Brute Force" -> 3 <= attack_severity r <= 6) /\
  (dict_get severity_weights (attack_type r) = None -> 3 <= attack_severity r <= 8).
Proof.
  intros Hin.
  destruct (generate_dataset_rows g n r Hin) as (l & _ & -> & Hband & _).
  cbn [attack_type attack_severity returned].
  unfold severity_band, dict_get_default in Hband.
  split; [|split]; intros Hty; rewrite Hty in Hband; simpl in Hband; lia.
Qed.


Lemma generator_severity_in_band_witness :
  7 <= attack_severity (sample_record 1) <= 10
  /\ 3 <= attack_severity (sample_record 7) <= 6
  /\ 3 <= attack_severity (sample_record 5) <= 8.
Proof.
  split; [|split].
  - apply (generator_severity_in_band (mk_rng (sample_tape 1) 0) 1 (sample_record 1)).
    + vm_compute. left. reflexivity.
    + vm_compute. reflexivity.
  - apply (generator_severity_in_band (mk_rng (sample_tape 7) 0) 1 (sample_record 7)).
    + vm_compute. left. reflexivity.
    + vm_compute. reflexivity.
  - apply (generator_severity_in_band (mk_rng (sample_tape 5) 0) 1 (sample_record 5)).
    + vm_compute. left. reflexivity.
    + vm_compute. reflexivity.
Defined.

Lemma insider_only_in_insider_threat (s : string) :
  In s ATTACK_SOURCES -> (contains "Insider" s = true <-> s = "Insider Threat").
Proof.
  unfold ATTACK_SOURCES. simpl.
  intros H. repeat (destruct H as [<-|H]; [split; intros E; (discriminate E || reflexivity)|]).
  destruct H.
Qed.

(** C10.  Every record of a generated data set comes from one pass through
    the body of [generate_attack_record]; the attack source drawn in that
    pass is a word of [ATTACK_SOURCES], the record says "Internal" exactly
    when that source contains "Insider", which among the vocabulary only
    "Insider Threat" does, and it says "External" otherwise. *)
Theorem attacker_origin_follows_source (g : rng) (n : nat) (r : attack_record) :
  In r (fst (generate_dataset n g)) ->
  exists l,
    In l (fst (draw_many n g)) /\ r = returned l /\
    In (l_attack_source l) ATTACK_SOURCES /\
    (attacker_origin r = "Internal" <-> contains "Insider" (l_attack_source l) = true) /\
    (attacker_origin r = "External" <-> contains "Insider" (l_attack_source l) = false) /\
    (attacker_origin r = "Internal" <-> l_attack_source l = "Insider Threat").
Proof.
  intros Hin.
  destruct (generate_dataset_rows g n r Hin) as (l & Hl & -> & _ & Hsrc).
  exists l. split; [exact Hl|]. split; [reflexivity|]. split; [exact Hsrc|].
  pose proof (insider_only_in_insider_threat _ Hsrc) as Honly.
  cbn [attacker_origin returned].
  destruct (contains "Insider" (l_attack_source l)); cbn [negb].
  - split; [|split]; split; intros H; try reflexivity; try discriminate H.
    apply Honly. reflexivity.
  - split; [|split]; split; intros H; try reflexivity; try discriminate H.
    apply Honly in H. discriminate H.
Qed.

Lemma attacker_origin_follows_source_witness :
  attacker_origin (sample_record 2) = "Internal"
  /\ attacker_origin (sample_record 1) = "External".
Proof.
  split.
  - destruct (attacker_origin_follows_source (mk_rng (sample_tape 2) 0) 1 (sample_record 2))
      as (l & _ & _ & _ & _ & _ & Hint).
    + vm_compute. left. reflexivity.
    + vm_compute. reflexivity.
  - destruct (attacker_origin_follows_source (mk_rng (sample_tape 1) 0) 1 (sample_record 1))
      as (l & _ & _ & _ & _ & Hext & _).
    + vm_compute. left. reflexivity.
    + vm_compute. reflexivity.
Defined.

(** The offset of a timestamp is the next word of the seeded tape, reduced
    into the window of 2191 days. *)
Lemma generate_timestamp_reads_seeded_tape (g : rng) :
  generate_timestamp g =
    (Z.of_N (tape g (cursor g)) mod 189302401, mk_rng (tape g) (S (cursor g))).
Proof. reflexivity. Qed.

(** C4.  Two runs of the script whose module-level generator was seeded
    alike return the same rows whatever else differs between the two
    processes: the same types, locations and severities in the same
    order, and also the same timestamps, since [generate_timestamp]
    draws its offset from the seeded generator. *)
Theorem seeded_runs_repeat_timestamps (p1 p2 : process) (n : nat) :
  seeded p1 = seeded p2 ->
  map attack_type (run p1 n) = map attack_type (run p2 n) /\
  map location (run p1 n) = map location (run p2 n) /\
  map attack_severity (run p1 n) = map attack_severity (run p2 n) /\
  map timestamp (run p1 n) = map timestamp (run p2 n).
Proof.
  unfold run. intros ->. repeat split.
Qed.


Lemma seeded_runs_repeat_timestamps_witness :
  map timestamp (run process_a 2) = map timestamp (run process_b 2).
Proof.
  apply (seeded_runs_repeat_timestamps process_a process_b 2). reflexivity.
Defined.

End GeneratorFacts.

(** * Reasoning about tables *)

(** A name that is not in a written-out list. *)
Ltac not_in_list :=
  let H := fresh in
  intros H; simpl in H;
  repeat (destruct H as [H|H]; [discriminate H|]); exact H.


Section FrameFacts.
Import Adapter.

Lemma get_col_set_col (c c' : string) (v : column) (cols : list (string * column)) :
  get_col c (set_col c' v cols) = if String.eqb c' c then Some v else get_col c cols.
Proof.
  induction cols as [|[k x] rest IH]; simpl.
  - destruct (String.eqb c' c); reflexivity.
  - destruct (String.eqb k c') eqn:Ekc'; simpl.
    + apply String.eqb_eq in Ekc'. subst k.
      destruct (String.eqb c' c); reflexivity.
    + destruct (String.eqb k c) eqn:Ekc.
      * apply String.eqb_eq in Ekc. subst k.
        rewrite String.eqb_sym, Ekc'. reflexivity.
      * exact IH.
Qed.

Lemma set_col_same (c : string) (v : column) (cols : list (string * column)) :
  get_col c cols = Some v -> set_col c v cols = cols.
Proof.
  induction cols as [|[k x] rest IH]; simpl; intros H.
  - discriminate.
  - destruct (String.eqb k c).
    + injection H as ->. reflexivity.
    + rewrite IH by exact H. reflexivity.
Qed.

Lemma get_col_In (c : string) (v : column) (cols : list (string * column)) :
  get_col c cols = Some v -> In (c, v) cols.
Proof.
  induction cols as [|[k x] rest IH]; simpl; intros H.
  - discriminate.
  - destruct (String.eqb k c) eqn:E.
    + apply String.eqb_eq in E. injection H as ->. left. congruence.
    + right. auto.
Qed.

Lemma reindex_length (n : nat) (col : column) : List.length (reindex n col) = n.
Proof.
  unfold reindex. rewrite length_app, length_firstn, repeat_length. lia.
Qed.

Lemma reindex_id (n : nat) (col : column) : List.length col = n -> reindex n col = col.
Proof.
  intros <-. unfold reindex.
  rewrite firstn_all, Nat.sub_diag. simpl. apply app_nil_r.
Qed.

Lemma get_setitem (c c' : string) (v : column) (m : frame) :
  get c (setitem c' v m) =
    if String.eqb c' c then Some (reindex (n_rows m) v) else get c m.
Proof. unfold get, setitem. simpl. apply get_col_set_col. Qed.

Lemma has_setitem (c c' : string) (v : column) (m : frame) :
  has c (setitem c' v m) = String.eqb c' c || has c m.
Proof.
  unfold has. rewrite get_setitem. destruct (String.eqb c' c); reflexivity.
Qed.

Lemma rect_get (m : frame) (c : string) (col : column) :
  rect m -> get c m = Some col -> List.length col = n_rows m.
Proof.
  unfold rect, get. intros Hr Hg. apply get_col_In in Hg.
  rewrite Forall_forall in Hr. exact (Hr _ Hg).
Qed.

Lemma set_col_Forall (P : string * column -> Prop) c v cols :
  Forall P cols -> P (c, v) -> (forall k x, P (k, x) -> k = c -> P (k, v)) ->
  Forall P (set_col c v cols).
Proof.
  intros HF Hcv Hk. induction cols as [|[k x] rest IH]; simpl.
  - constructor; [exact Hcv | constructor].
  - inversion HF; subst. destruct (String.eqb k c) eqn:E.
    + apply String.eqb_eq in E. subst k. constructor; assumption.
    + constructor; auto.
Qed.

Lemma rect_setitem (c : string) (v : column) (m : frame) :
  rect m -> rect (setitem c v m).
Proof.
  unfold rect, setitem. simpl. intros H.
  apply set_col_Forall; simpl; auto using reindex_length.
Qed.

(** Assigning to a rectangular table the column it already holds under
    that name changes nothing. *)
Lemma setitem_same (c : string) (col : column) (m : frame) :
  rect m -> get c m = Some col -> setitem c col m = m.
Proof.
  intros Hr Hg. unfold setitem. destruct m as [n cols]. simpl in *.
  f_equal. rewrite reindex_id by exact (rect_get _ _ _ Hr Hg).
  apply set_col_same. exact Hg.
Qed.

Lemma get_col_app (c : string) (a b : list (string * column)) :
  get_col c (a ++ b) = match get_col c a with
                       | Some v => Some v
                       | None => get_col c b
                       end.
Proof.
  induction a as [|[k x] rest IH]; simpl; [reflexivity|].
  destruct (String.eqb k c); [reflexivity | exact IH].
Qed.

(** The columns of the left table after a merge: a column whose name
    overlaps is no longer found under it, the others are found as they
    were. *)
Lemma get_col_suffixed (overlap : list string) (c : string) (cols : list (string * column)) :
  (forall k, In k overlap -> (k ++ "_x")%string <> c) ->
  get_col c (map (fun kv => (suffixed overlap "_x" (fst kv), snd kv)) cols)
  = if mem_str c overlap then None else get_col c cols.
Proof.
  intros Hx. induction cols as [|[k v] rest IH]; cbn [map get_col fst snd].
  - destruct (mem_str c overlap); reflexivity.
  - unfold suffixed at 1. destruct (mem_str k overlap) eqn:Ek.
    + apply mem_str_In in Ek.
      destruct (String.eqb (k ++ "_x") c) eqn:E1.
      { apply String.eqb_eq in E1. exfalso. exact (Hx k Ek E1). }
      rewrite IH. destruct (mem_str c overlap) eqn:Ec; [reflexivity|].
      destruct (String.eqb k c) eqn:E2; [|reflexivity].
      apply String.eqb_eq in E2. subst k. apply mem_str_In in Ek.
      rewrite Ek in Ec. discriminate Ec.
    + destruct (String.eqb k c) eqn:E2.
      * apply String.eqb_eq in E2. subst k. rewrite Ek. reflexivity.
      * exact IH.
Qed.

(** In the merged table the coordinates are found under "lat" and "lon"
    unless the left table had a column of that name. *)
Lemma merge_coords_returned (mapped joined : frame) (country : column) :
  merge_coords mapped country = Ok joined ->
  get "lat" joined = (if has "lat" mapped then None else Some (merged fst country))
  /\ get "lon" joined = (if has "lon" mapped then None else Some (merged snd country)).
Proof.
  unfold merge_coords.
  destruct (match country with [] => false | _ => negb (holds_text country) end);
    [discriminate|].
  set (overlap := filter (fun c => has c mapped) ["lat"; "lon"]).
  destruct (existsb (fun c => has (c ++ "_x") mapped) overlap); [discriminate|].
  intros H. injection H as <-. unfold get. cbn [columns].
  assert (Hx : forall c, c = "lat" \/ c = "lon" ->
                         forall k, In k overlap -> (k ++ "_x")%string <> c).
  { intros c Hc k Hk. apply filter_In in Hk. destruct Hk as [Hk _].
    simpl in Hk. destruct Hc as [-> | ->];
      destruct Hk as [<-|[<-|[]]]; discriminate. }
  rewrite !get_col_app, !get_col_suffixed by (apply Hx; auto).
  subst overlap. unfold has, get. cbn [filter].
  destruct (get_col "lat" (columns mapped)), (get_col "lon" (columns mapped));
    split; reflexivity.
Qed.

End FrameFacts.

(** * Reasoning about the adapter's monad *)

Section AdapterLogic.
Import Adapter AdapterSpec.
Local Open Scope adapter_scope.


Lemma mwp_ret {A} (a : A) (P : A -> Prop) (E : Prop) : P a -> mwp (retM a) P E.
Proof. intros H w. exact H. Qed.

Lemma mwp_raise {A} (e : exn) (P : A -> Prop) (E : Prop) : E -> mwp (raise e) P E.
Proof. intros H w. exact H. Qed.

Lemma mwp_bind {A B} (m : M A) (k : A -> M B) (Q : A -> Prop) (P : B -> Prop) (E : Prop) :
  mwp m Q E -> (forall a, Q a -> mwp (k a) P E) -> mwp (bindM m k) P E.
Proof.
  intros Hm Hk w. unfold bindM. specialize (Hm w).
  destruct (m w) as [[a|e] w1]; simpl in *.
  - apply Hk. exact Hm.
  - exact Hm.
Qed.

Lemma mwp_weaken {A} (m : M A) (P P' : A -> Prop) (E E' : Prop) :
  mwp m P E -> (forall a, P a -> P' a) -> (E -> E') -> mwp m P' E'.
Proof.
  intros Hm HP HE w. specialize (Hm w).
  destruct (fst (m w)); auto.
Qed.

Lemma mwp_draw {A} (m : St A) (P : A -> Prop) (E : Prop) :
  post m P -> mwp (draw m) P E.
Proof.
  intros Hm w. unfold draw. specialize (Hm (gen w)).
  destruct (m (gen w)). exact Hm.
Qed.

Lemma mwp_now (P : Z -> Prop) (E : Prop) : (forall t, P t) -> mwp now P E.
Proof. intros H w. apply H. Qed.

Lemma mwp_lift {A} (r : result A) (P : A -> Prop) (E : Prop) :
  match r with Ok a => P a | Raise _ => E end -> mwp (lift r) P E.
Proof. intros H w. exact H. Qed.

Lemma mwp_getitem (c : string) (m : frame) (P : column -> Prop) (E : Prop) :
  (forall col, get c m = Some col -> P col) -> (has c m = false -> E) ->
  mwp (getitem c m) P E.
Proof.
  intros HP HE w. unfold getitem, has in *.
  destruct (get c m); simpl; auto.
Qed.

(** Reading the result off a run that returned. *)
Lemma mwp_returned {A} (m : M A) (P : A -> Prop) (E : Prop) (w w' : world) (a : A) :
  mwp m P E -> m w = (Ok a, w') -> P a.
Proof. intros Hm Hrun. specialize (Hm w). rewrite Hrun in Hm. exact Hm. Qed.

(** A computation that cannot raise returns. *)
Lemma mwp_returns {A} (m : M A) (P : A -> Prop) (w : world) :
  mwp m P False -> exists a w', m w = (Ok a, w') /\ P a.
Proof.
  intros Hm. specialize (Hm w). destruct (m w) as [[a|e] w'] eqn:Hrun; simpl in Hm.
  - exists a, w'. split; [reflexivity | exact Hm].
  - destruct Hm.
Qed.

Lemma bindM_returned {A B} (m : M A) (k : A -> M B) (w w' : world) (b : B) :
  bindM m k w = (Ok b, w') ->
  exists a w1, m w = (Ok a, w1) /\ k a w1 = (Ok b, w').
Proof.
  unfold bindM. destruct (m w) as [[a|e] w1]; intros H.
  - exists a, w1. split; [reflexivity | exact H].
  - discriminate.
Qed.

(** ** What a step may change *)


Lemma touches_refl (N O : list string) (m : frame) : touches N O m m.
Proof. repeat split; auto. Qed.

Lemma touches_trans (N O : list string) (m1 m2 m3 : frame) :
  touches N O m1 m2 -> touches N O m2 m3 -> touches N O m1 m3.
Proof.
  intros (Hn1 & Hh1 & Hg1) (Hn2 & Hh2 & Hg2). split; [congruence|]. split.
  - auto.
  - intros c HO Hc. rewrite Hg2.
    + apply Hg1; assumption.
    + exact HO.
    + destruct Hc as [Hc|Hc]; auto.
Qed.

Lemma touches_weaken (N O N' O' : list string) (m m' : frame) :
  incl N N' -> incl O O' -> touches N O m m' -> touches N' O' m m'.
Proof.
  intros HN HO (Hn & Hh & Hg). split; [exact Hn|]. split; [exact Hh|].
  intros c HcO Hc. apply Hg.
  - intros H. apply HcO, HO, H.
  - destruct Hc as [Hc|Hc]; [left; exact Hc | right; intros H; apply Hc, HN, H].
Qed.

Lemma has_setitem_mono (c c' : string) (v : column) (m : frame) :
  has c m = true -> has c (setitem c' v m) = true.
Proof. intros H. rewrite has_setitem, H. apply orb_true_r. Qed.

Lemma touches_setitem_new (c : string) (v : column) (m : frame) :
  has c m = false -> touches [c] [] m (setitem c v m).
Proof.
  intros Habs. split; [reflexivity|]. split.
  - intros c'. apply has_setitem_mono.
  - intros c' _ Hc'. rewrite get_setitem.
    destruct (String.eqb c c') eqn:E; [|reflexivity].
    apply String.eqb_eq in E. subst c'.
    destruct Hc' as [H|H]; [congruence | exfalso; apply H; left; reflexivity].
Qed.

Lemma touches_setitem_over (c : string) (v : column) (m : frame) :
  touches [] [c] m (setitem c v m).
Proof.
  split; [reflexivity|]. split.
  - intros c'. apply has_setitem_mono.
  - intros c' Hc' _. rewrite get_setitem.
    destruct (String.eqb c c') eqn:E; [|reflexivity].
    apply String.eqb_eq in E. subst c'. exfalso. apply Hc'. left. reflexivity.
Qed.


Lemma ensure_spec (c : string) (make : M column) (m : frame) (E : Prop) :
  rect m -> mwp make (fun _ => True) E ->
  mwp (ensure c make m)
      (fun m' => rect m' /\ touches [c] [] m m' /\ has c m' = true) E.
Proof.
  intros Hr Hmake. unfold ensure.
  destruct (has c m) eqn:Hc; simpl.
  - apply mwp_ret. auto using touches_refl.
  - apply (mwp_bind _ _ (fun _ => True)); [exact Hmake|].
    intros col _. apply mwp_ret. split; [|split].
    + apply rect_setitem, Hr.
    + apply touches_setitem_new, Hc.
    + rewrite has_setitem, String.eqb_refl. reflexivity.
Qed.

Lemma empty_column (m : frame) (c : string) (col : column) :
  rect m -> n_rows m = O -> get c m = Some col -> col = [].
Proof.
  intros Hr Hn Hg. apply length_zero_iff_nil.
  rewrite (rect_get _ _ _ Hr Hg). exact Hn.
Qed.

End AdapterLogic.

(** * Columns and their cells *)

Section Columns.
Import Adapter AdapterSpec.
Context {cv : Conversions}.

Lemma apply_cells_returned (f : cell -> result cell) (col ys : column) :
  apply_cells f col = Ok ys -> Forall2 (fun x y => f x = Ok y) col ys.
Proof.
  revert ys. induction col as [|x rest IH]; simpl; intros ys H.
  - injection H as <-. constructor.
  - destruct (f x) as [y|e] eqn:Ex; [|discriminate].
    destruct (apply_cells f rest) as [ys'|e]; [|discriminate].
    injection H as <-. constructor; auto.
Qed.

Lemma Forall2_length_cells {A B} (R : A -> B -> Prop) (xs : list A) (ys : list B) :
  Forall2 R xs ys -> List.length ys = List.length xs.
Proof. induction 1; simpl; congruence. Qed.

Lemma numeric_or_num (d : Q) (col : column) : all_cells is_num (numeric_or d col).
Proof.
  unfold all_cells, numeric_or, fillna, to_numeric.
  rewrite map_map. apply Forall_forall. intros y Hy.
  apply in_map_iff in Hy. destruct Hy as (x & <- & _).
  destruct x as [|q|s|t]; simpl; try reflexivity.
  destruct (parse_number s); reflexivity.
Qed.

Lemma numeric_or_length (d : Q) (col : column) :
  List.length (numeric_or d col) = List.length col.
Proof. unfold numeric_or, fillna, to_numeric. rewrite !length_map. reflexivity. Qed.

(** Coercion leaves a column of numbers as it is. *)
Lemma numeric_or_id (d : Q) (col : column) :
  all_cells is_num col -> numeric_or d col = col.
Proof.
  unfold numeric_or, fillna, to_numeric. rewrite map_map.
  induction 1 as [|x rest Hx _ IH]; simpl; [reflexivity|].
  rewrite IH. destruct x; try discriminate. reflexivity.
Qed.


(** [astype(str)] makes strings of the cells that are not missing, and of
    all cells where pandas writes a missing value as text. *)
Lemma astype_str_strings (col : column) :
  missing_as_text = true \/ all_cells not_null col ->
  exists ss, astype_str col = map Str ss.
Proof.
  intros H. induction col as [|x rest IH]; [exists []; reflexivity|].
  destruct IH as [ss Hss].
  { destruct H as [H|H]; [left; exact H | right; inversion H; assumption]. }
  cbn [astype_str map]. fold (astype_str rest). rewrite Hss.
  destruct x as [|q|s|t]; cbn [astype_str_cell].
  - destruct H as [-> | H]; [exists ("nan" :: ss); reflexivity|].
    inversion H as [|? ? Hx _]. discriminate Hx.
  - exists (str_of_num q :: ss). reflexivity.
  - exists (s :: ss). reflexivity.
  - exists (str_of_instant t :: ss). reflexivity.
Qed.

(** Where pandas keeps missing values, [astype(str)] leaves a missing
    cell in a column that has one. *)
Lemma astype_str_missing (col : column) :
  missing_as_text = false -> forallb not_null col = false -> In NaN (astype_str col).
Proof.
  intros Hm. induction col as [|x rest IH]; cbn [forallb]; [discriminate|].
  destruct x as [|q|s|t]; cbn [not_null andb]; intros H.
  - left. cbn [astype_str_cell]. rewrite Hm. reflexivity.
  - right. apply IH, H.
  - right. apply IH, H.
  - right. apply IH, H.
Qed.

Lemma astype_str_length (col : column) : List.length (astype_str col) = List.length col.
Proof. apply length_map. Qed.

(** [astype(str)] leaves a column of strings as it is. *)
Lemma astype_str_id (col : column) : all_cells is_str col -> astype_str col = col.
Proof.
  unfold astype_str.
  induction 1 as [|x rest Hx _ IH]; simpl; [reflexivity|].
  rewrite IH. destruct x; try discriminate. reflexivity.
Qed.

Lemma coerced_instants (t : Z) (col : column) :
  all_cells is_instant (fillna (Instant t) (to_datetime_coerce col)).
Proof.
  unfold all_cells, fillna, to_datetime_coerce. rewrite map_map.
  apply Forall_forall. intros y Hy.
  apply in_map_iff in Hy. destruct Hy as (x & <- & _).
  destruct x as [|q|s|u]; simpl; try reflexivity.
  - destruct (datetime_of_num q); reflexivity.
  - destruct (parse_datetime s); reflexivity.
Qed.

Lemma coerced_length (t : Z) (col : column) :
  List.length (fillna (Instant t) (to_datetime_coerce col)) = List.length col.
Proof. unfold fillna, to_datetime_coerce. rewrite !length_map. reflexivity. Qed.

(** The dates made from the years are instants, but for the cells that
    pandas keeps missing. *)
Lemma january_first_instants (year ts : column) :
  january_first year = Ok ts ->
  all_cells (fun x => is_instant x || negb (not_null x)) ts
  /\ List.length ts = List.length year.
Proof.
  unfold january_first, to_datetime_strict. intros H.
  apply apply_cells_returned in H. split.
  - unfold all_cells. clear - H.
    induction H as [|x y xs ys Hxy _ IH]; constructor; auto.
    destruct x as [|q|s|t].
    + injection Hxy as <-. reflexivity.
    + destruct (datetime_of_num q); [|discriminate]. injection Hxy as <-. reflexivity.
    + destruct (parse_datetime s); [|discriminate]. injection Hxy as <-. reflexivity.
    + injection Hxy as <-. reflexivity.
  - rewrite (Forall2_length_cells _ _ _ H). unfold str_add, astype_str.
    rewrite !length_map. reflexivity.
Qed.

(** Coercing such a column to dates once more only fills its gaps. *)
Lemma coerce_dates (t : Z) (col : column) :
  all_cells (fun x => is_instant x || negb (not_null x)) col ->
  fillna (Instant t) (to_datetime_coerce col) = fillna (Instant t) col.
Proof.
  unfold fillna, to_datetime_coerce. rewrite map_map.
  induction 1 as [|x rest Hx _ IH]; simpl; [reflexivity|].
  rewrite IH. destruct x; try discriminate; reflexivity.
Qed.

Lemma as_series_length (n : nat) (v : value) : List.length (as_series n v) = n.
Proof.
  destruct v; simpl; [apply reindex_length | apply repeat_length].
Qed.

Lemma all_cells_repeat (p : cell -> bool) (x : cell) (n : nat) :
  p x = true -> all_cells p (repeat x n).
Proof.
  intros H. unfold all_cells. apply Forall_forall.
  intros y Hy. apply repeat_spec in Hy. subst y. exact H.
Qed.

Lemma has_get (c : string) (m : frame) (col : column) :
  get c m = Some col -> has c m = true.
Proof. unfold has. intros ->. reflexivity. Qed.

Lemma lacks_get (c : string) (m : frame) : has c m = false -> get c m = None.
Proof. unfold has. destruct (get c m); [discriminate | reflexivity]. Qed.

Lemma has_true_get (c : string) (m : frame) :
  has c m = true -> exists col, get c m = Some col.
Proof. unfold has. destruct (get c m); [eauto | discriminate]. Qed.

(** A cell-wise function that is defined on numbers runs through a
    column of numbers. *)
Lemma apply_cells_numeric (f : cell -> result cell) (p : cell -> bool) (col : column) :
  (forall q, exists y, f (Num q) = Ok y /\ p y = true) ->
  all_cells is_num col ->
  exists ys, apply_cells f col = Ok ys /\ all_cells p ys
             /\ List.length ys = List.length col.
Proof.
  intros Hf. induction 1 as [|x rest Hx _ (ys & Hys & Hp & Hlen)]; simpl.
  - exists []. repeat split. constructor.
  - destruct x as [|q|s|t]; try discriminate.
    destruct (Hf q) as (y & Hy & Hpy). rewrite Hy, Hys.
    exists (y :: ys). repeat split.
    + constructor; assumption.
    + simpl. congruence.
Qed.

Lemma loss_to_sev_num (q : Q) : exists y, loss_to_sev (Num q) = Ok y /\ is_num y = true.
Proof.
  unfold loss_to_sev, if_, gt_cell.
  destruct (Qle_bool q 100), (Qle_bool q 50), (Qle_bool q 10); simpl; eauto.
Qed.

Lemma users_to_sev_num (q : Q) : exists y, users_to_sev (Num q) = Ok y /\ is_num y = true.
Proof.
  unfold users_to_sev, if_, gt_cell.
  destruct (Qle_bool q 100000), (Qle_bool q 10000); simpl; eauto.
Qed.

Lemma outcome_of_hours_num (q : Q) :
  exists y, outcome_of_hours (Num q) = Ok y /\ is_str y = true.
Proof.
  unfold outcome_of_hours, if_, gt_cell.
  destruct (Qle_bool q 0); simpl; eauto.
Qed.

Lemma times_num (k : Q) (col : column) :
  all_cells is_num col -> all_cells is_num (times k col).
Proof.
  unfold all_cells, times. intros H. apply Forall_map.
  revert H. apply Forall_impl. intros x Hx. destruct x; try discriminate. reflexivity.
Qed.

Lemma times_length (k : Q) (col : column) : List.length (times k col) = List.length col.
Proof. apply length_map. Qed.

Lemma all_cells_map (p : cell -> bool) {A} (f : A -> cell) (xs : list A) :
  (forall x, p (f x) = true) -> all_cells p (map f xs).
Proof. intros H. unfold all_cells. apply Forall_map, Forall_forall. auto. Qed.

End Columns.

(** * The steps of [fill_placeholders] *)

Section FillSteps.
Import Adapter AdapterSpec.
Local Open Scope adapter_scope.
Context {cv : Conversions}.

Lemma mwp_bind_any {A B} (m : M A) (k : A -> M B) (P : B -> Prop) (E : Prop) :
  mwp m (fun _ => True) E -> (forall a, mwp (k a) P E) -> mwp (bindM m k) P E.
Proof. intros Hm Hk. apply (mwp_bind m k (fun _ => True)); auto. Qed.

Lemma mwp_draw_any {A} (m : St A) (E : Prop) : mwp (draw m) (fun _ => True) E.
Proof. apply mwp_draw, post_any. Qed.

Lemma fault_weaken (req req' : list string) (m : frame) :
  incl req req' -> fault req m -> fault req' m.
Proof.
  intros Hi [H|(c & Hc & Habs)]; [left; exact H|].
  right. exists c. split; [apply Hi, Hc | exact Habs].
Qed.

(** On a table without rows a cell-wise function has nothing to raise on. *)
Lemma mwp_apply_cells (f : cell -> result cell) (m : frame) (c : string)
      (col : column) (req : list string) :
  rect m -> get c m = Some col ->
  mwp (lift (apply_cells f col)) (fun _ => True) (fault req m).
Proof.
  intros Hr Hg. apply mwp_lift.
  destruct (apply_cells f col) eqn:E; [exact I|].
  left. intros Hn. rewrite (empty_column m c col Hr Hn Hg) in E. discriminate.
Qed.

Lemma mwp_january_first (m : frame) (c : string) (col : column) (req : list string) :
  rect m -> get c m = Some col ->
  mwp (lift (january_first col)) (fun _ => True) (fault req m).
Proof.
  intros Hr Hg. apply mwp_lift.
  destruct (january_first col) eqn:E; [exact I|].
  left. intros Hn. rewrite (empty_column m c col Hr Hn Hg) in E. discriminate.
Qed.

(** Reading a column whose presence was just tested. *)
Lemma mwp_getitem_present {B} (c : string) (m : frame) (k : column -> M B)
      (P : B -> Prop) (E : Prop) :
  has c m = true ->
  (forall col, get c m = Some col -> mwp (k col) P E) ->
  mwp (bindM (getitem c m) k) P E.
Proof.
  intros Hc Hk. apply (mwp_bind _ _ (fun col => get c m = Some col)).
  - apply mwp_getitem; [auto | congruence].
  - exact Hk.
Qed.

Lemma ensure_step (c : string) (make : M column) (N O req : list string) (m : frame) :
  In c N -> rect m ->
  mwp make (fun _ => True) (fault req m) ->
  mwp (ensure c make m) (fun m' => rect m' /\ touches N O m m') (fault req m).
Proof.
  intros Hc Hr Hmake.
  apply (mwp_weaken _ _ _ _ _ (ensure_spec c make m _ Hr Hmake)); [|auto].
  intros m' (Hr' & Ht & _). split; [exact Hr'|].
  apply (touches_weaken [c] []); auto.
  - intros x [<-|[]]. exact Hc.
  - intros x [].
Qed.

Ltac in_list := simpl; tauto.

(** Makers that only draw or read the clock. *)
Ltac drawn :=
  repeat first
    [ apply mwp_draw_any
    | apply mwp_ret; exact I
    | apply mwp_now; intros; exact I
    | apply mwp_bind_any; [|intro] ].

Lemma fill_timestamp_spec : step_spec ["Timestamp"] [] [] fill_timestamp.
Proof.
  intros m Hr. apply ensure_step; [in_list | exact Hr |].
  destruct (has "Year" m) eqn:Hy.
  - apply mwp_getitem_present; [exact Hy|]. intros col Hg.
    apply (mwp_january_first m "Year"); assumption.
  - drawn.
Qed.

Lemma fill_device_information_spec :
  step_spec ["Device Information"] [] [] fill_device_information.
Proof. intros m Hr. apply ensure_step; [in_list | exact Hr |]. unfold np_choice. drawn. Qed.

Lemma set_new (c : string) (col : column) (N O : list string) (m : frame) :
  In c N -> rect m -> has c m = false ->
  rect (setitem c col m) /\ touches N O m (setitem c col m).
Proof.
  intros Hc Hr Habs. split; [apply rect_setitem, Hr|].
  apply (touches_weaken [c] []).
  - intros x [<-|[]]. exact Hc.
  - intros x [].
  - apply touches_setitem_new, Habs.
Qed.

Lemma set_over (c : string) (col : column) (N O : list string) (m : frame) :
  In c O -> rect m ->
  rect (setitem c col m) /\ touches N O m (setitem c col m).
Proof.
  intros Hc Hr. split; [apply rect_setitem, Hr|].
  apply (touches_weaken [] [c]).
  - intros x [].
  - intros x [<-|[]]. exact Hc.
  - apply touches_setitem_over.
Qed.

Lemma fill_attack_type_spec : step_spec ["Attack Type"] [] [] fill_attack_type.
Proof.
  intros m Hr. unfold fill_attack_type.
  destruct (has "Attack Type" m) eqn:Hty.
  - apply mwp_getitem_present; [exact Hty|]. intros col Hg.
    apply mwp_ret. rewrite (setitem_same _ _ _ Hr Hg).
    split; [exact Hr | apply touches_refl].
  - destruct (has "attack_type" m) eqn:Hlow.
    + apply mwp_getitem_present; [exact Hlow|]. intros col Hg.
      apply mwp_ret. apply set_new; [in_list | exact Hr | exact Hty].
    + apply mwp_bind_any; [unfold np_choice; drawn|]. intros col.
      apply mwp_ret. apply set_new; [in_list | exact Hr | exact Hty].
Qed.

Lemma fill_anomaly_scores_spec : step_spec ["Anomaly Scores"] [] [] fill_anomaly_scores.
Proof. intros m Hr. apply ensure_step; [in_list | exact Hr |]. drawn. Qed.

Lemma fill_packet_length_spec : step_spec ["Packet Length"] [] [] fill_packet_length.
Proof. intros m Hr. apply ensure_step; [in_list | exact Hr |]. unfold np_randint. drawn. Qed.

Lemma fill_source_port_spec : step_spec ["Source Port"] [] [] fill_source_port.
Proof. intros m Hr. apply ensure_step; [in_list | exact Hr |]. unfold np_randint. drawn. Qed.

Lemma fill_destination_port_spec : step_spec ["Destination Port"] [] [] fill_destination_port.
Proof. intros m Hr. apply ensure_step; [in_list | exact Hr |]. drawn. Qed.

Lemma fill_ip_addresses_spec :
  step_spec ["Source IP Address"; "Destination IP Address"] [] [] fill_ip_addresses.
Proof.
  intros m Hr. unfold fill_ip_addresses.
  destruct (has "Source IP Address" m) eqn:Hsrc; simpl.
  - apply ensure_step; [in_list | exact Hr |].
    unfold unbound_generate_ip. destruct (n_rows m) eqn:Hn.
    + apply mwp_ret. exact I.
    + apply mwp_raise. left. rewrite Hn. discriminate.
  - apply mwp_bind_any; [unfold generated_ips; drawn|]. intros src.
    destruct (set_new "Source IP Address" src
                ["Source IP Address"; "Destination IP Address"] [] m) as [Hr1 Ht1];
      [in_list | exact Hr | exact Hsrc |].
    eapply mwp_weaken.
    + apply (ensure_step "Destination IP Address" _
               ["Source IP Address"; "Destination IP Address"] [] []);
        [in_list | exact Hr1 |]. unfold generated_ips. drawn.
    + intros m' [Hr' Ht']. split; [exact Hr'|].
      exact (touches_trans _ _ _ _ _ Ht1 Ht').
    + intros [H|(c & [] & _)]. left. exact H.
Qed.

Lemma fill_protocol_spec : step_spec ["Protocol"] [] [] fill_protocol.
Proof. intros m Hr. apply ensure_step; [in_list | exact Hr |]. unfold np_choice. drawn. Qed.

Lemma fill_action_taken_spec : step_spec ["Action Taken"] [] [] fill_action_taken.
Proof.
  intros m Hr. apply ensure_step; [in_list | exact Hr |].
  destruct (has "outcome" m) eqn:Ho.
  - apply mwp_getitem; [auto | congruence].
  - unfold np_choice. drawn.
Qed.

Lemma fill_ids_alerts_spec : step_spec ["IDS/IPS Alerts"] [] [] fill_ids_alerts.
Proof. intros m Hr. apply ensure_step; [in_list | exact Hr |]. unfold np_choice. drawn. Qed.

Lemma fill_malware_indicators_spec :
  step_spec ["Malware Indicators"] [] [] fill_malware_indicators.
Proof. intros m Hr. apply ensure_step; [in_list | exact Hr |]. unfold np_choice. drawn. Qed.

Lemma fill_firewall_logs_spec : step_spec ["Firewall Logs"] [] [] fill_firewall_logs.
Proof. intros m Hr. apply ensure_step; [in_list | exact Hr |]. unfold np_choice. drawn. Qed.

Lemma fill_proxy_information_spec :
  step_spec ["Proxy Information"] [] [] fill_proxy_information.
Proof. intros m Hr. apply ensure_step; [in_list | exact Hr |]. unfold np_choice. drawn. Qed.

Lemma fill_attack_signature_spec :
  step_spec ["Attack Signature"] [] ["Attack Type"] fill_attack_signature.
Proof.
  intros m Hr. apply ensure_step; [in_list | exact Hr |].
  apply mwp_bind_any.
  - apply mwp_getitem; [auto|]. intros Habs. right.
    exists "Attack Type". split; [in_list | exact Habs].
  - intros types. drawn.
Qed.

Lemma fill_severity_level_spec : step_spec ["Severity Level"] [] [] fill_severity_level.
Proof.
  intros m Hr. apply ensure_step; [in_list | exact Hr |].
  destruct (has "attack_severity" m) eqn:Hsev.
  - apply mwp_getitem_present; [exact Hsev|]. intros col Hg.
    apply (mwp_apply_cells _ m "attack_severity"); assumption.
  - destruct (has FINANCIAL_LOSS m) eqn:Hloss.
    + apply mwp_getitem_present; [exact Hloss|]. intros col Hg.
      apply (mwp_apply_cells _ m FINANCIAL_LOSS); assumption.
    + drawn.
Qed.

(** The coordinates are merged only into a table without "Latitude";
    whatever the merge raises, it raises on such a table. *)
Lemma fill_coordinates_spec :
  step_spec ["Latitude"; "Longitude"] ["Longitude"] ["Latitude"] fill_coordinates.
Proof.
  intros m Hr. unfold fill_coordinates.
  destruct (has "Country" m) eqn:Hc; simpl;
    [destruct (has "Latitude" m) eqn:Hlat; simpl|];
    try (apply mwp_ret; split; [exact Hr | apply touches_refl]).
  assert (Hfault : fault ["Latitude"] m).
  { right. exists "Latitude". split; [in_list | exact Hlat]. }
  apply mwp_getitem_present; [exact Hc|]. intros country Hg.
  apply mwp_bind_any.
  { apply mwp_lift. destruct (merge_coords m country); [exact I | exact Hfault]. }
  intros joined.
  apply mwp_bind_any; [apply mwp_getitem; auto|]. intros lat.
  apply mwp_bind_any; [apply mwp_getitem; auto|]. intros lon.
  apply mwp_ret.
  destruct (set_new "Latitude" (fillna (Num 0) lat)
              ["Latitude"; "Longitude"] ["Longitude"] m) as [Hr1 Ht1];
    [in_list | exact Hr | exact Hlat |].
  destruct (set_over "Longitude" (fillna (Num 0) lon)
              ["Latitude"; "Longitude"] ["Longitude"] _ ltac:(in_list) Hr1) as [Hr2 Ht2].
  split; [exact Hr2 | exact (touches_trans _ _ _ _ _ Ht1 Ht2)].
Qed.

Lemma coerce_timestamp_spec (name : string) (m : frame) :
  mwp (coerce_timestamp name m)
      (fun ts => exists col, get name m = Some col /\
                 exists t, ts = fillna (Instant t) (to_datetime_coerce col))
      (has name m = false).
Proof.
  unfold coerce_timestamp.
  apply (mwp_bind _ _ (fun col => get name m = Some col)).
  - apply mwp_getitem; auto.
  - intros col Hg. apply mwp_bind_any; [apply mwp_now; intros; exact I|].
    intros t. apply mwp_ret. eauto.
Qed.

Lemma fill_timestamp_type_spec :
  step_spec [] ["Timestamp"] ["Timestamp"] fill_timestamp_type.
Proof.
  intros m Hr. unfold fill_timestamp_type.
  apply mwp_bind_any.
  - eapply mwp_weaken; [apply (coerce_timestamp_spec "Timestamp" m) | auto |].
    intros Habs. right. exists "Timestamp". split; [in_list | exact Habs].
  - intros ts. apply mwp_ret. apply set_over; [in_list | exact Hr].
Qed.

Lemma fill_canonical_spec (names N O : list string) (m : frame) (E : Prop) :
  incl names N -> rect m ->
  mwp (fill_canonical names m)
      (fun m' => (rect m' /\ touches N O m m')
                 /\ Forall (fun c => has c m' = true) names) E.
Proof.
  revert m. induction names as [|c rest IH]; intros m Hin Hr; simpl.
  - apply mwp_ret. auto using touches_refl.
  - apply (mwp_bind _ _ (fun m1 => rect m1 /\ touches [c] [] m m1 /\ has c m1 = true)).
    + apply ensure_spec; [exact Hr|]. apply mwp_ret. exact I.
    + intros m1 (Hr1 & Ht1 & Hc1).
      eapply mwp_weaken; [apply (IH m1); [|exact Hr1] | | auto].
      * intros x Hx. apply Hin. right. exact Hx.
      * intros m' [[Hr' Ht'] Hall].
        assert (Ht1' : touches N O m m1).
        { apply (touches_weaken [c] []); [| |exact Ht1].
          - intros x [<-|[]]. apply Hin. left. reflexivity.
          - intros x []. }
        split; [split; [exact Hr' | exact (touches_trans _ _ _ _ _ Ht1' Ht')]|].
        constructor; [|exact Hall]. destruct Ht' as (_ & Hmono & _). auto.
Qed.

End FillSteps.

(** * [fill_placeholders] as a whole *)

Section FillPlaceholders.
Import Adapter AdapterSpec.
Local Open Scope adapter_scope.
Context {cv : Conversions}.

Lemma bindM_ext {A B} (m : M A) (k k' : A -> M B) :
  (forall a w, k a w = k' a w) -> forall w, bindM m k w = bindM m k' w.
Proof.
  intros H w. unfold bindM. destruct (m w) as [[a|e] w1]; [apply H | reflexivity].
Qed.

Lemma bindM_ret_r {A} (m : M A) (w : world) : bindM m retM w = m w.
Proof. unfold bindM, retM. destruct (m w) as [[a|e] w1]; reflexivity. Qed.

Lemma fill_placeholders_run (df : frame) (w : world) :
  fill_placeholders df w = run_steps fill_steps df w.
Proof.
  unfold fill_placeholders, fill_steps, steps_to_attack_type, steps_to_action_taken,
    steps_to_severity_level, steps_to_end.
  cbn [app run_steps]. revert w.
  repeat (apply bindM_ext; intros ?).
  intros w. symmetry. apply bindM_ret_r.
Qed.

Lemma run_steps_app (a b : list (frame -> M frame)) (m : frame) (w : world) :
  run_steps (a ++ b) m w = bindM (run_steps a m) (run_steps b) w.
Proof.
  revert m w. induction a as [|s a IH]; intros m w; simpl.
  - reflexivity.
  - unfold bindM. destruct (s m w) as [[m1|e] w1]; [|reflexivity].
    rewrite IH. reflexivity.
Qed.

Lemma fault_back (N O req : list string) (m m' : frame) :
  touches N O m m' -> fault req m' -> fault req m.
Proof.
  intros (Hn & Hmono & _) [H|(c & Hc & Habs)].
  - left. congruence.
  - right. exists c. split; [exact Hc|].
    destruct (has c m) eqn:E; [|reflexivity].
    rewrite (Hmono c E) in Habs. discriminate.
Qed.

Lemma run_steps_spec (N O req : list string) (steps : list (frame -> M frame)) :
  Forall (step_spec N O req) steps -> step_spec N O req (run_steps steps).
Proof.
  induction 1 as [|s rest Hs _ IH]; intros m Hr; simpl.
  - apply mwp_ret. split; [exact Hr | apply touches_refl].
  - apply (mwp_bind _ _ _ _ _ (Hs m Hr)).
    intros m1 [Hr1 Ht1].
    apply (mwp_weaken _ _ _ _ _ (IH m1 Hr1)).
    + intros m' [Hr' Ht']. split; [exact Hr' | exact (touches_trans _ _ _ _ _ Ht1 Ht')].
    + apply (fault_back _ _ _ _ _ Ht1).
Qed.

Lemma step_spec_weaken (N O req N' O' req' : list string) (s : frame -> M frame) :
  incl N N' -> incl O O' -> incl req req' ->
  step_spec N O req s -> step_spec N' O' req' s.
Proof.
  intros HN HO Hreq Hs m Hr. apply (mwp_weaken _ _ _ _ _ (Hs m Hr)).
  - intros m' [Hr' Ht]. split; [exact Hr' | exact (touches_weaken _ _ _ _ _ _ HN HO Ht)].
  - apply fault_weaken, Hreq.
Qed.

Lemma fill_canonical_step :
  step_spec CANONICAL_COLUMNS [] [] (fill_canonical CANONICAL_COLUMNS).
Proof.
  intros m Hr.
  apply (mwp_weaken _ _ _ _ _
           (fill_canonical_spec CANONICAL_COLUMNS CANONICAL_COLUMNS [] m
              (fault [] m) (incl_refl _) Hr)); [|auto].
  intros m' [H _]. exact H.
Qed.

Create HintDb steps.

#[local] Hint Resolve fill_timestamp_spec fill_device_information_spec
  fill_attack_type_spec fill_anomaly_scores_spec fill_packet_length_spec
  fill_source_port_spec fill_destination_port_spec fill_ip_addresses_spec
  fill_protocol_spec fill_action_taken_spec fill_ids_alerts_spec
  fill_malware_indicators_spec fill_firewall_logs_spec fill_proxy_information_spec
  fill_attack_signature_spec fill_severity_level_spec fill_coordinates_spec
  fill_timestamp_type_spec fill_canonical_step : steps.

Ltac incl_lists :=
  let x := fresh "x" in let Hx := fresh "Hx" in
  intros x Hx; simpl in Hx |- *; tauto.

(** Every step of a written-out list keeps within the given names. *)
Ltac steps_ok :=
  repeat (apply Forall_app; split);
  repeat first
    [ apply Forall_nil
    | apply Forall_cons;
      [ eapply step_spec_weaken; [| | | solve [eauto with steps]]; incl_lists | ] ].

Lemma steps_to_attack_type_spec :
  Forall (step_spec FILL_NEW FILL_OVER REQUIRED) steps_to_attack_type.
Proof. unfold steps_to_attack_type. steps_ok. Qed.

Lemma steps_to_action_taken_spec :
  Forall (step_spec FILL_NEW FILL_OVER REQUIRED) steps_to_action_taken.
Proof. unfold steps_to_action_taken. steps_ok. Qed.

Lemma steps_to_severity_level_spec :
  Forall (step_spec FILL_NEW FILL_OVER REQUIRED) steps_to_severity_level.
Proof. unfold steps_to_severity_level. steps_ok. Qed.

Lemma steps_to_end_spec :
  Forall (step_spec FILL_NEW FILL_OVER REQUIRED) steps_to_end.
Proof. unfold steps_to_end. steps_ok. Qed.

Lemma fill_steps_spec : Forall (step_spec FILL_NEW FILL_OVER REQUIRED) fill_steps.
Proof.
  unfold fill_steps. repeat (apply Forall_app; split).
  - exact steps_to_attack_type_spec.
  - exact steps_to_action_taken_spec.
  - exact steps_to_severity_level_spec.
  - exact steps_to_end_spec.
Qed.

Lemma mwp_conj {A} (m : M A) (P Q : A -> Prop) (E : Prop) :
  mwp m P E -> mwp m Q E -> mwp m (fun a => P a /\ Q a) E.
Proof.
  intros HP HQ w. specialize (HP w). specialize (HQ w).
  destruct (fst (m w)); auto.
Qed.

Lemma run_steps_returned (N O req : list string) (steps : list (frame -> M frame))
      (m m' : frame) (w w' : world) :
  Forall (step_spec N O req) steps -> rect m ->
  run_steps steps m w = (Ok m', w') -> rect m' /\ touches N O m m'.
Proof.
  intros Hs Hr Hrun.
  exact (mwp_returned _ _ _ _ _ _ (run_steps_spec N O req steps Hs m Hr) Hrun).
Qed.

(** What holds of the table that [fill_placeholders] returns. *)
Lemma fill_placeholders_returned (df mapped : frame) (w w' : world) :
  rect df -> fill_placeholders df w = (Ok mapped, w') ->
  rect mapped /\ touches FILL_NEW FILL_OVER df mapped
  /\ Forall (fun c => has c mapped = true) CANONICAL_COLUMNS.
Proof.
  intros Hr Hrun. rewrite fill_placeholders_run in Hrun.
  destruct (run_steps_returned _ _ _ _ _ _ _ _ fill_steps_spec Hr Hrun) as [Hr' Ht].
  split; [exact Hr'|]. split; [exact Ht|].
  unfold fill_steps in Hrun. rewrite !app_assoc in Hrun.
  rewrite run_steps_app in Hrun.
  apply bindM_returned in Hrun. destruct Hrun as (m1 & w1 & Hpre & Hend).
  assert (Hr1 : rect m1).
  { eapply (run_steps_returned FILL_NEW FILL_OVER REQUIRED); [|exact Hr|exact Hpre].
    repeat (apply Forall_app; split);
      auto using steps_to_attack_type_spec, steps_to_action_taken_spec,
        steps_to_severity_level_spec. }
  unfold steps_to_end in Hend. cbn [run_steps] in Hend.
  apply bindM_returned in Hend. destruct Hend as (m2 & w2 & H2 & Hend).
  apply bindM_returned in Hend. destruct Hend as (m3 & w3 & H3 & Hend).
  apply bindM_returned in Hend. destruct Hend as (m4 & w4 & H4 & Hend).
  injection Hend as <- <-.
  destruct (mwp_returned _ _ _ _ _ _ (fill_coordinates_spec m1 Hr1) H2) as [Hr2 _].
  destruct (mwp_returned _ _ _ _ _ _ (fill_timestamp_type_spec m2 Hr2) H3) as [Hr3 _].
  exact (proj2 (mwp_returned _ _ _ _ _ _
                  (fill_canonical_spec CANONICAL_COLUMNS CANONICAL_COLUMNS [] m3 True
                     (incl_refl _) Hr3) H4)).
Qed.

(** A run of [fill_placeholders] that returns, cut at one of its steps. *)
Lemma fill_placeholders_cut (pre post : list (frame -> M frame)) (s : frame -> M frame)
      (df mapped : frame) (w w' : world) :
  fill_steps = pre ++ s :: post ->
  fill_placeholders df w = (Ok mapped, w') ->
  exists m0 m1 w0 w1,
    run_steps pre df w = (Ok m0, w0) /\ s m0 w0 = (Ok m1, w1)
    /\ run_steps post m1 w1 = (Ok mapped, w').
Proof.
  intros Hcut Hrun. rewrite fill_placeholders_run, Hcut, run_steps_app in Hrun.
  apply bindM_returned in Hrun. destruct Hrun as (m0 & w0 & Hpre & Hrest).
  cbn [run_steps] in Hrest.
  apply bindM_returned in Hrest. destruct Hrest as (m1 & w1 & Hs & Hpost).
  exists m0, m1, w0, w1. auto.
Qed.

(** What [ensure] stores when the column is missing. *)
Lemma ensure_returned (c : string) (make : M column) (m m' : frame) (w w' : world) :
  has c m = false -> ensure c make m w = (Ok m', w') ->
  exists col, make w = (Ok col, w') /\ m' = setitem c col m.
Proof.
  intros Habs. unfold ensure. rewrite Habs. cbn [negb]. intros H.
  apply bindM_returned in H. destruct H as (col & w1 & Hmake & Hret).
  injection Hret as <- <-. eauto.
Qed.

Lemma getitem_returned (c : string) (m : frame) (col : column) (w w' : world) :
  getitem c m w = (Ok col, w') -> get c m = Some col.
Proof.
  unfold getitem. destruct (get c m); [|discriminate].
  intros H. injection H as <- _. reflexivity.
Qed.

Lemma get_setitem_same (c : string) (col : column) (m : frame) :
  List.length col = n_rows m -> get c (setitem c col m) = Some col.
Proof.
  intros Hl. rewrite get_setitem, String.eqb_refl, (reindex_id _ _ Hl). reflexivity.
Qed.

Lemma lift_returned {A} (r : result A) (a : A) (w w' : world) :
  lift r w = (Ok a, w') -> r = Ok a.
Proof. unfold lift. intros H. injection H as -> _. reflexivity. Qed.

(** The label column, when it is derived from the financial loss. *)
Lemma fill_severity_level_from_loss (m m' : frame) (loss : column) (w w' : world) :
  rect m ->
  get "Severity Level" m = None -> get "attack_severity" m = None ->
  get FINANCIAL_LOSS m = Some loss ->
  fill_severity_level m w = (Ok m', w') ->
  exists labels,
    apply_cells label_of_loss loss = Ok labels /\ get "Severity Level" m' = Some labels.
Proof.
  intros Hr Hlvl Hsev Hloss Hrun. unfold fill_severity_level in Hrun.
  apply ensure_returned in Hrun; [|unfold has; rewrite Hlvl; reflexivity].
  destruct Hrun as (col & Hmake & ->).
  unfold has in Hmake. rewrite Hsev, Hloss in Hmake.
  apply bindM_returned in Hmake. destruct Hmake as (x & w1 & Hx & Hlift).
  apply getitem_returned in Hx. rewrite Hloss in Hx. injection Hx as <-.
  apply lift_returned in Hlift. exists col. split; [exact Hlift|].
  apply get_setitem_same.
  rewrite (Forall2_length_cells _ _ _ (apply_cells_returned _ _ _ Hlift)).
  exact (rect_get _ _ _ Hr Hloss).
Qed.

(** The "Attack Type" column, when it is copied from "attack_type". *)
Lemma fill_attack_type_from_lowercase (m m' : frame) (col : column) (w w' : world) :
  rect m -> get "Attack Type" m = None -> get "attack_type" m = Some col ->
  fill_attack_type m w = (Ok m', w') -> get "Attack Type" m' = Some col.
Proof.
  intros Hr Hty Hlow Hrun. unfold fill_attack_type, has in Hrun.
  rewrite Hty, Hlow in Hrun.
  apply bindM_returned in Hrun. destruct Hrun as (x & w1 & Hx & Hret).
  apply getitem_returned in Hx. rewrite Hlow in Hx. injection Hx as <-.
  injection Hret as <- _. apply get_setitem_same. exact (rect_get _ _ _ Hr Hlow).
Qed.

(** The "Action Taken" column, when it is copied from "outcome". *)
Lemma fill_action_taken_from_outcome (m m' : frame) (col : column) (w w' : world) :
  rect m -> get "Action Taken" m = None -> get "outcome" m = Some col ->
  fill_action_taken m w = (Ok m', w') -> get "Action Taken" m' = Some col.
Proof.
  intros Hr Hact Hout Hrun. unfold fill_action_taken in Hrun.
  apply ensure_returned in Hrun; [|unfold has; rewrite Hact; reflexivity].
  destruct Hrun as (x & Hmake & ->).
  unfold has in Hmake. rewrite Hout in Hmake.
  apply getitem_returned in Hmake. rewrite Hout in Hmake. injection Hmake as <-.
  apply get_setitem_same. exact (rect_get _ _ _ Hr Hout).
Qed.

(** The label column that [fill_placeholders] leaves behind when the input
    has a financial loss but neither a severity nor a label. *)
Lemma fill_placeholders_labels_loss (df mapped : frame) (loss : column) (w w' : world) :
  rect df ->
  get "attack_severity" df = None -> get "Severity Level" df = None ->
  get FINANCIAL_LOSS df = Some loss ->
  fill_placeholders df w = (Ok mapped, w') ->
  get "attack_severity" mapped = None /\
  exists labels,
    apply_cells label_of_loss loss = Ok labels
    /\ get "Severity Level" mapped = Some labels.
Proof.
  intros Hr Hsev Hlvl Hloss Hfill.
  destruct (fill_placeholders_cut
              (steps_to_attack_type ++ steps_to_action_taken
                 ++ [ fill_ids_alerts; fill_malware_indicators; fill_firewall_logs;
                      fill_proxy_information; fill_attack_signature ])
              steps_to_end fill_severity_level df mapped w w' eq_refl Hfill)
    as (m0 & m1 & w0 & w1 & Hpre & Hstep & Hpost).
  assert (Hpre' : rect m0 /\ touches NEW_BEFORE_LABEL [] df m0).
  { eapply (run_steps_returned _ _ REQUIRED); [|exact Hr|exact Hpre].
    unfold steps_to_attack_type, steps_to_action_taken. steps_ok. }
  destruct Hpre' as [Hr0 (_ & _ & Hkeep0)].
  assert (Hsev0 : get "attack_severity" m0 = None).
  { rewrite Hkeep0; [exact Hsev | not_in_list | right; not_in_list]. }
  assert (Hlvl0 : get "Severity Level" m0 = None).
  { rewrite Hkeep0; [exact Hlvl | not_in_list | right; not_in_list]. }
  assert (Hloss0 : get FINANCIAL_LOSS m0 = Some loss).
  { rewrite Hkeep0; [exact Hloss | not_in_list | right; not_in_list]. }
  destruct (fill_severity_level_from_loss _ _ _ _ _ Hr0 Hlvl0 Hsev0 Hloss0 Hstep)
    as (labels & Hlabels & Hget1).
  destruct (mwp_returned _ _ _ _ _ _ (fill_severity_level_spec m0 Hr0) Hstep)
    as [Hr1 (_ & _ & Hkeep1)].
  assert (Hpost' : rect mapped /\ touches FILL_NEW FILL_OVER m1 mapped).
  { eapply (run_steps_returned _ _ REQUIRED); [|exact Hr1|exact Hpost].
    exact steps_to_end_spec. }
  destruct Hpost' as [_ (_ & _ & Hkeep2)].
  split.
  - rewrite Hkeep2; [|not_in_list|right; not_in_list].
    rewrite Hkeep1; [exact Hsev0 | not_in_list | right; not_in_list].
  - exists labels. split; [exact Hlabels|].
    rewrite Hkeep2; [exact Hget1 | not_in_list | left; exact (has_get _ _ _ Hget1)].
Qed.

(** A column that one step creates and no later step overwrites is found
    in the table that [fill_placeholders] returns. *)
Lemma fill_placeholders_tracks
      (pre post : list (frame -> M frame)) (s : frame -> M frame)
      (Npre Ns Os : list string) (c : string) (P : column -> Prop)
      (df mapped : frame) (w w' : world) :
  fill_steps = pre ++ s :: post ->
  Forall (step_spec Npre [] REQUIRED) pre ->
  step_spec Ns Os REQUIRED s ->
  Forall (step_spec FILL_NEW FILL_OVER REQUIRED) post ->
  ~ In c FILL_OVER ->
  (forall m m' w w',
      rect m -> touches Npre [] df m -> s m w = (Ok m', w') ->
      exists col, get c m' = Some col /\ P col) ->
  rect df -> fill_placeholders df w = (Ok mapped, w') ->
  exists col, get c mapped = Some col /\ P col.
Proof.
  intros Hcut Hpre Hs Hpost Hc Hmade Hr Hfill.
  destruct (fill_placeholders_cut pre post s df mapped w w' Hcut Hfill)
    as (m0 & m1 & w0 & w1 & Hrun0 & Hstep & Hrun1).
  destruct (run_steps_returned _ _ _ _ _ _ _ _ Hpre Hr Hrun0) as [Hr0 Ht0].
  destruct (Hmade _ _ _ _ Hr0 Ht0 Hstep) as (col & Hget & HP).
  destruct (mwp_returned _ _ _ _ _ _ (Hs m0 Hr0) Hstep) as [Hr1 _].
  destruct (run_steps_returned _ _ _ _ _ _ _ _ Hpost Hr1 Hrun1) as [_ (_ & _ & Hkeep)].
  exists col. split; [|exact HP].
  rewrite Hkeep; [exact Hget | exact Hc | left; exact (has_get _ _ _ Hget)].
Qed.

Lemma fill_placeholders_attack_type (df mapped : frame) (col : column) (w w' : world) :
  rect df -> get "Attack Type" df = None -> get "attack_type" df = Some col ->
  fill_placeholders df w = (Ok mapped, w') -> get "Attack Type" mapped = Some col.
Proof.
  intros Hr Hty Hlow Hfill.
  destruct (fill_placeholders_tracks
              [fill_timestamp; fill_device_information]
              (steps_to_action_taken ++ steps_to_severity_level ++ steps_to_end)
              fill_attack_type ["Timestamp"; "Device Information"] ["Attack Type"] []
              "Attack Type" (fun x => x = col) df mapped w w')
    as (x & Hx & ->); try assumption; try reflexivity.
  - steps_ok.
  - eapply step_spec_weaken; [| | |apply fill_attack_type_spec]; incl_lists.
  - unfold steps_to_action_taken, steps_to_severity_level, steps_to_end. steps_ok.
  - not_in_list.
  - intros m m' w0 w1 Hrm (_ & _ & Hkeep) Hstep. exists col. split; [|reflexivity].
    apply (fill_attack_type_from_lowercase m m' col w0 w1 Hrm); [| |exact Hstep].
    + rewrite Hkeep; [exact Hty | not_in_list | right; not_in_list].
    + rewrite Hkeep; [exact Hlow | not_in_list | right; not_in_list].
Qed.

Lemma fill_placeholders_action_taken (df mapped : frame) (col : column) (w w' : world) :
  rect df -> get "Action Taken" df = None -> get "outcome" df = Some col ->
  fill_placeholders df w = (Ok mapped, w') -> get "Action Taken" mapped = Some col.
Proof.
  intros Hr Hact Hout Hfill.
  destruct (fill_placeholders_tracks
              (steps_to_attack_type
                 ++ [ fill_anomaly_scores; fill_packet_length; fill_source_port;
                      fill_destination_port; fill_ip_addresses; fill_protocol ])
              (steps_to_severity_level ++ steps_to_end)
              fill_action_taken
              [ "Timestamp"; "Device Information"; "Attack Type"; "Anomaly Scores";
                "Packet Length"; "Source Port"; "Destination Port";
                "Source IP Address"; "Destination IP Address"; "Protocol" ]
              ["Action Taken"] []
              "Action Taken" (fun x => x = col) df mapped w w')
    as (x & Hx & ->); try assumption; try reflexivity.
  - unfold steps_to_attack_type. steps_ok.
  - eapply step_spec_weaken; [| | |apply fill_action_taken_spec]; incl_lists.
  - unfold steps_to_severity_level, steps_to_end. steps_ok.
  - not_in_list.
  - intros m m' w0 w1 Hrm (_ & _ & Hkeep) Hstep. exists col. split; [|reflexivity].
    apply (fill_action_taken_from_outcome m m' col w0 w1 Hrm); [| |exact Hstep].
    + rewrite Hkeep; [exact Hact | not_in_list | right; not_in_list].
    + rewrite Hkeep; [exact Hout | not_in_list | right; not_in_list].
Qed.

Lemma draw_n_all {A} (n : nat) (m : St A) (P : A -> Prop) :
  post m P -> post (draw_n n m) (Forall P).
Proof.
  intros Hm. induction n as [|n IH]; simpl.
  - apply post_ret. constructor.
  - apply (post_bind _ _ P); [exact Hm|]. intros x Hx.
    apply (post_bind _ _ (Forall P)); [exact IH|]. intros xs Hxs.
    apply post_ret. constructor; assumption.
Qed.

Lemma draw_n_length {A} (n : nat) (m : St A) :
  post (draw_n n m) (fun xs => List.length xs = n).
Proof.
  induction n as [|n IH]; simpl.
  - apply post_ret. reflexivity.
  - apply post_bind_any. intros x.
    apply (post_bind _ _ (fun xs => List.length xs = n)); [exact IH|].
    intros xs Hxs. apply post_ret. simpl. congruence.
Qed.

Lemma post_both {A} (m : St A) (P Q : A -> Prop) :
  post m P -> post m Q -> post m (fun a => P a /\ Q a).
Proof. intros HP HQ g. split; [apply HP | apply HQ]. Qed.

Lemma np_choice_devices (n : nat) :
  mwp (np_choice device_types n) (all_cells is_device) True.
Proof.
  unfold np_choice.
  apply (mwp_bind _ _ (Forall (fun x => In x device_types))).
  - apply mwp_draw, draw_n_all, choice_in. discriminate.
  - intros picks Hpicks. apply mwp_ret. unfold all_cells.
    apply Forall_map. revert Hpicks. apply Forall_impl.
    intros x Hx. simpl in Hx.
    repeat (destruct Hx as [<-|Hx]; [reflexivity|]). destruct Hx.
Qed.

Lemma fill_placeholders_device_information (df mapped : frame) (w w' : world) :
  rect df -> get "Device Information" df = None ->
  fill_placeholders df w = (Ok mapped, w') ->
  exists col, get "Device Information" mapped = Some col
              /\ (all_cells is_device col /\ List.length col = n_rows df).
Proof.
  intros Hr Hdev Hfill.
  apply (fill_placeholders_tracks
           [fill_timestamp]
           (fill_attack_type :: steps_to_action_taken ++ steps_to_severity_level
              ++ steps_to_end)
           fill_device_information ["Timestamp"] ["Device Information"] []
           "Device Information"
           (fun col => all_cells is_device col /\ List.length col = n_rows df)
           df mapped w w'); try assumption; try reflexivity.
  - steps_ok.
  - eapply step_spec_weaken; [| | |apply fill_device_information_spec]; incl_lists.
  - unfold steps_to_action_taken, steps_to_severity_level, steps_to_end. steps_ok.
  - not_in_list.
  - intros m m' w0 w1 Hrm (Hn & _ & Hkeep) Hstep.
    unfold fill_device_information in Hstep.
    apply ensure_returned in Hstep.
    2:{ unfold has. rewrite Hkeep; [rewrite Hdev; reflexivity | not_in_list
                                    | right; not_in_list]. }
    destruct Hstep as (col & Hmake & ->).
    pose proof (mwp_returned _ _ _ _ _ _ (np_choice_devices (n_rows m)) Hmake) as Hall.
    assert (Hlen : List.length col = n_rows m).
    { unfold np_choice in Hmake.
      apply bindM_returned in Hmake. destruct Hmake as (picks & w2 & Hd & Hret).
      injection Hret as <- _. rewrite length_map.
      clear - Hd. unfold draw in Hd.
      destruct (draw_n (n_rows m) (choice device_types) (gen w0)) as [xs g] eqn:E.
      injection Hd as <- _.
      revert xs g E. generalize (gen w0). induction (n_rows m) as [|k IH];
        intros g0 xs g E; simpl in E.
      - injection E as <- _. reflexivity.
      - unfold bind in E. destruct (choice device_types g0) as [x g1].
        destruct (draw_n k (choice device_types) g1) as [rest g2] eqn:E2.
        injection E as <- _. simpl. f_equal. exact (IH _ _ _ E2). }
    exists col. split; [apply get_setitem_same, Hlen|]. split; [exact Hall|].
    congruence.
Qed.

End FillPlaceholders.


(** * [standardize] *)

Section Standardize.
Import Adapter AdapterSpec.
Local Open Scope adapter_scope.
Context {cv : Conversions}.

(** A run of [standardize] that returns is made of returning runs of the
    six column computations, and returns the table assembled from them. *)
Lemma standardize_returned (mapped out : frame) (w w' : world) :
  standardize mapped w = (Ok out, w') ->
  exists ts ty loc sev gb oc w1 w2 w3 w4 w5,
    std_timestamp mapped w = (Ok ts, w1) /\
    std_attack_type mapped w1 = (Ok ty, w2) /\
    std_location mapped w2 = (Ok loc, w3) /\
    std_attack_severity mapped w3 = (Ok sev, w4) /\
    std_data_compromised mapped w4 = (Ok gb, w5) /\
    std_outcome mapped w5 = (Ok oc, w') /\
    out = assembled mapped ts ty loc sev gb oc.
Proof.
  unfold standardize. intros H.
  apply bindM_returned in H. destruct H as (ts & w1 & Hts & H).
  apply bindM_returned in H. destruct H as (ty & w2 & Hty & H).
  apply bindM_returned in H. destruct H as (loc & w3 & Hloc & H).
  apply bindM_returned in H. destruct H as (sev & w4 & Hsev & H).
  apply bindM_returned in H. destruct H as (gb & w5 & Hgb & H).
  apply bindM_returned in H. destruct H as (oc & w6 & Hoc & H).
  assert (Hw : w6 = w' /\ out = assembled mapped ts ty loc sev gb oc).
  { revert H. clear. unfold assembled.
    generalize (std_target_system mapped) (std_industry mapped) (std_attacker_ip mapped)
      (std_target_ip mapped) (std_mitigation_method mapped) (std_attack_duration mapped)
      (std_response_time mapped) (std_security_tools mapped) (std_user_role mapped)
      (n_rows mapped).
    intros c1 c2 c3 c4 c5 c6 c7 c8 c9 n H.
    vm_compute in H. injection H as <- <-. vm_compute. split; reflexivity. }
  destruct Hw as [<- ->].
  exists ts, ty, loc, sev, gb, oc, w1, w2, w3, w4, w5.
  repeat (split; [assumption|]). reflexivity.
Qed.

(** On a table with "Timestamp", as [fill_placeholders] leaves it, the
    time stamps are that column coerced. *)
Lemma std_timestamp_spec (mapped : frame) :
  rect mapped -> has "Timestamp" mapped = true ->
  mwp (std_timestamp mapped)
      (fun ts => all_cells is_instant ts /\ List.length ts = n_rows mapped)
      False.
Proof.
  intros Hr Hts. unfold std_timestamp. rewrite Hts.
  apply (mwp_weaken _ _ _ _ _ (coerce_timestamp_spec "Timestamp" mapped)).
  - intros ts (col & Hg & t & ->). split; [apply coerced_instants|].
    rewrite coerced_length. exact (rect_get _ _ _ Hr Hg).
  - congruence.
Qed.

(** [lift] of a cell-wise function over a column of numbers. *)
Lemma mwp_apply_numeric (f : cell -> result cell) (p : cell -> bool) (col : column)
      (n : nat) (d : Q) :
  (forall q, exists y, f (Num q) = Ok y /\ p y = true) ->
  List.length col = n ->
  mwp (sev <- lift (apply_cells f (numeric_or d col)) ;; retM (reindex n sev))
      (fun sev => all_cells p sev /\ List.length sev = n) False.
Proof.
  intros Hf Hlen.
  destruct (apply_cells_numeric f p (numeric_or d col) Hf (numeric_or_num d col))
    as (ys & Hys & Hp & Hl).
  rewrite Hys. intros w. simpl. rewrite numeric_or_length, Hlen in Hl.
  rewrite (reindex_id _ _ Hl). auto.
Qed.

(** The severities of a column of lower-cased labels: the computation
    returns on a column of strings, and on no other. *)
Lemma labels_returned (col sev : column) :
  apply_cells sev_of_label (str_lower col) = Ok sev ->
  exists ss, col = map Str ss
             /\ sev = map (fun s => Num (inject_Z (sev_to_num (lower s)))) ss.
Proof.
  revert sev. induction col as [|x rest IH]; intros sev H.
  - injection H as <-. exists []. split; reflexivity.
  - cbn [str_lower map apply_cells] in H. fold (str_lower rest) in H.
    destruct x as [|q|s|t]; try discriminate H. cbn [sev_of_label] in H.
    destruct (apply_cells sev_of_label (str_lower rest)) as [ys|e]; [|discriminate H].
    injection H as <-. destruct (IH ys eq_refl) as (ss & -> & ->).
    exists (s :: ss). split; reflexivity.
Qed.

Lemma labels_return (ss : list string) :
  apply_cells sev_of_label (str_lower (map Str ss))
  = Ok (map (fun s => Num (inject_Z (sev_to_num (lower s)))) ss).
Proof.
  induction ss as [|s rest IH]; [reflexivity|].
  cbn [map str_lower apply_cells sev_of_label]. fold (str_lower (map Str rest)).
  rewrite IH. reflexivity.
Qed.

(** A missing label makes the computation raise a [TypeError]. *)
Lemma labels_raise (col : column) :
  In NaN col -> apply_cells sev_of_label (str_lower col) = Raise TypeError.
Proof.
  induction col as [|x rest IH]; intros Hin; [destruct Hin|].
  cbn [str_lower map apply_cells]. fold (str_lower rest).
  destruct x as [|q|s|t]; try reflexivity. cbn [sev_of_label].
  destruct Hin as [Hin|Hin]; [discriminate Hin|].
  rewrite (IH Hin). reflexivity.
Qed.

Lemma std_attack_severity_spec (mapped : frame) :
  rect mapped ->
  mwp (std_attack_severity mapped)
      (fun sev => all_cells is_num sev /\ List.length sev = n_rows mapped) True.
Proof.
  intros Hr. unfold std_attack_severity.
  destruct (has "attack_severity" mapped) eqn:H1.
  { apply mwp_getitem_present; [exact H1|]. intros col Hg. apply mwp_ret.
    split; [apply numeric_or_num|].
    rewrite numeric_or_length. exact (rect_get _ _ _ Hr Hg). }
  destruct (has "Severity Level" mapped) eqn:H2.
  { apply mwp_getitem_present; [exact H2|]. intros col Hg.
    apply (mwp_bind _ _ (fun sev => exists ss, astype_str col = map Str ss
             /\ sev = map (fun s => Num (inject_Z (sev_to_num (lower s)))) ss)).
    { apply mwp_lift.
      destruct (apply_cells sev_of_label (str_lower (astype_str col))) eqn:E; [|exact I].
      exact (labels_returned _ _ E). }
    intros sev (ss & Hss & ->). apply mwp_ret.
    assert (Hl : List.length ss = n_rows mapped).
    { rewrite <- (rect_get _ _ _ Hr Hg), <- (astype_str_length col), Hss, length_map.
      reflexivity. }
    rewrite reindex_id by (rewrite length_map; exact Hl).
    split; [|rewrite length_map; exact Hl].
    apply all_cells_map. reflexivity. }
  destruct (has FINANCIAL_LOSS mapped) eqn:H3.
  { apply mwp_getitem_present; [exact H3|]. intros col Hg.
    eapply mwp_weaken;
      [apply mwp_apply_numeric; [exact loss_to_sev_num | exact (rect_get _ _ _ Hr Hg)]
      | auto | auto]. }
  destruct (has AFFECTED_USERS mapped) eqn:H4.
  { apply mwp_getitem_present; [exact H4|]. intros col Hg.
    eapply mwp_weaken;
      [apply mwp_apply_numeric; [exact users_to_sev_num | exact (rect_get _ _ _ Hr Hg)]
      | auto | auto]. }
  apply mwp_ret. simpl. split; [apply all_cells_repeat; reflexivity | apply repeat_length].
Qed.

(** The severities are computed without an error on a table that has
    "Severity Level", as [fill_placeholders] leaves it, when the labels
    are strings once [astype(str)] is through. *)
Lemma std_attack_severity_sure (mapped : frame) (labels : column) (ss : list string) :
  get "Severity Level" mapped = Some labels ->
  has "attack_severity" mapped = true \/ astype_str labels = map Str ss ->
  mwp (std_attack_severity mapped) (fun _ => True) False.
Proof.
  intros Hg Hok. unfold std_attack_severity.
  destruct (has "attack_severity" mapped) eqn:H1.
  { apply mwp_getitem_present; [exact H1|]. intros col _. apply mwp_ret. exact I. }
  destruct Hok as [Hok|Hok]; [discriminate Hok|].
  rewrite (has_get _ _ _ Hg). unfold getitem. rewrite Hg.
  intros w. unfold bindM, retM, lift. rewrite Hok, labels_return. exact I.
Qed.

(** They end in a [TypeError] when a label is missing. *)
Lemma std_attack_severity_raises (mapped : frame) (labels : column) (w : world) :
  has "attack_severity" mapped = false ->
  get "Severity Level" mapped = Some labels -> In NaN (astype_str labels) ->
  std_attack_severity mapped w = (Raise TypeError, w).
Proof.
  intros H1 Hg Hin. unfold std_attack_severity, getitem.
  rewrite H1, (has_get _ _ _ Hg), Hg.
  unfold bindM, retM, lift. rewrite (labels_raise _ Hin). reflexivity.
Qed.

Lemma std_data_compromised_spec (mapped : frame) :
  rect mapped ->
  mwp (std_data_compromised mapped)
      (fun gb => all_cells is_num gb /\ List.length gb = n_rows mapped) False.
Proof.
  intros Hr. unfold std_data_compromised.
  destruct (has "data_compromised_GB" mapped) eqn:H1.
  { apply mwp_getitem_present; [exact H1|]. intros col Hg. apply mwp_ret.
    split; [apply numeric_or_num|].
    rewrite numeric_or_length. exact (rect_get _ _ _ Hr Hg). }
  assert (Hscaled : forall c col k, get c mapped = Some col ->
    all_cells is_num (reindex (n_rows mapped) (times k (numeric_or 0 col)))
    /\ List.length (reindex (n_rows mapped) (times k (numeric_or 0 col))) = n_rows mapped).
  { intros c col k Hg.
    rewrite reindex_id
      by (rewrite times_length, numeric_or_length; exact (rect_get _ _ _ Hr Hg)).
    split; [apply times_num, numeric_or_num|].
    rewrite times_length, numeric_or_length. exact (rect_get _ _ _ Hr Hg). }
  destruct (has FINANCIAL_LOSS mapped) eqn:H2.
  { apply mwp_getitem_present; [exact H2|]. intros col Hg. apply mwp_ret. eauto. }
  destruct (has AFFECTED_USERS mapped) eqn:H3.
  { apply mwp_getitem_present; [exact H3|]. intros col Hg. apply mwp_ret. eauto. }
  apply mwp_ret. simpl. split; [apply all_cells_repeat; reflexivity | apply repeat_length].
Qed.

Lemma std_attack_type_spec (mapped : frame) :
  mwp (std_attack_type mapped) (fun ty => List.length ty = n_rows mapped) False.
Proof.
  unfold std_attack_type.
  destruct (has "Attack Type" mapped) eqn:H1.
  { apply mwp_getitem_present; [exact H1|]. intros col Hg. apply mwp_ret.
    apply as_series_length. }
  destruct (has "attack_type" mapped) eqn:H2.
  { apply mwp_getitem_present; [exact H2|]. intros col Hg. apply mwp_ret.
    apply as_series_length. }
  apply mwp_ret. apply as_series_length.
Qed.

Lemma std_location_spec (mapped : frame) :
  mwp (std_location mapped) (fun loc => List.length loc = n_rows mapped) False.
Proof.
  unfold std_location.
  destruct (has "location" mapped) eqn:H1.
  { apply mwp_getitem_present; [exact H1|]. intros col Hg. apply mwp_ret.
    apply as_series_length. }
  destruct (has "Country" mapped) eqn:H2.
  { apply mwp_getitem_present; [exact H2|]. intros col Hg. apply mwp_ret.
    apply as_series_length. }
  apply mwp_ret. apply as_series_length.
Qed.

Lemma std_outcome_spec (mapped : frame) :
  rect mapped ->
  mwp (std_outcome mapped) (fun oc => List.length oc = n_rows mapped) False.
Proof.
  intros Hr. unfold std_outcome.
  destruct (has "Action Taken" mapped) eqn:H1.
  { apply mwp_getitem_present; [exact H1|]. intros col Hg. apply mwp_ret.
    apply as_series_length. }
  destruct (has "outcome" mapped) eqn:H2.
  { apply mwp_getitem_present; [exact H2|]. intros col Hg. apply mwp_ret.
    apply as_series_length. }
  destruct (has RESOLUTION_HOURS mapped) eqn:H3.
  { apply mwp_getitem_present; [exact H3|]. intros col Hg.
    eapply mwp_weaken;
      [apply (mwp_apply_numeric outcome_of_hours is_str col (n_rows mapped) 0);
       [exact outcome_of_hours_num | exact (rect_get _ _ _ Hr Hg)] | | auto].
    intros oc [_ Hl]. exact Hl. }
  apply mwp_ret. apply as_series_length.
Qed.



(** Conversely, [standardize] returns as soon as its time stamps and its
    severities do. *)
Lemma standardize_returns (mapped : frame) (w : world) :
  rect mapped -> has "Timestamp" mapped = true ->
  mwp (std_attack_severity mapped) (fun _ => True) False ->
  exists out w', standardize mapped w = (Ok out, w').
Proof.
  intros Hr Hts Hsev.
  unfold standardize.
  destruct (mwp_returns _ _ w (std_timestamp_spec mapped Hr Hts)) as (ts & w1 & E1 & _).
  destruct (mwp_returns _ _ w1 (std_attack_type_spec mapped)) as (ty & w2 & E2 & _).
  destruct (mwp_returns _ _ w2 (std_location_spec mapped)) as (loc & w3 & E3 & _).
  destruct (mwp_returns _ _ w3 Hsev) as (sev & w4 & E4 & _).
  destruct (mwp_returns _ _ w4 (std_data_compromised_spec mapped Hr)) as (gb & w5 & E5 & _).
  destruct (mwp_returns _ _ w5 (std_outcome_spec mapped Hr)) as (oc & w6 & E6 & _).
  unfold bindM at 1. rewrite E1.
  unfold bindM at 1. rewrite E2.
  unfold bindM at 1. rewrite E3.
  unfold bindM at 1. rewrite E4.
  unfold bindM at 1. rewrite E5.
  unfold bindM at 1. rewrite E6.
  unfold retype_str, getitem, bindM, retM.
  repeat (rewrite ?get_setitem; cbn [String.eqb Ascii.eqb Bool.eqb]).
  eauto.
Qed.

(** And it raises what its severities raise. *)
Lemma standardize_raises (mapped : frame) (w : world) (e : exn) :
  rect mapped -> has "Timestamp" mapped = true ->
  (forall v, std_attack_severity mapped v = (Raise e, v)) ->
  exists w', standardize mapped w = (Raise e, w').
Proof.
  intros Hr Hts Hsev.
  unfold standardize.
  destruct (mwp_returns _ _ w (std_timestamp_spec mapped Hr Hts)) as (ts & w1 & E1 & _).
  destruct (mwp_returns _ _ w1 (std_attack_type_spec mapped)) as (ty & w2 & E2 & _).
  destruct (mwp_returns _ _ w2 (std_location_spec mapped)) as (loc & w3 & E3 & _).
  exists w3.
  unfold bindM at 1. rewrite E1.
  unfold bindM at 1. rewrite E2.
  unfold bindM at 1. rewrite E3.
  unfold bindM at 1. rewrite Hsev. reflexivity.
Qed.

End Standardize.

(** * The normalizer *)

Section Normalizer.
Import Adapter AdapterSpec.
Local Open Scope adapter_scope.
Context {cv : Conversions}.

Lemma map_global_schema_returned (df out : frame) (w w' : world) :
  map_global_schema df w = (Ok out, w') ->
  exists mapped w1,
    fill_placeholders df w = (Ok mapped, w1) /\ standardize mapped w1 = (Ok out, w').
Proof. apply bindM_returned. Qed.


Lemma assembled_fields (mapped : frame) (ts ty loc sev gb oc : column) :
  map fst (columns (assembled mapped ts ty loc sev gb oc)) = CANONICAL_FIELDS.
Proof. reflexivity. Qed.




(** C7.  [load_best_dataset] tests the column names in a fixed order.  A
    table with both "Country" and "Financial Loss (in Million $)" goes
    through [map_global_schema], whether or not it also has "Timestamp"
    and "Attack Type"; failing that, a table with both "Timestamp" and
    "Attack Type" only has its "Timestamp" column coerced; any other
    table goes through [map_global_schema] as well. *)
Theorem schema_detection_priority (df : frame) :
  (has "Country" df = true -> has FINANCIAL_LOSS df = true ->
   load_best_dataset (Some df) = map_global_schema df)
  /\ (has "Country" df && has FINANCIAL_LOSS df = false ->
      has "Timestamp" df = true -> has "Attack Type" df = true ->
      load_best_dataset (Some df) =
        (ts <- coerce_timestamp "Timestamp" df ;; retM (setitem "Timestamp" ts df))
      /\ forall w out w',
           load_best_dataset (Some df) w = (Ok out, w') ->
           n_rows out = n_rows df
           /\ (forall c, c <> "Timestamp" -> get c out = get c df)
           /\ exists col t,
                get "Timestamp" df = Some col
                /\ get "Timestamp" out
                   = Some (reindex (n_rows df) (fillna (Instant t) (to_datetime_coerce col))))
  /\ (has "Country" df && has FINANCIAL_LOSS df = false ->
      has "Timestamp" df && has "Attack Type" df = false ->
      load_best_dataset (Some df) = map_global_schema df).
Proof.
  unfold load_best_dataset. split; [|split].
  - intros -> ->. reflexivity.
  - intros -> Hts Hty. rewrite Hts, Hty. cbn [andb]. split; [reflexivity|].
    intros w out w' Hrun.
    apply bindM_returned in Hrun. destruct Hrun as (ts & w1 & Hc & Hret).
    injection Hret as <- _.
    destruct (mwp_returned _ _ _ _ _ _ (coerce_timestamp_spec "Timestamp" df) Hc)
      as (col & Hg & t & ->).
    split; [reflexivity|]. split.
    + intros c Hne. rewrite get_setitem.
      destruct (String.eqb "Timestamp" c) eqn:E; [|reflexivity].
      apply String.eqb_eq in E. congruence.
    + exists col, t. split; [exact Hg|]. rewrite get_setitem. reflexivity.
  - intros -> ->. reflexivity.
Qed.


Lemma sev_to_num_values (x : string) :
  In (Num (inject_Z (sev_to_num x))) [Num 2; Num 5; Num 7; Num 9].
Proof.
  unfold sev_to_num.
  destruct (contains "critical" x); [simpl; tauto|].
  destruct (contains "high" x); [simpl; tauto|].
  destruct (contains "medium" x); [simpl; tauto|].
  destruct (contains "low" x); simpl; tauto.
Qed.

Lemma std_attack_severity_given (mapped : frame) (given : column) (w : world) :
  get "attack_severity" mapped = Some given ->
  std_attack_severity mapped w = (Ok (numeric_or 5 given), w).
Proof.
  intros Hg. unfold std_attack_severity, getitem.
  rewrite (has_get _ _ _ Hg), Hg. reflexivity.
Qed.

(** The severities made from the labels: every label is a string once
    [astype(str)] is through, and its severity is [sev_to_num] of that
    string in lower case. *)
Lemma std_attack_severity_labelled (mapped : frame) (labels sev : column) (w w' : world) :
  rect mapped ->
  get "attack_severity" mapped = None ->
  get "Severity Level" mapped = Some labels ->
  std_attack_severity mapped w = (Ok sev, w') ->
  exists ss,
    astype_str labels = map Str ss
    /\ sev = map (fun s => Num (inject_Z (sev_to_num (lower s)))) ss.
Proof.
  intros Hr Hnone Hg. unfold std_attack_severity, getitem.
  unfold has at 1. rewrite Hnone.
  rewrite (has_get _ _ _ Hg), Hg. unfold bindM, retM, lift.
  destruct (apply_cells sev_of_label (str_lower (astype_str labels))) as [ys|e] eqn:E;
    [|discriminate].
  intros H. injection H as <- _.
  destruct (labels_returned _ _ E) as (ss & Hss & ->).
  exists ss. split; [exact Hss|].
  apply reindex_id.
  rewrite length_map, <- (rect_get _ _ _ Hr Hg), <- (astype_str_length labels), Hss.
  symmetry. apply length_map.
Qed.

Lemma get_assembled_severity (mapped : frame) (ts ty loc sev gb oc : column) :
  get "attack_severity" (assembled mapped ts ty loc sev gb oc)
  = Some (reindex (n_rows mapped) sev).
Proof. reflexivity. Qed.

(** C5, as the code has it.  In the table [map_global_schema] returns,
    attack_severity is one of 2, 5, 7 and 9 in every row when the input
    has no attack_severity column; when it has one, each row holds the
    input's value made a number (5 where it is missing or not a number),
    whatever its size. *)
Theorem attack_severity_values (df out : frame) (w w' : world) :
  rect df -> map_global_schema df w = (Ok out, w') ->
  exists sev,
    get "attack_severity" out = Some sev /\
    match get "attack_severity" df with
    | Some given => sev = numeric_or 5 given
    | None => Forall (fun x => In x [Num 2; Num 5; Num 7; Num 9]) sev
    end.
Proof.
  intros Hr Hrun.
  destruct (map_global_schema_returned _ _ _ _ Hrun) as (mapped & w0 & Hfill & Hstd).
  destruct (fill_placeholders_returned _ _ _ _ Hr Hfill)
    as (Hr1 & (Hn1 & _ & Hkeep) & Hall).
  destruct (standardize_returned _ _ _ _ Hstd)
    as (ts & ty & loc & sev & gb & oc & w1 & w2 & w3 & w4 & w5
        & _ & _ & _ & Hsev & _ & _ & ->).
  rewrite get_assembled_severity.
  assert (Hsame : get "attack_severity" mapped = get "attack_severity" df).
  { apply Hkeep; [not_in_list | right; not_in_list]. }
  eexists. split; [reflexivity|].
  destruct (get "attack_severity" df) as [given|] eqn:Hgiven.
  - rewrite (std_attack_severity_given _ _ _ Hsame) in Hsev.
    injection Hsev as <- _.
    apply reindex_id. rewrite numeric_or_length, Hn1. exact (rect_get _ _ _ Hr Hgiven).
  - assert (Hlvl : has "Severity Level" mapped = true).
    { rewrite Forall_forall in Hall. apply Hall. simpl. tauto. }
    destruct (has_true_get _ _ Hlvl) as [labels Hlabels].
    destruct (mwp_returned _ _ _ _ _ _ (std_attack_severity_spec mapped Hr1) Hsev)
      as [_ Hl].
    destruct (std_attack_severity_labelled _ _ _ _ _ Hr1 Hsame Hlabels Hsev)
      as (ss & _ & ->).
    rewrite (reindex_id _ _ Hl).
    apply Forall_map, Forall_forall. intros x _. apply sev_to_num_values.
Qed.

Lemma label_of_loss_severity (q : Q) :
  exists l, label_of_loss (Num q) = Ok (Str l)
            /\ inject_Z (sev_to_num (lower l)) = severity_of_loss q.
Proof.
  unfold label_of_loss, severity_of_loss, if_, gt_cell.
  destruct (Qle_bool q 100), (Qle_bool q 50), (Qle_bool q 10); cbn [negb];
    eexists; (split; [reflexivity|]); reflexivity.
Qed.

Lemma labels_of_losses (qs : list Q) (labels : column) :
  apply_cells label_of_loss (map Num qs) = Ok labels ->
  exists ls,
    labels = map Str ls
    /\ map (fun s => Num (inject_Z (sev_to_num (lower s)))) ls
       = map (fun q => Num (severity_of_loss q)) qs.
Proof.
  revert labels. induction qs as [|q qs IH]; intros labels H; simpl in H.
  - injection H as <-. exists []. split; reflexivity.
  - destruct (label_of_loss_severity q) as (l & Hl & Hsev).
    rewrite Hl in H.
    destruct (apply_cells label_of_loss (map Num qs)) as [ys|e]; [|discriminate].
    injection H as <-. destruct (IH ys eq_refl) as (ls & -> & Hls).
    exists (l :: ls). split; [reflexivity|]. cbn [map]. rewrite Hsev, Hls.
    reflexivity.
Qed.

Lemma map_Str_inj (xs ys : list string) : map Str xs = map Str ys -> xs = ys.
Proof.
  revert ys. induction xs as [|x xs IH]; intros [|y ys] H; try discriminate H.
  - reflexivity.
  - injection H as -> H. rewrite (IH ys H). reflexivity.
Qed.

Lemma astype_str_strs (ss : list string) : astype_str (map Str ss) = map Str ss.
Proof. apply astype_str_id, all_cells_map. reflexivity. Qed.

(** C1, as the code has it.  When the input has a financial loss in
    numbers and neither an attack_severity nor a "Severity Level" column,
    the severity of a row is 9 for a loss above 100, 7 above 50, 5 above
    10, and 2 for any other loss: the loss becomes the label "Low", and
    the label "Low" becomes 2. *)
Theorem financial_loss_severity (df out : frame) (qs : list Q) (w w' : world) :
  rect df ->
  get "attack_severity" df = None -> get "Severity Level" df = None ->
  get FINANCIAL_LOSS df = Some (map Num qs) ->
  map_global_schema df w = (Ok out, w') ->
  get "attack_severity" out = Some (map (fun q => Num (severity_of_loss q)) qs).
Proof.
  intros Hr Hsev Hlvl Hloss Hrun.
  destruct (map_global_schema_returned _ _ _ _ Hrun) as (mapped & w0 & Hfill & Hstd).
  destruct (fill_placeholders_returned _ _ _ _ Hr Hfill) as (Hr1 & (Hn1 & _ & _) & _).
  destruct (fill_placeholders_labels_loss _ _ _ _ _ Hr Hsev Hlvl Hloss Hfill)
    as (Hsev1 & labels & Hlabels & Hget).
  destruct (standardize_returned _ _ _ _ Hstd)
    as (ts & ty & loc & sev & gb & oc & w1 & w2 & w3 & w4 & w5
        & _ & _ & _ & Hrun_sev & _ & _ & ->).
  rewrite get_assembled_severity.
  destruct (labels_of_losses _ _ Hlabels) as (ls & -> & Hls).
  destruct (std_attack_severity_labelled _ _ _ _ _ Hr1 Hsev1 Hget Hrun_sev)
    as (ss & Hss & ->).
  rewrite astype_str_strs in Hss. apply map_Str_inj in Hss. subst ss.
  rewrite Hls. f_equal. apply reindex_id.
  rewrite length_map, <- (length_map Num qs), Hn1.
  exact (rect_get _ _ _ Hr Hloss).
Qed.

Lemma std_attack_type_given (mapped : frame) (col : column) (w : world) :
  get "Attack Type" mapped = Some col ->
  std_attack_type mapped w = (Ok (reindex (n_rows mapped) col), w).
Proof.
  intros Hg. unfold std_attack_type, getitem.
  rewrite (has_get _ _ _ Hg), Hg. reflexivity.
Qed.

Lemma std_location_given (mapped : frame) (col : column) (w : world) :
  get "location" mapped = Some col ->
  std_location mapped w = (Ok (reindex (n_rows mapped) col), w).
Proof.
  intros Hg. unfold std_location, getitem.
  rewrite (has_get _ _ _ Hg), Hg. reflexivity.
Qed.

Lemma std_data_compromised_given (mapped : frame) (col : column) (w : world) :
  get "data_compromised_GB" mapped = Some col ->
  std_data_compromised mapped w = (Ok (numeric_or 0 col), w).
Proof.
  intros Hg. unfold std_data_compromised, getitem.
  rewrite (has_get _ _ _ Hg), Hg. reflexivity.
Qed.

Lemma std_outcome_given (mapped : frame) (col : column) (w : world) :
  get "Action Taken" mapped = Some col ->
  std_outcome mapped w = (Ok (reindex (n_rows mapped) col), w).
Proof.
  intros Hg. unfold std_outcome, getitem.
  rewrite (has_get _ _ _ Hg), Hg. reflexivity.
Qed.

Lemma canonical_absent (df : frame) (c : string) :
  canonical_shape df -> ~ In c CANONICAL_FIELDS -> get c df = None.
Proof.
  intros (_ & Hcols & _) Hc. apply lacks_get.
  destruct (has c df) eqn:E; [|reflexivity].
  exfalso. apply Hc, Hcols, E.
Qed.

Lemma canonical_present (df : frame) (c : string) :
  canonical_shape df -> In c CANONICAL_FIELDS ->
  exists col, get c df = Some col /\ List.length col = n_rows df.
Proof.
  intros (Hr & Hcols & _) Hc.
  destruct (has_true_get c df (proj2 (Hcols c) Hc)) as [col Hg].
  exists col. split; [exact Hg | exact (rect_get _ _ _ Hr Hg)].
Qed.

(** C3, as the code has it.  Normalizing a table that is already in the
    canonical shape returns a table with the canonical fields and as many
    rows, in which attack_type, location, industry, attack_severity,
    data_compromised_GB, outcome, mitigation_method, attack_duration_min,
    response_time_min, security_tools_used and user_role are the columns
    of the input, cell for cell; target_system is not read from the input
    and holds a synthesized device type in every row. *)
Theorem canonical_table_renormalized (df out : frame) (w w' : world) :
  canonical_shape df -> map_global_schema df w = (Ok out, w') ->
  map fst (columns out) = CANONICAL_FIELDS
  /\ n_rows out = n_rows df
  /\ Forall (fun c => get c out = get c df) PRESERVED_FIELDS
  /\ typed is_device "target_system" out.
Proof.
  intros Hshape Hrun.
  pose proof Hshape as (Hr & Hcols & Htyped).
  destruct (map_global_schema_returned _ _ _ _ Hrun) as (mapped & w0 & Hfill & Hstd).
  destruct (fill_placeholders_returned _ _ _ _ Hr Hfill)
    as (Hr1 & (Hn1 & _ & Hkeep) & _).
  destruct (standardize_returned _ _ _ _ Hstd)
    as (ts & ty & loc & sev & gb & oc & w1 & w2 & w3 & w4 & w5
        & _ & Hty & Hloc & Hsev & Hgb & Hoc & ->).
  split; [apply assembled_fields|]. split; [exact Hn1|].
  (* the columns of the input *)
  destruct Htyped as (_ & (cty & Gty & Tty) & _ & (cloc & Gloc & Tloc)
                      & (csev & Gsev & Tsev) & (cgb & Ggb & Tgb)
                      & (cdur & Gdur & Tdur) & (crt & Grt & Trt)).
  destruct (canonical_present df "industry" Hshape ltac:(simpl; tauto)) as (cind & Gind & Lind).
  destruct (canonical_present df "outcome" Hshape ltac:(simpl; tauto)) as (cout & Gout & Lout).
  destruct (canonical_present df "mitigation_method" Hshape ltac:(simpl; tauto))
    as (cmit & Gmit & Lmit).
  destruct (canonical_present df "security_tools_used" Hshape ltac:(simpl; tauto))
    as (ctool & Gtool & Ltool).
  destruct (canonical_present df "user_role" Hshape ltac:(simpl; tauto))
    as (crole & Grole & Lrole).
  pose proof (rect_get _ _ _ Hr Gty) as Lty.
  pose proof (rect_get _ _ _ Hr Gloc) as Lloc.
  pose proof (rect_get _ _ _ Hr Gsev) as Lsev.
  pose proof (rect_get _ _ _ Hr Ggb) as Lgb.
  pose proof (rect_get _ _ _ Hr Gdur) as Ldur.
  pose proof (rect_get _ _ _ Hr Grt) as Lrt.
  rewrite <- Hn1 in Lty, Lloc, Lsev, Lgb, Ldur, Lrt, Lind, Lout, Lmit, Ltool, Lrole.
  (* the columns of [mapped] that the projection reads *)
  assert (Kept : forall c, ~ In c FILL_OVER -> ~ In c FILL_NEW -> get c mapped = get c df).
  { intros c H1 H2. apply Hkeep; auto. }
  assert (Absent : forall c, ~ In c FILL_OVER -> ~ In c FILL_NEW ->
                             ~ In c CANONICAL_FIELDS -> get c mapped = None).
  { intros c H1 H2 H3. rewrite (Kept c H1 H2). exact (canonical_absent df c Hshape H3). }
  pose proof (fill_placeholders_attack_type _ _ _ _ _ Hr
                (canonical_absent df "Attack Type" Hshape ltac:(not_in_list)) Gty Hfill)
    as Mty.
  pose proof (fill_placeholders_action_taken _ _ _ _ _ Hr
                (canonical_absent df "Action Taken" Hshape ltac:(not_in_list)) Gout Hfill)
    as Mout.
  destruct (fill_placeholders_device_information _ _ _ _ Hr
              (canonical_absent df "Device Information" Hshape ltac:(not_in_list)) Hfill)
    as (cdev & Mdev & Tdev & Ldev).
  rewrite <- Hn1 in Ldev.
  rewrite (std_attack_type_given _ _ _ Mty) in Hty. injection Hty as <- _.
  rewrite (std_location_given mapped cloc) in Hloc
    by (rewrite Kept; [exact Gloc | not_in_list | not_in_list]).
  injection Hloc as <- _.
  rewrite (std_attack_severity_given mapped csev) in Hsev
    by (rewrite Kept; [exact Gsev | not_in_list | not_in_list]).
  injection Hsev as <- _.
  rewrite (std_data_compromised_given mapped cgb) in Hgb
    by (rewrite Kept; [exact Ggb | not_in_list | not_in_list]).
  injection Hgb as <- _.
  rewrite (std_outcome_given _ _ _ Mout) in Hoc. injection Hoc as <- _.
  split.
  - unfold PRESERVED_FIELDS.
    repeat apply Forall_cons; try apply Forall_nil.
    all: rewrite ?Gty, ?Gloc, ?Gind, ?Gsev, ?Ggb, ?Gout, ?Gmit, ?Gdur, ?Grt, ?Gtool, ?Grole.
    all: unfold assembled, get; cbn [columns get_col String.eqb Ascii.eqb Bool.eqb].
    all: fold (get "Industry" mapped) (get "industry" mapped)
           (get "Defense Mechanism Used" mapped) (get "Defense Mechanism" mapped)
           (get "mitigation_method" mapped) (get "attack_duration_min" mapped)
           (get "response_time_min" mapped) (get "security_tools_used" mapped)
           (get "user_role" mapped).
    all: unfold std_industry, std_mitigation_method, std_attack_duration,
           std_response_time, std_security_tools, std_user_role, frame_get.
    all: rewrite ?(Absent "Industry"), ?(Absent "Defense Mechanism Used"),
           ?(Absent "Defense Mechanism") by not_in_list.
    all: rewrite ?(Kept "industry"), ?(Kept "mitigation_method"),
           ?(Kept "attack_duration_min"), ?(Kept "response_time_min"),
           ?(Kept "security_tools_used"), ?(Kept "user_role") by not_in_list.
    all: rewrite ?Gind, ?Gmit, ?Gdur, ?Grt, ?Gtool, ?Grole.
    all: cbn [as_series].
    all: rewrite ?(reindex_id _ cty Lty), ?(reindex_id _ cloc Lloc),
           ?(reindex_id _ cind Lind), ?(reindex_id _ cout Lout),
           ?(reindex_id _ cmit Lmit), ?(reindex_id _ cdur Ldur),
           ?(reindex_id _ crt Lrt), ?(reindex_id _ ctool Ltool),
           ?(reindex_id _ crole Lrole).
    all: rewrite ?(numeric_or_id _ csev Tsev), ?(numeric_or_id _ cgb Tgb),
           ?(numeric_or_id _ cdur Tdur), ?(numeric_or_id _ crt Trt),
           ?(astype_str_id cty Tty), ?(astype_str_id cloc Tloc).
    all: rewrite ?(reindex_id _ cty Lty), ?(reindex_id _ cloc Lloc),
           ?(reindex_id _ csev Lsev), ?(reindex_id _ cgb Lgb),
           ?(reindex_id _ cdur Ldur), ?(reindex_id _ crt Lrt).
    all: reflexivity.
  - exists cdev. split.
    + unfold assembled, get. cbn [columns get_col String.eqb Ascii.eqb Bool.eqb].
      unfold std_target_system, frame_get. rewrite Mdev. cbn [as_series].
      assert (Sdev : all_cells is_str cdev).
      { revert Tdev. apply Forall_impl. intros x. destruct x; simpl; congruence. }
      rewrite !(reindex_id _ cdev Ldev), (astype_str_id cdev Sdev),
        (reindex_id _ cdev Ldev).
      reflexivity.
    + exact Tdev.
Qed.

(** The code's [sev_to_num] on the lower-cased label follows the rule. *)
Lemma sev_to_num_rule (label : string) : label_rule label (sev_to_num (lower label)).
Proof.
  unfold label_rule, sev_to_num.
  pose proof (contains_lower_mentions "critical" label eq_refl) as Hc.
  pose proof (contains_lower_mentions "high" label eq_refl) as Hh.
  pose proof (contains_lower_mentions "medium" label eq_refl) as Hm.
  pose proof (contains_lower_mentions "low" label eq_refl) as Hl.
  destruct (contains "critical" (lower label)).
  { left. split; [apply Hc|]; reflexivity. }
  assert (Nc : ~ mentions "critical" label) by (intros H; apply Hc in H; discriminate H).
  destruct (contains "high" (lower label)).
  { right; left. repeat split; [exact Nc | apply Hh; reflexivity]. }
  assert (Nh : ~ mentions "high" label) by (intros H; apply Hh in H; discriminate H).
  destruct (contains "medium" (lower label)).
  { right; right; left. repeat split; [exact Nc | exact Nh | apply Hm; reflexivity]. }
  assert (Nm : ~ mentions "medium" label) by (intros H; apply Hm in H; discriminate H).
  destruct (contains "low" (lower label)).
  { right; right; right; left.
    repeat split; [exact Nc | exact Nh | exact Nm | apply Hl; reflexivity]. }
  assert (Nl : ~ mentions "low" label) by (intros H; apply Hl in H; discriminate H).
  right; right; right; right. repeat split; assumption.
Qed.

(** The rule leaves no choice: it fixes the severity of a label. *)
Lemma label_rule_decides (label : string) (k : Z) :
  label_rule label k -> k = sev_to_num (lower label).
Proof.
  intros H. pose proof (sev_to_num_rule label) as H'.
  unfold label_rule in H, H'.
  destruct H as [(M1 & ->)|[(N1 & M2 & ->)|[(N1 & N2 & M3 & ->)
               |[(N1 & N2 & N3 & M4 & ->)|(N1 & N2 & N3 & N4 & ->)]]]];
    destruct H' as [(P1 & ->)|[(Q1 & P2 & ->)|[(Q1 & Q2 & P3 & ->)
                 |[(Q1 & Q2 & Q3 & P4 & ->)|(Q1 & Q2 & Q3 & Q4 & ->)]]]];
    first [reflexivity | contradiction].
Qed.

(** The severity column when the input brings its own labels. *)
Lemma labelled_severity_column (df out : frame) (labels : column) (w w' : world) :
  rect df ->
  get "attack_severity" df = None -> get "Severity Level" df = Some labels ->
  map_global_schema df w = (Ok out, w') ->
  exists ss,
    astype_str labels = map Str ss
    /\ get "attack_severity" out
       = Some (map (fun s => Num (inject_Z (sev_to_num (lower s)))) ss).
Proof.
  intros Hr Hsev Hlvl Hrun.
  destruct (map_global_schema_returned _ _ _ _ Hrun) as (mapped & w0 & Hfill & Hstd).
  destruct (fill_placeholders_returned _ _ _ _ Hr Hfill)
    as (Hr1 & (Hn1 & _ & Hkeep) & _).
  destruct (standardize_returned _ _ _ _ Hstd)
    as (ts & ty & loc & sev & gb & oc & w1 & w2 & w3 & w4 & w5
        & _ & _ & _ & Hrun_sev & _ & _ & ->).
  rewrite get_assembled_severity.
  assert (Hsev1 : get "attack_severity" mapped = None).
  { rewrite Hkeep; [exact Hsev | not_in_list | right; not_in_list]. }
  assert (Hlvl1 : get "Severity Level" mapped = Some labels).
  { rewrite Hkeep; [exact Hlvl | not_in_list | left; exact (has_get _ _ _ Hlvl)]. }
  destruct (mwp_returned _ _ _ _ _ _ (std_attack_severity_spec mapped Hr1) Hrun_sev)
    as [_ Hl].
  destruct (std_attack_severity_labelled _ _ _ _ _ Hr1 Hsev1 Hlvl1 Hrun_sev)
    as (ss & Hss & ->).
  exists ss. split; [exact Hss|]. rewrite (reindex_id _ _ Hl). reflexivity.
Qed.

(** C6.  When the input has a "Severity Level" column and no
    attack_severity, the severity of every row follows from its label by
    the rule of the specification: 9 if the label mentions "critical", 7
    if it mentions "high", 5 for "medium", 2 for "low", tried in that
    order without regard to letter case, and 5 if it mentions none.  So
    the label "Critical" gives 9, and "high" in any letter case gives 7.
    A cell that is a number or an instant is read as its text; a missing
    cell gives 5 where pandas writes it as "nan", and where pandas keeps
    it missing the normalizer does not return. *)
Theorem label_severity_mapping (df out : frame) (labels : column) (w w' : world) :
  rect df ->
  get "attack_severity" df = None -> get "Severity Level" df = Some labels ->
  map_global_schema df w = (Ok out, w') ->
  exists sev,
    get "attack_severity" out = Some sev
    /\ Forall2
         (fun x y =>
            exists k,
              y = Num (inject_Z k)
              /\ match x with
                 | Str label =>
                     label_rule label k
                     /\ (label = "Critical" -> k = 9)
                     /\ (same_word label "high" = true -> k = 7)
                 | Num q => label_rule (str_of_num q) k
                 | Instant t => label_rule (str_of_instant t) k
                 | NaN => missing_as_text = true /\ k = 5
                 end)
         labels sev.
Proof.
  intros Hr Hsev Hlvl Hrun.
  destruct (labelled_severity_column _ _ _ _ _ Hr Hsev Hlvl Hrun) as (ss & Hss & ->).
  eexists. split; [reflexivity|].
  clear - Hss. revert ss Hss.
  induction labels as [|x rest IH]; intros [|s ss] Hss; try discriminate Hss.
  - constructor.
  - cbn [astype_str map] in Hss. injection Hss as Hx Hrest.
    constructor; [|exact (IH ss Hrest)].
    exists (sev_to_num (lower s)). split; [reflexivity|].
    destruct x as [|q|label|t]; cbn [astype_str_cell str_of_cell] in Hx.
    + destruct missing_as_text; [|discriminate Hx].
      injection Hx as <-. split; reflexivity.
    + injection Hx as <-. apply sev_to_num_rule.
    + injection Hx as <-. split; [apply sev_to_num_rule|]. split.
      * intros ->. reflexivity.
      * intros Hw. apply same_word_lower in Hw; [|reflexivity].
        rewrite Hw. reflexivity.
    + injection Hx as <-. apply sev_to_num_rule.
Qed.

End Normalizer.

(** * Sample runs *)

Section Samples.
Import Adapter AdapterSpec AdapterMore.
Local Open Scope adapter_scope.

Lemma schema_detection_priority_witness :
  @load_best_dataset sample_conversions (Some both_shapes_table)
  = @map_global_schema sample_conversions both_shapes_table.
Proof.
  apply (proj1 (@schema_detection_priority sample_conversions both_shapes_table));
    reflexivity.
Defined.

Lemma attack_severity_values_witness :
  exists out w' sev,
    @map_global_schema sample_conversions severe_table (sample_world 3) = (Ok out, w')
    /\ get "attack_severity" out = Some sev
    /\ sev = @numeric_or sample_conversions 5 [Num 15].
Proof.
  destruct (@map_global_schema sample_conversions severe_table (sample_world 3))
    as [[out|e] w'] eqn:E; [|vm_compute in E; discriminate E].
  destruct (@attack_severity_values sample_conversions severe_table out
              (sample_world 3) w' ltac:(repeat constructor) E) as (sev & Hsev & Hval).
  exists out, w', sev. split; [reflexivity|]. split; [exact Hsev | exact Hval].
Defined.

(** An attack_severity of 15 in the input is 15 in the output. *)
Lemma given_severity_leaves_range :
  ~ (forall out w' sev,
       @load_best_dataset sample_conversions (Some severe_table) (sample_world 3)
       = (Ok out, w') ->
       get "attack_severity" out = Some sev ->
       Forall (fun x => exists z, x = Num (inject_Z z) /\ 1 <= z <= 10) sev).
Proof.
  intros H.
  destruct (@load_best_dataset sample_conversions (Some severe_table)
              (sample_world 3)) as [[out|e] w'] eqn:E;
    [|vm_compute in E; discriminate E].
  vm_compute in E. injection E as <- _.
  specialize (H _ w' [Num 15] eq_refl eq_refl).
  inversion H as [|x rest (z & Hz & Hlo & Hhi) _].
  injection Hz as Hz. lia.
Qed.

Lemma financial_loss_severity_witness :
  exists out w',
    @map_global_schema sample_conversions loss_table (sample_world 3) = (Ok out, w')
    /\ get "attack_severity" out = Some [Num 9; Num 7; Num 5; Num 2].
Proof.
  destruct (@map_global_schema sample_conversions loss_table (sample_world 3))
    as [[out|e] w'] eqn:E; [|vm_compute in E; discriminate E].
  exists out, w'. split; [reflexivity|].
  exact (@financial_loss_severity sample_conversions loss_table out [120; 60; 20; 5]%Q
           (sample_world 3) w' ltac:(repeat constructor) eq_refl eq_refl eq_refl E).
Defined.

Lemma label_severity_mapping_witness :
  (exists out w',
     @map_global_schema sample_conversions labelled_table (sample_world 3) = (Ok out, w')
     /\ get "attack_severity" out = Some [Num 9; Num 7; Num 5; Num 5; Num 2])
  /\ (exists out w',
        @map_global_schema legacy_conversions unlabelled_table (sample_world 3)
        = (Ok out, w')
        /\ get "attack_severity" out = Some [Num 7; Num 5]).
Proof.
  split.
  - destruct (@map_global_schema sample_conversions labelled_table (sample_world 3))
      as [[out|e] w'] eqn:E; [|vm_compute in E; discriminate E].
    destruct (@label_severity_mapping sample_conversions labelled_table out
                [Str "Critical"; Str "HiGh"; Str "unrated"; Num 3; Str "Slow"]
                (sample_world 3) w' ltac:(repeat constructor) eq_refl eq_refl E)
      as (sev & Hsev & Hrule).
    exists out, w'. split; [reflexivity|]. rewrite Hsev. f_equal.
    destruct sev as [|y1 [|y2 [|y3 [|y4 [|y5 [|y6 rest]]]]]];
      try (exfalso; apply Forall2_length in Hrule; discriminate Hrule).
    apply Forall2_cons_iff in Hrule. destruct Hrule as [(k1 & -> & _ & H1 & _) Hrule].
    apply Forall2_cons_iff in Hrule. destruct Hrule as [(k2 & -> & _ & _ & H2) Hrule].
    apply Forall2_cons_iff in Hrule. destruct Hrule as [(k3 & -> & H3 & _) Hrule].
    apply Forall2_cons_iff in Hrule. destruct Hrule as [(k4 & -> & H4) Hrule].
    apply Forall2_cons_iff in Hrule. destruct Hrule as [(k5 & -> & H5 & _) _].
    rewrite (H1 eq_refl), (H2 eq_refl), (label_rule_decides _ _ H3),
      (label_rule_decides _ _ H4), (label_rule_decides _ _ H5).
    reflexivity.
  - destruct (@map_global_schema legacy_conversions unlabelled_table (sample_world 3))
      as [[out|e] w'] eqn:E; [|vm_compute in E; discriminate E].
    destruct (@label_severity_mapping legacy_conversions unlabelled_table out
                [Str "High"; NaN]
                (sample_world 3) w' ltac:(repeat constructor) eq_refl eq_refl E)
      as (sev & Hsev & Hrule).
    exists out, w'. split; [reflexivity|]. rewrite Hsev. f_equal.
    destruct sev as [|y1 [|y2 [|y3 rest]]];
      try (exfalso; apply Forall2_length in Hrule; discriminate Hrule).
    apply Forall2_cons_iff in Hrule. destruct Hrule as [(k1 & -> & H1 & _) Hrule].
    apply Forall2_cons_iff in Hrule. destruct Hrule as [(k2 & -> & _ & ->) _].
    rewrite (label_rule_decides _ _ H1). reflexivity.
Defined.

Lemma has_names (df : frame) (c : string) :
  has c df = true <-> In c (map fst (columns df)).
Proof.
  unfold has, get. induction (columns df) as [|[k v] rest IH]; simpl.
  - split; [discriminate | intros []].
  - destruct (String.eqb k c) eqn:E.
    + apply String.eqb_eq in E. split; [left; exact E | reflexivity].
    + apply String.eqb_neq in E. rewrite IH. split; [right; assumption|].
      intros [H|H]; [contradiction | exact H].
Qed.

Lemma canonical_table_shape : @canonical_shape canonical_table.
Proof.
  split; [repeat constructor|]. split.
  - intros c. apply has_names.
  - unfold fields_typed, typed.
    repeat split; eexists; (split; [reflexivity|]); repeat constructor.
Qed.

Lemma canonical_table_renormalized_witness :
  exists out w',
    @map_global_schema sample_conversions canonical_table (sample_world 3) = (Ok out, w')
    /\ Forall (fun c => get c out = get c canonical_table) PRESERVED_FIELDS.
Proof.
  destruct (@map_global_schema sample_conversions canonical_table (sample_world 3))
    as [[out|e] w'] eqn:E; [|vm_compute in E; discriminate E].
  exists out, w'. split; [reflexivity|].
  exact (proj1 (proj2 (proj2 (@canonical_table_renormalized sample_conversions
                                canonical_table out (sample_world 3) w'
                                canonical_table_shape E)))).
Defined.

(** A table in the canonical shape does not come back as it was: its
    timestamps are replaced by the time of the run. *)
Lemma canonical_table_not_preserved :
  ~ (forall out w',
       @load_best_dataset sample_conversions (Some canonical_table) (sample_world 3)
       = (Ok out, w') ->
       Forall (fun c => get c out = get c canonical_table) CANONICAL_FIELDS).
Proof.
  intros H.
  destruct (@load_best_dataset sample_conversions (Some canonical_table)
              (sample_world 3)) as [[out|e] w'] eqn:E;
    [|vm_compute in E; discriminate E].
  specialize (H out w' eq_refl).
  vm_compute in E. injection E as <- _.
  inversion H as [|c rest Hc _]. vm_compute in Hc. discriminate Hc.
Qed.

End Samples.

(** * More about the generator *)

Section GeneratorMoreFacts.
Import Generator GeneratorSpec GeneratorMore.

Lemma draw_many_length (n : nat) : post (draw_many n) (fun ls => List.length ls = n).
Proof.
  induction n as [|n IH]; simpl.
  - apply post_ret. reflexivity.
  - apply post_bind_any. intros l.
    apply (post_bind _ _ (fun ls => List.length ls = n)); [exact IH|].
    intros ls Hls. apply post_ret. simpl. congruence.
Qed.

Lemma insert_by_time_perm (r : attack_record) (rs : list attack_record) :
  Permutation (insert_by_time r rs) (r :: rs).
Proof.
  induction rs as [|x rs IH]; simpl.
  - apply Permutation_refl.
  - destruct (timestamp r <=? timestamp x).
    + apply Permutation_refl.
    + eapply perm_trans; [apply perm_skip, IH | apply perm_swap].
Qed.

Lemma sort_values_timestamp_perm (rs : list attack_record) :
  Permutation (sort_values_timestamp rs) rs.
Proof.
  induction rs as [|r rs IH]; simpl.
  - apply perm_nil.
  - eapply perm_trans; [apply insert_by_time_perm | apply perm_skip, IH].
Qed.

Lemma insert_by_time_sorted (r : attack_record) (rs : list attack_record) :
  StronglySorted by_time rs -> StronglySorted by_time (insert_by_time r rs).
Proof.
  induction 1 as [|x rs Hs IH Hx]; simpl.
  - constructor; constructor.
  - destruct (timestamp r <=? timestamp x) eqn:E.
    + apply Z.leb_le in E. constructor; [constructor; assumption|].
      constructor; [exact E|].
      revert Hx. apply Forall_impl. intros y Hy. unfold by_time in *. lia.
    + apply Z.leb_gt in E. constructor; [exact IH|].
      eapply Permutation_Forall; [apply Permutation_sym, insert_by_time_perm|].
      constructor; [unfold by_time; lia | exact Hx].
Qed.

Lemma sort_values_timestamp_sorted (rs : list attack_record) :
  StronglySorted by_time (sort_values_timestamp rs).
Proof.
  induction rs as [|r rs IH]; simpl.
  - constructor.
  - apply insert_by_time_sorted, IH.
Qed.

(** X1.  The data set comes out in the order of its timestamps: no row
    has a later timestamp than a row after it. *)
Theorem generate_dataset_sorted (g : rng) (n : nat) :
  StronglySorted by_time (fst (generate_dataset n g)).
Proof.
  unfold generate_dataset, bind, ret.
  destruct (draw_many n g) as [ls g']. simpl.
  apply sort_values_timestamp_sorted.
Qed.

(** X2.  Sorting loses and repeats nothing: the data set holds exactly
    the records that the [num_records] passes of the loop returned, each
    as often as it was returned, so it has [num_records] rows. *)
Theorem generate_dataset_complete (g : rng) (n : nat) :
  Permutation (fst (generate_dataset n g)) (map returned (fst (draw_many n g)))
  /\ List.length (fst (generate_dataset n g)) = n.
Proof.
  unfold generate_dataset, bind, ret.
  pose proof (draw_many_length n g) as Hlen.
  destruct (draw_many n g) as [ls g']. simpl in *.
  split; [apply sort_values_timestamp_perm|].
  rewrite (Permutation_length (sort_values_timestamp_perm _)), length_map.
  exact Hlen.
Qed.

Lemma bisect_le (cum : list Q) (x : Q) (hi : nat) : (bisect cum x hi <= hi)%nat.
Proof.
  revert cum. induction hi as [|h IH]; intros cum.
  - destruct cum; apply Nat.le_refl.
  - destruct cum as [|c r]; cbn [bisect]; [apply Nat.le_0_l|].
    destruct (Qle_bool c x); [|apply Nat.le_0_l].
    apply le_n_S, IH.
Qed.

Lemma choices1_in (population : list string) (ws : list Q) :
  population <> [] -> post (choices1 population ws) (fun x => In x population).
Proof.
  intros Hne. unfold choices1. apply post_bind_any. intros u.
  apply post_ret. apply nth_In.
  pose proof (bisect_le (accumulate 0 ws)
                (u * last (accumulate 0 ws) 0)%Q (List.length population - 1)) as H.
  destruct population; [congruence | simpl in *; lia].
Qed.

Ltac skip_draw := apply post_bind_any; intro.

Lemma draw_attack_in_vocabulary : post draw_attack drawn_in_vocabulary.
Proof.
  unfold draw_attack.
  skip_draw.
  apply (post_bind _ _ (fun c => In c COUNTRIES)).
  { destruct (negb (Qle_bool 0.7 a));
      [apply choices1_in | apply choice_in]; discriminate. }
  intros country Hcountry.
  skip_draw.
  apply (post_bind _ _ (fun x => In x ATTACK_TYPES)); [apply choice_in; discriminate|].
  intros ty Hty.
  apply (post_bind _ _ (fun x => In x TARGET_INDUSTRIES)); [apply choice_in; discriminate|].
  intros ind Hind.
  apply (post_bind _ _ (fun x => In x TARGET_SYSTEMS)); [apply choice_in; discriminate|].
  intros sys Hsys.
  do 6 skip_draw.
  apply (post_bind _ _ (fun x => In x SECURITY_VULNERABILITIES));
    [apply choice_in; discriminate|].
  intros vul Hvul.
  apply (post_bind _ _ (fun x => In x DEFENSE_MECHANISMS)); [apply choice_in; discriminate|].
  intros def Hdef.
  apply post_bind_any; intros action.
  do 4 skip_draw.
  apply (post_bind _ _ (fun t => 0 <= t <= WINDOW_SECONDS)).
  { unfold generate_timestamp.
    apply (post_bind _ _ (fun t => 0 <= t <= WINDOW_SECONDS)).
    - apply randint_range. unfold WINDOW_SECONDS, delta_days. lia.
    - intros t Ht. apply post_ret. exact Ht. }
  intros t Ht. apply post_ret.
  unfold drawn_in_vocabulary. cbn [l_country l_attack_type l_target_industry
    l_target_system l_vulnerability l_defense l_outcome l_timestamp].
  repeat (split; [assumption|]). split; [|exact Ht].
  unfold OUTCOMES.
  destruct (mem_str action ["Blocked"; "Quarantined"; "Contained"]); [simpl; tauto|].
  destruct (mem_str action ["Logged"; "Monitored"]); simpl; tauto.
Qed.

Lemma draw_many_all (P : locals -> Prop) (n : nat) :
  post draw_attack P -> post (draw_many n) (Forall P).
Proof.
  intros HP. induction n as [|n IH]; simpl.
  - apply post_ret. constructor.
  - apply (post_bind _ _ P); [exact HP|].
    intros l Hl. apply (post_bind _ _ (Forall P)); [exact IH|].
    intros ls Hls. apply post_ret. constructor; assumption.
Qed.

(** Every row of the data set is the [return] of a pass that has what
    every pass has. *)
Lemma generate_dataset_rows_of (P : locals -> Prop) (g : rng) (n : nat)
      (r : attack_record) :
  post draw_attack P -> In r (fst (generate_dataset n g)) ->
  exists l, r = returned l /\ P l.
Proof.
  intros HP. unfold generate_dataset, bind, ret.
  pose proof (draw_many_all P n HP g) as Hall.
  destruct (draw_many n g) as [ls g']. simpl in *.
  intros Hin. apply sort_values_timestamp_In in Hin.
  apply in_map_iff in Hin. destruct Hin as (l & <- & Hl).
  exists l. split; [reflexivity|].
  rewrite Forall_forall in Hall. apply Hall, Hl.
Qed.

(** X3.  Every timestamp of the data set lies between the 1st of January
    2019 and midnight of the 31st of December 2024, and the year column
    is the year of that timestamp, between 2019 and 2024. *)
Theorem generated_timestamp_in_window (g : rng) (n : nat) (r : attack_record) :
  In r (fst (generate_dataset n g)) ->
  0 <= timestamp r <= WINDOW_SECONDS
  /\ year r = year_of (timestamp r)
  /\ 2019 <= year r <= 2024.
Proof.
  intros Hin.
  destruct (generate_dataset_rows_of _ g n r draw_attack_in_vocabulary Hin)
    as (l & -> & H).
  destruct H as (_ & _ & _ & _ & _ & _ & _ & Ht).
  cbn [timestamp year returned]. split; [exact Ht|]. split; [reflexivity|].
  unfold year_of.
  repeat match goal with |- context [if ?b then _ else _] => destruct b end; lia.
Qed.

Lemma generated_timestamp_in_window_witness :
  0 <= timestamp (sample_record 400000000) <= WINDOW_SECONDS
  /\ year (sample_record 400000000) = year_of (timestamp (sample_record 400000000))
  /\ 2019 <= year (sample_record 400000000) <= 2024.
Proof.
  apply (generated_timestamp_in_window (mk_rng (sample_tape 400000000) 0) 1).
  vm_compute. left. reflexivity.
Defined.

(** X4.  Every categorical field of a generated record is a word of its
    vocabulary: the location a country, the type one of the 23 attack
    types, and likewise the industry, the system, the attack vector and
    the mitigation method. *)
Theorem generated_fields_in_vocabulary (g : rng) (n : nat) (r : attack_record) :
  In r (fst (generate_dataset n g)) ->
  In (location r) COUNTRIES
  /\ In (attack_type r) ATTACK_TYPES
  /\ In (target_industry r) TARGET_INDUSTRIES
  /\ In (target_system r) TARGET_SYSTEMS
  /\ In (attack_vector r) SECURITY_VULNERABILITIES
  /\ In (mitigation_method r) DEFENSE_MECHANISMS.
Proof.
  intros Hin.
  destruct (generate_dataset_rows_of _ g n r draw_attack_in_vocabulary Hin)
    as (l & -> & H).
  destruct H as (H1 & H2 & H3 & H4 & H5 & H6 & _ & _).
  cbn [location attack_type target_industry target_system attack_vector
         mitigation_method returned].
  repeat split; assumption.
Qed.

Lemma generated_fields_in_vocabulary_witness :
  In (location (sample_record 7)) COUNTRIES
  /\ In (attack_type (sample_record 7)) ATTACK_TYPES
  /\ In (target_industry (sample_record 7)) TARGET_INDUSTRIES
  /\ In (target_system (sample_record 7)) TARGET_SYSTEMS
  /\ In (attack_vector (sample_record 7)) SECURITY_VULNERABILITIES
  /\ In (mitigation_method (sample_record 7)) DEFENSE_MECHANISMS.
Proof.
  apply (generated_fields_in_vocabulary (mk_rng (sample_tape 7) 0) 1).
  vm_compute. left. reflexivity.
Defined.

(** X5.  The outcome of a generated record is "Mitigated", "Detected" or
    "Resolved"; the generator never writes the outcome "Success". *)
Theorem generated_outcome_never_success (g : rng) (n : nat) (r : attack_record) :
  In r (fst (generate_dataset n g)) ->
  In (outcome r) OUTCOMES /\ outcome r <> "Success".
Proof.
  intros Hin.
  destruct (generate_dataset_rows_of _ g n r draw_attack_in_vocabulary Hin)
    as (l & -> & H).
  destruct H as (_ & _ & _ & _ & _ & _ & Ho & _).
  cbn [outcome returned]. split; [exact Ho|].
  unfold OUTCOMES in Ho. simpl in Ho.
  destruct Ho as [<-|[<-|[<-|[]]]]; discriminate.
Qed.

Lemma generated_outcome_never_success_witness :
  In (outcome (sample_record 2)) OUTCOMES /\ outcome (sample_record 2) <> "Success".
Proof.
  apply (generated_outcome_never_success (mk_rng (sample_tape 2) 0) 1).
  vm_compute. left. reflexivity.
Defined.

Lemma severity_weights_within :
  Forall (fun kv => 3 <= fst (snd kv) /\ snd (snd kv) <= 10) severity_weights.
Proof. unfold severity_weights. repeat constructor; simpl; lia. Qed.

(** X6.  Whatever its type, a generated record has a severity between 3
    and 10: no band of the table, nor the default band, reaches below 3
    or above 10. *)
Theorem generated_severity_bounds (g : rng) (n : nat) (r : attack_record) :
  In r (fst (generate_dataset n g)) -> 3 <= attack_severity r <= 10.
Proof.
  intros Hin.
  destruct (generate_dataset_rows g n r Hin) as (l & _ & -> & Hband & _).
  cbn [attack_severity returned].
  assert (Hin_band : 3 <= fst (severity_band (l_attack_type l))
                     /\ snd (severity_band (l_attack_type l)) <= 10).
  { unfold severity_band, dict_get_default.
    destruct (dict_get severity_weights (l_attack_type l)) as [v|] eqn:E.
    - exact (dict_get_Forall (fun v => 3 <= fst v /\ snd v <= 10) _ _ _
               severity_weights_within E).
    - simpl. lia. }
  lia.
Qed.

Lemma generated_severity_bounds_witness : 3 <= attack_severity (sample_record 5) <= 10.
Proof.
  apply (generated_severity_bounds (mk_rng (sample_tape 5) 0) 1).
  vm_compute. left. reflexivity.
Defined.

Lemma random_unit : post random (fun u => 0 <= u /\ u < 1)%Q.
Proof.
  intros g. unfold random, bind, next_word, ret. simpl.
  pose proof (Z.mod_pos_bound (Z.of_N (tape g (cursor g))) (2 ^ 53) ltac:(lia)) as H.
  unfold Qle, Qlt. simpl. lia.
Qed.

Lemma uniform_range (a b : Q) :
  (a <= b)%Q -> post (uniform a b) (fun x => a <= x /\ x <= b)%Q.
Proof.
  intros Hab. unfold uniform.
  apply (post_bind _ _ (fun u => 0 <= u /\ u < 1)%Q); [apply random_unit|].
  intros u [H0 H1]. apply post_ret. split; nra.
Qed.

Lemma uniform_within (a b lo hi : Q) :
  (lo <= a)%Q -> (a <= b)%Q -> (b <= hi)%Q ->
  post (uniform a b) (fun x => lo <= x /\ x <= hi)%Q.
Proof.
  intros H1 H2 H3 g. destruct (uniform_range a b H2 g) as [Ha Hb]. split; lra.
Qed.

Lemma draw_attack_in_bands : post draw_attack drawn_in_bands.
Proof.
  unfold draw_attack.
  do 3 skip_draw. apply post_bind_any; intros ty.
  do 13 skip_draw.
  apply (post_bind _ _ (fun d => In ty LOW_LOSS_TYPES -> 0.1 <= d /\ d <= 5)%Q).
  { destruct (mem_str ty ["Ransomware"; "SQL Injection"; "Supply Chain Attack"; "APT"])
      eqn:E1.
    { apply post_bind_any. intros u. apply post_ret. intros Hlow.
      apply mem_str_In in E1. exfalso. unfold LOW_LOSS_TYPES in Hlow. simpl in *.
      destruct Hlow as [<-|[<-|[<-|[]]]];
        repeat (destruct E1 as [E1|E1]; [discriminate E1|]); exact E1. }
    destruct (mem_str ty ["Business Email Compromise"; "Credential Stuffing"]) eqn:E2.
    { apply post_bind_any. intros u. apply post_ret. intros Hlow.
      apply mem_str_In in E2. exfalso. unfold LOW_LOSS_TYPES in Hlow. simpl in *.
      destruct Hlow as [<-|[<-|[<-|[]]]];
        repeat (destruct E2 as [E2|E2]; [discriminate E2|]); exact E2. }
    destruct (mem_str ty ["DDoS"; "Brute Force"; "Cryptojacking"]) eqn:E3.
    { intros g Hlow. apply (uniform_within 0.1 5 0.1 5); lra. }
    assert (Hnot : ~ In ty LOW_LOSS_TYPES).
    { intros Hlow. apply mem_str_In in Hlow. unfold LOW_LOSS_TYPES in Hlow. congruence. }
    destruct (mem_str ty ["Backdoor"; "Rootkit"; "Trojan"; "Spyware"]);
      apply post_bind_any; intros u; apply post_ret; intros Hlow; contradiction. }
  intros loss Hloss.
  apply (post_bind _ _ (fun d => 5 <= d /\ d <= 300)%Q).
  { destruct (mem_str ty ["DDoS"; "Ransomware"; "Worm"]);
      [apply uniform_within; lra|].
    destruct (mem_str ty ["APT"; "Supply Chain Attack"; "Rootkit"]);
      [apply uniform_within; lra|].
    destruct (mem_str ty ["Cryptojacking"; "IoT Attack"]);
      [apply uniform_within; lra|].
    destruct (mem_str ty ["Phishing"; "Business Email Compromise"]);
      apply uniform_within; lra. }
  intros dur Hdur. skip_draw. apply post_ret.
  unfold drawn_in_bands. cbn [l_attack_duration l_attack_type l_data_loss].
  split; [exact Hdur | exact Hloss].
Qed.

(** Rounding to the nearest integer keeps a number between two integers
    between them. *)
Lemma round_half_even_between (q : Q) (lo hi : Z) :
  (inject_Z lo <= q)%Q -> (q <= inject_Z hi)%Q -> lo <= round_half_even q <= hi.
Proof.
  intros Hlo Hhi.
  pose proof (Qfloor_le q) as Hf1. pose proof (Qlt_floor q) as Hf2.
  assert (Hlof : lo <= Qfloor q).
  { rewrite <- (Qfloor_Z lo). apply Qfloor_resp_le, Hlo. }
  assert (Hfhi : Qfloor q <= hi).
  { rewrite <- (Qfloor_Z hi). apply Qfloor_resp_le, Hhi. }
  assert (Hup : (inject_Z (Qfloor q) < q)%Q -> Qfloor q + 1 <= hi).
  { intros Hlt. assert (H : (inject_Z (Qfloor q) < inject_Z hi)%Q) by lra.
    rewrite <- Zlt_Qlt in H. lia. }
  unfold round_half_even.
  set (f := Qfloor q) in *. set (r := (q - inject_Z f)%Q).
  destruct (Qle_bool r (1 # 2)) eqn:E1; destruct (Qle_bool (1 # 2) r) eqn:E2; cbn [andb negb].
  - apply Qle_bool_iff in E2. destruct (Z.even f); [lia|].
    split; [lia|]. apply Hup. unfold r in E2. lra.
  - lia.
  - apply Qle_bool_iff in E2. split; [lia|]. apply Hup. unfold r in E2. lra.
  - destruct (Z.even f); [lia|]. split; [lia|]. apply Hup.
    assert (H : ~ (r <= 1 # 2)%Q) by (rewrite <- Qle_bool_iff; congruence).
    unfold r in H. lra.
Qed.

Lemma round2_between (q : Q) (lo hi : Z) :
  (inject_Z lo <= q * 100)%Q -> (q * 100 <= inject_Z hi)%Q ->
  (Qmake lo 100 <= round2 q)%Q /\ (round2 q <= Qmake hi 100)%Q.
Proof.
  intros Hlo Hhi.
  destruct (round_half_even_between (q * 100) lo hi Hlo Hhi) as [H1 H2].
  unfold round2, Qle. simpl. lia.
Qed.

(** X7.  The duration of every generated attack lies between 5 and 300
    minutes, and an attack of type "DDoS", "Brute Force" or
    "Cryptojacking" compromises between 0.1 and 5 GB whatever its
    severity.  (Numbers are the exact values here, not their binary
    approximations.) *)
Theorem generated_duration_and_low_loss (g : rng) (n : nat) (r : attack_record) :
  In r (fst (generate_dataset n g)) ->
  (5 <= attack_duration_min r /\ attack_duration_min r <= 300)%Q
  /\ (In (attack_type r) LOW_LOSS_TYPES ->
      (0.1 <= data_compromised_GB r /\ data_compromised_GB r <= 5)%Q).
Proof.
  intros Hin.
  destruct (generate_dataset_rows_of _ g n r draw_attack_in_bands Hin)
    as (l & -> & [[Hd1 Hd2] Hloss]).
  cbn [attack_duration_min data_compromised_GB attack_type returned]. split.
  - destruct (round2_between (l_attack_duration l) 500 30000) as [H1 H2];
      [unfold inject_Z; lra | unfold inject_Z; lra |].
    split; lra.
  - intros Hty. destruct (Hloss Hty) as [Hl1 Hl2].
    destruct (round2_between (l_data_loss l) 10 500) as [H1 H2];
      [unfold inject_Z; lra | unfold inject_Z; lra |].
    split; lra.
Qed.

Lemma generated_duration_and_low_loss_witness :
  (5 <= attack_duration_min (sample_record 7)
   /\ attack_duration_min (sample_record 7) <= 300)%Q
  /\ (In (attack_type (sample_record 7)) LOW_LOSS_TYPES ->
      (0.1 <= data_compromised_GB (sample_record 7)
       /\ data_compromised_GB (sample_record 7) <= 5)%Q).
Proof.
  apply (generated_duration_and_low_loss (mk_rng (sample_tape 7) 0) 1).
  vm_compute. left. reflexivity.
Defined.

Lemma int_of_between (q : Q) (lo hi : Z) :
  0 <= lo -> (inject_Z lo <= q)%Q -> (q <= inject_Z hi)%Q -> lo <= int_of q <= hi.
Proof.
  intros H0 Hlo Hhi.
  assert (Hfloor : int_of q = Qfloor q).
  { destruct q as [n d]. unfold int_of, Qfloor. cbn [Qnum Qden].
    apply Z.quot_div_nonneg; [|lia].
    unfold Qle, inject_Z in Hlo. cbn [Qnum Qden] in Hlo. nia. }
  rewrite Hfloor. split.
  - rewrite <- (Qfloor_Z lo). apply Qfloor_resp_le, Hlo.
  - rewrite <- (Qfloor_Z hi). apply Qfloor_resp_le, Hhi.
Qed.

Lemma industry_user_multiplier_within (industry : string) :
  5 <= dict_get_default industry_user_multiplier industry 7 <= 20.
Proof.
  unfold dict_get_default.
  destruct (dict_get industry_user_multiplier industry) as [v|] eqn:E; [|lia].
  apply (dict_get_Forall (fun v => 5 <= v <= 20) _ _ _) in E; [exact E|].
  unfold industry_user_multiplier. repeat constructor; simpl; lia.
Qed.

Lemma severity_band_within (ty : string) :
  3 <= fst (dict_get_default severity_weights ty (3, 8))
  /\ fst (dict_get_default severity_weights ty (3, 8))
     <= snd (dict_get_default severity_weights ty (3, 8))
  /\ snd (dict_get_default severity_weights ty (3, 8)) <= 10.
Proof.
  pose proof (severity_band_ordered ty) as Hord. unfold severity_band in Hord.
  unfold dict_get_default in *.
  destruct (dict_get severity_weights ty) as [v|] eqn:E; [|simpl; lia].
  pose proof (dict_get_Forall (fun v => 3 <= fst v /\ snd v <= 10) _ _ _
                severity_weights_within E) as [H1 H2].
  lia.
Qed.

Lemma draw_attack_in_ranges : post draw_attack drawn_in_ranges.
Proof.
  unfold draw_attack.
  do 3 skip_draw. apply post_bind_any; intros ty.
  apply post_bind_any; intros industry. skip_draw.
  destruct (severity_band_within ty) as (Hb1 & Hb2 & Hb3).
  apply (post_bind _ _ _ _ (randint_range _ _ Hb2)). intros sev Hsev.
  apply (post_bind _ _ _ _ (uniform_range 1000 50000 ltac:(lra))). intros base Hbase.
  apply (post_bind _ _ _ _ (uniform_range 0.5 2.0 ltac:(lra))). intros jitter Hjitter.
  apply (post_bind _ _ _ _ (randint_range 10 500 ltac:(lia))). intros users Husers.
  apply (post_bind _ _ _ _ (uniform_range 0.5 1.5 ltac:(lra))). intros spread Hspread.
  do 4 skip_draw.
  apply (post_bind _ _ _ _ (uniform_range 2 72 ltac:(lra))). intros hours Hhours.
  apply (post_bind _ _ (fun f => (3 # 10 <= f /\ f <= 9 # 5)%Q
                                 /\ (8 <= sev -> (f <= 7 # 10)%Q)
                                 /\ (sev < 5 -> (1 <= f)%Q))).
  { destruct (8 <=? sev) eqn:E8; [|destruct (5 <=? sev) eqn:E5].
    - apply Z.leb_le in E8. intros g.
      destruct (uniform_range 0.3 0.7 ltac:(lra) g) as [H1 H2].
      split; [split; lra|]. split; [intros _; lra | intros H; lia].
    - apply Z.leb_gt in E8. apply Z.leb_le in E5. intros g.
      destruct (uniform_range 0.6 1.2 ltac:(lra) g) as [H1 H2].
      split; [split; lra|]. split; intros H; lia.
    - apply Z.leb_gt in E8. apply Z.leb_gt in E5. intros g.
      destruct (uniform_range 1.0 1.8 ltac:(lra) g) as [H1 H2].
      split; [split; lra|]. split; [intros H; lia | intros _; lra]. }
  intros factor ((Hf1 & Hf2) & Hfast & Hslow).
  do 3 skip_draw. apply post_ret.
  unfold drawn_in_ranges.
  cbn [l_financial_loss l_affected_users l_resolution_time l_attack_severity].
  assert (Hs : (3 <= inject_Z sev /\ inject_Z sev <= 10)%Q).
  { split; [rewrite <- (Zle_Qle 3) | rewrite <- (Zle_Qle _ 10)]; lia. }
  split; [|split; [|split; [|split]]].
  - unfold Qdiv. change (/ 5)%Q with (1 # 5)%Q.
    assert (H5 : (3 # 5 <= inject_Z sev * (1 # 5) /\ inject_Z sev * (1 # 5) <= 2)%Q)
      by (split; lra).
    revert H5. generalize (inject_Z sev * (1 # 5))%Q. intros x Hx.
    assert (H1 : (600 <= base * x /\ base * x <= 100000)%Q) by (split; nra).
    revert H1. generalize (base * x)%Q. intros y Hy. split; nra.
  - pose proof (industry_user_multiplier_within industry) as Hm.
    set (um := users * dict_get_default industry_user_multiplier industry 7) in *.
    assert (Hum : 50 <= um <= 10000) by (unfold um; nia).
    assert (HumQ : (50 <= inject_Z um /\ inject_Z um <= 10000)%Q).
    { split; [rewrite <- (Zle_Qle 50) | rewrite <- (Zle_Qle _ 10000)]; lia. }
    revert HumQ. generalize (inject_Z um). intros x Hx.
    apply int_of_between; [lia | unfold inject_Z; nra | unfold inject_Z; nra].
  - split; nra.
  - intros H8. specialize (Hfast H8). nra.
  - intros H5. specialize (Hslow H5). nra.
Qed.

(** X8.  The magnitudes of a generated record.  The financial impact
    lies between 300 and 200000 dollars and the affected users between 25
    and 15000; the response time lies between 36 and 7776 minutes, is at
    most 3024 minutes for a severity of 8 or more, and at least 120
    minutes for a severity below 5.  (Numbers are the exact values here,
    not their binary approximations.) *)
Theorem generated_magnitudes (g : rng) (n : nat) (r : attack_record) :
  In r (fst (generate_dataset n g)) ->
  (300 <= financial_impact_USD r /\ financial_impact_USD r <= 200000)%Q
  /\ 25 <= affected_users r <= 15000
  /\ (36 <= response_time_min r /\ response_time_min r <= 7776)%Q
  /\ (8 <= attack_severity r -> (response_time_min r <= 3024)%Q)
  /\ (attack_severity r < 5 -> (120 <= response_time_min r)%Q).
Proof.
  intros Hin.
  destruct (generate_dataset_rows_of _ g n r draw_attack_in_ranges Hin)
    as (l & -> & ([Hl1 Hl2] & Hu & [Ht1 Ht2] & Hfast & Hslow)).
  cbn [financial_impact_USD affected_users response_time_min attack_severity returned].
  split; [|split; [exact Hu|split; [|split]]].
  - destruct (round2_between (l_financial_loss l) 30000 20000000) as [H1 H2];
      [unfold inject_Z; lra | unfold inject_Z; lra |].
    split; lra.
  - destruct (round2_between (l_resolution_time l * 60) 3600 777600) as [H1 H2];
      [unfold inject_Z; lra | unfold inject_Z; lra |].
    split; lra.
  - intros H8. specialize (Hfast H8).
    destruct (round2_between (l_resolution_time l * 60) 3600 302400) as [H1 H2];
      [unfold inject_Z; lra | unfold inject_Z; lra |].
    lra.
  - intros H5. specialize (Hslow H5).
    destruct (round2_between (l_resolution_time l * 60) 12000 777600) as [H1 H2];
      [unfold inject_Z; lra | unfold inject_Z; lra |].
    lra.
Qed.

Lemma generated_magnitudes_witness :
  (300 <= financial_impact_USD (sample_record 9)
   /\ financial_impact_USD (sample_record 9) <= 200000)%Q
  /\ 25 <= affected_users (sample_record 9) <= 15000
  /\ (36 <= response_time_min (sample_record 9)
      /\ response_time_min (sample_record 9) <= 7776)%Q.
Proof.
  destruct (generated_magnitudes (mk_rng (sample_tape 9) 0) 1 (sample_record 9))
    as (H1 & H2 & H3 & _).
  - vm_compute. left. reflexivity.
  - split; [exact H1|]. split; [exact H2 | exact H3].
Defined.

End GeneratorMoreFacts.

(** * More about the adapter *)

Section FindDataset.
Import Adapter.

Lemma ends_with_app (suffix s : string) :
  ends_with suffix s = true <-> exists pre, s = (pre ++ suffix)%string.
Proof.
  induction s as [|c s IH]; cbn [ends_with].
  - rewrite orb_false_r, String.eqb_eq. split.
    + intros ->. exists "". reflexivity.
    + intros [pre H]. destruct pre; [exact (eq_sym H) | discriminate H].
  - rewrite orb_true_iff, String.eqb_eq, IH. split.
    + intros [->|[pre ->]]; [exists "" | exists (String c pre)]; reflexivity.
    + intros [pre H]. destruct pre as [|a pre]; simpl in H.
      * left. exact (eq_sym H).
      * right. injection H as _ H. exists pre. exact H.
Qed.

Lemma candidates_are_csv : Forall (fun p => ends_with ".csv" p = true) candidates.
Proof. repeat constructor. Qed.

Lemma path_exists_In (root : directory) (p : string) :
  path_exists root p = true <-> In (p, true) root.
Proof.
  unfold path_exists. rewrite existsb_exists. split.
  - intros ([name b] & Hin & H). apply andb_true_iff in H. destruct H as [Hn Hb].
    apply String.eqb_eq in Hn. simpl in Hn, Hb. subst. exact Hin.
  - intros H. exists (p, true). split; [exact H|]. simpl.
    rewrite String.eqb_refl. reflexivity.
Qed.

Lemma glob_csv_In (root : directory) (p : string) :
  In p (glob_csv root) <-> ends_with ".csv" p = true /\ exists b, In (p, b) root.
Proof.
  unfold glob_csv. rewrite in_map_iff. split.
  - intros ([name b] & <- & H). apply filter_In in H. destruct H as [Hin Hcsv].
    split; [exact Hcsv | exists b; exact Hin].
  - intros [Hcsv [b Hin]]. exists (p, b). split; [reflexivity|].
    apply filter_In. split; [exact Hin | exact Hcsv].
Qed.

(** X9.  [find_dataset] finds nothing exactly when the directory lists no
    entry ending in ".csv"; what it finds is an entry of the directory
    that ends in ".csv"; when one of the four known names exists it
    returns the first of them that does, in its order of preference,
    wherever other CSV files stand in the listing; and when none of them
    exists, be it listed as a link to a file that is gone, it returns the
    first entry of the listing that ends in ".csv". *)
Theorem find_dataset_finds (root : directory) :
  (find_dataset root = None
   <-> forall entry, In entry root -> ends_with ".csv" (fst entry) = false)
  /\ (forall p, find_dataset root = Some p ->
        ends_with ".csv" p = true /\ exists b, In (p, b) root)
  /\ (forall before p after,
        candidates = before ++ p :: after ->
        path_exists root p = true ->
        (forall q, In q before -> path_exists root q = false) ->
        find_dataset root = Some p)
  /\ ((forall q, In q candidates -> path_exists root q = false) ->
      find_dataset root = hd_error (glob_csv root)).
Proof.
  pose proof candidates_are_csv as Hall. rewrite Forall_forall in Hall.
  unfold find_dataset. split; [|split; [|split]].
  - destruct (find (path_exists root) candidates) as [c|] eqn:Ef.
    + apply find_some in Ef. destruct Ef as [Hc Hin]. apply path_exists_In in Hin.
      split; [discriminate|]. intros H. specialize (H _ Hin). simpl in H.
      rewrite (Hall c Hc) in H. discriminate H.
    + destruct (glob_csv root) as [|p rest] eqn:Eg.
      * split; [|reflexivity]. intros _ [name b] Hin. simpl.
        destruct (ends_with ".csv" name) eqn:E; [|reflexivity].
        assert (Hg : In name (glob_csv root)) by (apply glob_csv_In; eauto).
        rewrite Eg in Hg. destruct Hg.
      * split; [discriminate|]. intros H.
        assert (Hg : In p (glob_csv root)) by (rewrite Eg; left; reflexivity).
        apply glob_csv_In in Hg. destruct Hg as [Hcsv [b Hin]].
        specialize (H _ Hin). simpl in H. rewrite H in Hcsv. discriminate Hcsv.
  - intros p.
    destruct (find (path_exists root) candidates) as [c|] eqn:Ef.
    + intros H. injection H as <-.
      apply find_some in Ef. destruct Ef as [Hc Hin]. apply path_exists_In in Hin.
      split; [exact (Hall c Hc) | exists true; exact Hin].
    + destruct (glob_csv root) as [|q rest] eqn:Eg; [discriminate|].
      intros H. injection H as <-. apply glob_csv_In. rewrite Eg. left. reflexivity.
  - intros before p after -> Hp Hbefore.
    assert (Hfind : find (path_exists root) (before ++ p :: after) = Some p).
    { induction before as [|q before IH]; simpl.
      - rewrite Hp. reflexivity.
      - rewrite (Hbefore q (or_introl eq_refl)).
        apply IH. intros x Hx. apply Hbefore. right. exact Hx. }
    rewrite Hfind. reflexivity.
  - intros Hnone.
    assert (Hfind : find (path_exists root) candidates = None).
    { destruct (find (path_exists root) candidates) as [c|] eqn:Ef; [|reflexivity].
      apply find_some in Ef. destruct Ef as [Hc Hin].
      rewrite (Hnone c Hc) in Hin. discriminate Hin. }
    rewrite Hfind. destruct (glob_csv root); reflexivity.
Qed.

End FindDataset.

(** * Which tables the normalizer accepts *)

Section Outcome.
Import Adapter AdapterSpec AdapterMore.
Local Open Scope adapter_scope.
Context {cv : Conversions}.

Ltac named := simpl; tauto.

Ltac draws :=
  unfold np_choice, np_randint, generated_ips;
  repeat first
    [ apply mwp_draw_any
    | apply mwp_ret; exact I
    | apply mwp_now; intros; exact I
    | apply mwp_bind_any; [|intro] ].

Lemma kept (N O : list string) (m m' : frame) (c : string) :
  touches N O m m' -> ~ In c O -> ~ In c N -> get c m' = get c m.
Proof. intros (_ & _ & Hkeep) HO HN. apply Hkeep; auto. Qed.

Lemma kept_present (N O : list string) (m m' : frame) (c : string) (col : column) :
  touches N O m m' -> ~ In c O -> get c m = Some col -> get c m' = Some col.
Proof.
  intros (_ & _ & Hkeep) HO Hg. rewrite Hkeep; [exact Hg | exact HO |].
  left. exact (has_get _ _ _ Hg).
Qed.

Lemma touches_has_eq (N O : list string) (m m' : frame) (c : string) :
  touches N O m m' -> ~ In c O -> ~ In c N -> has c m' = has c m.
Proof.
  intros (_ & _ & Hkeep) HO HN. unfold has. rewrite Hkeep; auto.
Qed.

Lemma ensure_safe (c : string) (make : M column) (N O : list string) (m : frame) :
  In c N -> rect m -> mwp make (fun _ => True) False ->
  mwp (ensure c make m) (fun m' => rect m' /\ touches N O m m') False.
Proof.
  intros Hc Hr Hmake.
  apply (mwp_weaken _ _ _ _ _ (ensure_spec c make m _ Hr Hmake)); [|auto].
  intros m' (Hr' & Ht & _). split; [exact Hr'|].
  apply (touches_weaken [c] []); auto.
  - intros x [<-|[]]. exact Hc.
  - intros x [].
Qed.

(** ** The steps that cannot raise *)

Lemma fill_device_information_safe (N O : list string) :
  In "Device Information" N -> safe N O fill_device_information.
Proof. intros HN m Hr. apply ensure_safe; [exact HN | exact Hr | draws]. Qed.

Lemma fill_attack_type_safe (N O : list string) :
  In "Attack Type" N -> safe N O fill_attack_type.
Proof.
  intros HN m Hr. unfold fill_attack_type.
  destruct (has "Attack Type" m) eqn:Hty.
  - apply mwp_getitem_present; [exact Hty|]. intros col Hg.
    apply mwp_ret. rewrite (setitem_same _ _ _ Hr Hg).
    split; [exact Hr | apply touches_refl].
  - destruct (has "attack_type" m) eqn:Hlow.
    + apply mwp_getitem_present; [exact Hlow|]. intros col Hg.
      apply mwp_ret. apply set_new; [exact HN | exact Hr | exact Hty].
    + apply mwp_bind_any; [draws|]. intros col.
      apply mwp_ret. apply set_new; [exact HN | exact Hr | exact Hty].
Qed.

Lemma fill_anomaly_scores_safe (N O : list string) :
  In "Anomaly Scores" N -> safe N O fill_anomaly_scores.
Proof. intros HN m Hr. apply ensure_safe; [exact HN | exact Hr | draws]. Qed.

Lemma fill_packet_length_safe (N O : list string) :
  In "Packet Length" N -> safe N O fill_packet_length.
Proof. intros HN m Hr. apply ensure_safe; [exact HN | exact Hr | draws]. Qed.

Lemma fill_source_port_safe (N O : list string) :
  In "Source Port" N -> safe N O fill_source_port.
Proof. intros HN m Hr. apply ensure_safe; [exact HN | exact Hr | draws]. Qed.

Lemma fill_destination_port_safe (N O : list string) :
  In "Destination Port" N -> safe N O fill_destination_port.
Proof. intros HN m Hr. apply ensure_safe; [exact HN | exact Hr | draws]. Qed.

Lemma fill_protocol_safe (N O : list string) :
  In "Protocol" N -> safe N O fill_protocol.
Proof. intros HN m Hr. apply ensure_safe; [exact HN | exact Hr | draws]. Qed.

Lemma fill_action_taken_safe (N O : list string) :
  In "Action Taken" N -> safe N O fill_action_taken.
Proof.
  intros HN m Hr. apply ensure_safe; [exact HN | exact Hr |].
  destruct (has "outcome" m) eqn:Ho.
  - apply mwp_getitem; [auto | congruence].
  - draws.
Qed.

Lemma fill_ids_alerts_safe (N O : list string) :
  In "IDS/IPS Alerts" N -> safe N O fill_ids_alerts.
Proof. intros HN m Hr. apply ensure_safe; [exact HN | exact Hr | draws]. Qed.

Lemma fill_malware_indicators_safe (N O : list string) :
  In "Malware Indicators" N -> safe N O fill_malware_indicators.
Proof. intros HN m Hr. apply ensure_safe; [exact HN | exact Hr | draws]. Qed.

Lemma fill_firewall_logs_safe (N O : list string) :
  In "Firewall Logs" N -> safe N O fill_firewall_logs.
Proof. intros HN m Hr. apply ensure_safe; [exact HN | exact Hr | draws]. Qed.

Lemma fill_proxy_information_safe (N O : list string) :
  In "Proxy Information" N -> safe N O fill_proxy_information.
Proof. intros HN m Hr. apply ensure_safe; [exact HN | exact Hr | draws]. Qed.

(** What the merge ends with, read off the table. *)
Lemma merge_coords_outcome (m : frame) (country : column) :
  rect m -> get "Country" m = Some country ->
  if negb (Nat.eqb (n_rows m) 0) && negb (holds_text country)
     || (has "lat" m && has "lat_x" m || has "lon" m && has "lon_x" m)
  then merge_coords m country = Raise ValueError
  else exists joined, merge_coords m country = Ok joined.
Proof.
  intros Hr Hg. unfold merge_coords.
  assert (Hc : match country with [] => false | _ => negb (holds_text country) end
               = negb (Nat.eqb (n_rows m) 0) && negb (holds_text country)).
  { rewrite <- (rect_get _ _ _ Hr Hg). destruct country; reflexivity. }
  rewrite Hc.
  destruct (negb (Nat.eqb (n_rows m) 0) && negb (holds_text country)); [reflexivity|].
  cbn [orb filter].
  destruct (has "lat" m), (has "lon" m); cbn [existsb andb orb];
    change ("lat" ++ "_x")%string with "lat_x";
    change ("lon" ++ "_x")%string with "lon_x";
    rewrite ?orb_false_r;
    repeat match goal with
      | |- context [if ?b then _ else _] => destruct b
      end;
    first [reflexivity | eexists; reflexivity].
Qed.

Lemma fill_coordinates_sure (m : frame) :
  rect m -> merge_failure m = None ->
  mwp (fill_coordinates m)
      (fun m' => rect m' /\ touches ["Latitude"; "Longitude"] ["Longitude"] m m') False.
Proof.
  intros Hr Hok. unfold fill_coordinates. unfold merge_failure in Hok.
  destruct (has "Country" m && negb (has "Latitude" m)) eqn:Hbranch;
    [|apply mwp_ret; split; [exact Hr | apply touches_refl]].
  apply andb_true_iff in Hbranch. destruct Hbranch as [Hc Hlat].
  apply negb_true_iff in Hlat.
  destruct (has_true_get _ _ Hc) as [country Hg].
  unfold column_or_empty in Hok. rewrite Hg in Hok.
  pose proof (merge_coords_outcome m country Hr Hg) as Hm.
  destruct (negb (Nat.eqb (n_rows m) 0) && negb (holds_text country));
    [discriminate Hok|].
  destruct (has "lat" m && has "lat_x" m || has "lon" m && has "lon_x" m);
    [discriminate Hok|].
  cbn [orb] in Hm. destruct Hm as [joined Hj].
  destruct (has "lat" m) eqn:Hl1; [discriminate Hok|].
  destruct (has "lon" m) eqn:Hl2; [discriminate Hok|].
  destruct (merge_coords_returned _ _ _ Hj) as [Glat Glon].
  rewrite Hl1 in Glat. rewrite Hl2 in Glon.
  unfold getitem. rewrite Hg. intros w. unfold bindM, retM, lift.
  rewrite Hj, Glat, Glon. cbn [fst].
  destruct (set_new "Latitude" (fillna (Num 0) (merged fst country))
              ["Latitude"; "Longitude"] ["Longitude"] m) as [Hr1 Ht1];
    [named | exact Hr | exact Hlat |].
  destruct (set_over "Longitude" (fillna (Num 0) (merged snd country))
              ["Latitude"; "Longitude"] ["Longitude"] _ ltac:(named) Hr1) as [Hr2 Ht2].
  split; [exact Hr2 | exact (touches_trans _ _ _ _ _ Ht1 Ht2)].
Qed.

Lemma fill_coordinates_raises (m : frame) (w : world) (e : exn) :
  rect m -> merge_failure m = Some e -> fill_coordinates m w = (Raise e, w).
Proof.
  intros Hr Hbad. unfold fill_coordinates. unfold merge_failure in Hbad.
  destruct (has "Country" m && negb (has "Latitude" m)) eqn:Hbranch;
    [|discriminate Hbad].
  apply andb_true_iff in Hbranch. destruct Hbranch as [Hc Hlat].
  destruct (has_true_get _ _ Hc) as [country Hg].
  unfold column_or_empty in Hbad. rewrite Hg in Hbad.
  pose proof (merge_coords_outcome m country Hr Hg) as Hm.
  unfold getitem. rewrite Hg. unfold bindM, retM, lift.
  destruct (negb (Nat.eqb (n_rows m) 0) && negb (holds_text country)).
  { cbn [orb] in Hm. rewrite Hm. injection Hbad as <-. reflexivity. }
  destruct (has "lat" m && has "lat_x" m || has "lon" m && has "lon_x" m).
  { cbn [orb] in Hm. rewrite Hm. injection Hbad as <-. reflexivity. }
  cbn [orb] in Hm. destruct Hm as [joined Hj]. rewrite Hj.
  destruct (merge_coords_returned _ _ _ Hj) as [Glat Glon].
  destruct (has "lat" m) eqn:Hl1.
  { rewrite Glat. injection Hbad as <-. reflexivity. }
  rewrite Glat. destruct (has "lon" m) eqn:Hl2; [|discriminate Hbad].
  rewrite Glon. injection Hbad as <-. reflexivity.
Qed.

(** The labels that [fill_severity_level] writes are strings. *)
Lemma label_of_severity_text (x y : cell) :
  label_of_severity x = Ok y -> is_str y = true.
Proof.
  unfold label_of_severity, if_. destruct x as [|q|s|t]; cbn [ge_cell];
    try discriminate; [intros H; injection H as <-; reflexivity|].
  destruct (Qle_bool 8 q), (Qle_bool 6 q), (Qle_bool 4 q);
    intros H; injection H as <-; reflexivity.
Qed.

Lemma label_of_loss_text (x y : cell) :
  label_of_loss x = Ok y -> is_str y = true.
Proof.
  unfold label_of_loss, if_. destruct x as [|q|s|t]; cbn [gt_cell];
    try discriminate; [intros H; injection H as <-; reflexivity|].
  destruct (Qle_bool q 100), (Qle_bool q 50), (Qle_bool q 10);
    intros H; injection H as <-; reflexivity.
Qed.

Lemma apply_cells_text (f : cell -> result cell) (col ys : column) :
  (forall x y, f x = Ok y -> is_str y = true) ->
  apply_cells f col = Ok ys -> all_cells is_str ys.
Proof.
  intros Hf H. apply apply_cells_returned in H. unfold all_cells.
  induction H as [|x y xs l Hxy _ IH]; constructor; eauto.
Qed.

Lemma fill_severity_level_text (m m' : frame) (w w' : world) :
  rect m -> has "Severity Level" m = false ->
  fill_severity_level m w = (Ok m', w') ->
  exists labels, get "Severity Level" m' = Some labels /\ all_cells is_str labels.
Proof.
  intros Hr Habs Hrun. unfold fill_severity_level in Hrun.
  pose proof (mwp_returned _ _ _ _ _ _ (fill_severity_level_spec m Hr) Hrun) as [Hr' _].
  apply ensure_returned in Hrun; [|exact Habs].
  destruct Hrun as (col & Hmake & ->).
  exists (reindex (n_rows m) col). split; [rewrite get_setitem, String.eqb_refl; reflexivity|].
  assert (Hcol : all_cells is_str col /\ List.length col = n_rows m).
  { destruct (has "attack_severity" m) eqn:H1.
    - apply bindM_returned in Hmake. destruct Hmake as (x & w1 & Hx & Hl).
      apply getitem_returned in Hx. apply lift_returned in Hl.
      split; [exact (apply_cells_text _ _ _ label_of_severity_text Hl)|].
      rewrite (Forall2_length_cells _ _ _ (apply_cells_returned _ _ _ Hl)).
      exact (rect_get _ _ _ Hr Hx).
    - destruct (has FINANCIAL_LOSS m) eqn:H2.
      + apply bindM_returned in Hmake. destruct Hmake as (x & w1 & Hx & Hl).
        apply getitem_returned in Hx. apply lift_returned in Hl.
        split; [exact (apply_cells_text _ _ _ label_of_loss_text Hl)|].
        rewrite (Forall2_length_cells _ _ _ (apply_cells_returned _ _ _ Hl)).
        exact (rect_get _ _ _ Hr Hx).
      + apply bindM_returned in Hmake. destruct Hmake as (picks & w1 & Hd & Hret).
        injection Hret as <- _. split; [apply all_cells_map; reflexivity|].
        rewrite length_map.
        exact (mwp_returned _ _ True _ _ _ (mwp_draw _ _ _ (draw_n_length _ _)) Hd). }
  destruct Hcol as [Hs Hl]. rewrite (reindex_id _ _ Hl). exact Hs.
Qed.

Lemma fill_canonical_safe (N O : list string) :
  incl CANONICAL_COLUMNS N -> safe N O (fill_canonical CANONICAL_COLUMNS).
Proof.
  intros HN m Hr.
  apply (mwp_weaken _ _ _ _ _
           (fill_canonical_spec CANONICAL_COLUMNS N O m False HN Hr)); [|auto].
  intros m' [H _]. exact H.
Qed.

Lemma run_steps_safe (N O : list string) (steps : list (frame -> M frame)) :
  Forall (safe N O) steps -> safe N O (run_steps steps).
Proof.
  induction 1 as [|s rest Hs _ IH]; intros m Hr; simpl.
  - apply mwp_ret. split; [exact Hr | apply touches_refl].
  - apply (mwp_bind _ _ _ _ _ (Hs m Hr)).
    intros m1 [Hr1 Ht1].
    apply (mwp_weaken _ _ _ _ _ (IH m1 Hr1)); [|auto].
    intros m' [Hr' Ht']. split; [exact Hr' | exact (touches_trans _ _ _ _ _ Ht1 Ht')].
Qed.

(** ** The steps that can raise *)

Lemma january_first_outcome (years : column) :
  if forallb year_parses years
  then exists ts, january_first years = Ok ts
  else january_first years = Raise ValueError.
Proof.
  unfold january_first, to_datetime_strict, str_add, astype_str.
  induction years as [|y rest IH]; cbn [map forallb apply_cells].
  - exists []. reflexivity.
  - unfold year_parses at 1.
    destruct (astype_str_cell y) as [|q|s|t] eqn:Ey;
      try (destruct y; cbn [astype_str_cell] in Ey;
           [destruct missing_as_text|..]; discriminate Ey).
    + cbn [andb]. destruct (forallb year_parses rest).
      * destruct IH as [ts ->]. eexists. reflexivity.
      * rewrite IH. reflexivity.
    + destruct (parse_datetime (s ++ "-01-01")) as [t|]; cbn [andb]; [|reflexivity].
      destruct (forallb year_parses rest).
      * destruct IH as [ts ->]. eexists. reflexivity.
      * rewrite IH. reflexivity.
Qed.

Lemma labels_outcome (f : cell -> result cell) (col : column) :
  (forall x, if comparable x then exists y, f x = Ok y else f x = Raise TypeError) ->
  if forallb comparable col
  then exists ys, apply_cells f col = Ok ys
  else apply_cells f col = Raise TypeError.
Proof.
  intros Hf. induction col as [|x rest IH]; cbn [forallb apply_cells].
  - exists []. reflexivity.
  - specialize (Hf x). destruct (comparable x); cbn [andb].
    + destruct Hf as [y ->]. destruct (forallb comparable rest).
      * destruct IH as [ys ->]. eexists. reflexivity.
      * rewrite IH. reflexivity.
    + rewrite Hf. reflexivity.
Qed.

Lemma label_of_severity_outcome (x : cell) :
  if comparable x then exists y, label_of_severity x = Ok y
  else label_of_severity x = Raise TypeError.
Proof.
  destruct x as [|q|s|t]; cbn [comparable]; try reflexivity.
  - eexists. reflexivity.
  - unfold label_of_severity, if_, ge_cell.
    destruct (Qle_bool 8 q), (Qle_bool 6 q), (Qle_bool 4 q); eexists; reflexivity.
Qed.

Lemma label_of_loss_outcome (x : cell) :
  if comparable x then exists y, label_of_loss x = Ok y
  else label_of_loss x = Raise TypeError.
Proof.
  destruct x as [|q|s|t]; cbn [comparable]; try reflexivity.
  - eexists. reflexivity.
  - unfold label_of_loss, if_, gt_cell.
    destruct (Qle_bool q 100), (Qle_bool q 50), (Qle_bool q 10); eexists; reflexivity.
Qed.

Lemma fill_timestamp_sure (m : frame) :
  rect m ->
  has "Timestamp" m = true \/ forallb year_parses (column_or_empty "Year" m) = true ->
  mwp (fill_timestamp m)
      (fun m' => rect m' /\ touches ["Timestamp"] [] m m' /\ has "Timestamp" m' = true)
      False.
Proof.
  intros Hr Hok. unfold fill_timestamp.
  destruct (has "Timestamp" m) eqn:Hts.
  - unfold ensure. rewrite Hts. apply mwp_ret.
    split; [exact Hr|]. split; [apply touches_refl | exact Hts].
  - destruct Hok as [Hok|Hok]; [discriminate Hok|].
    apply ensure_spec; [exact Hr|].
    destruct (has "Year" m) eqn:Hy; [|draws].
    apply mwp_getitem_present; [exact Hy|]. intros years Hg.
    unfold column_or_empty in Hok. rewrite Hg in Hok.
    pose proof (january_first_outcome years) as Hj. rewrite Hok in Hj.
    destruct Hj as [ts ->]. apply mwp_lift. exact I.
Qed.

Lemma fill_timestamp_raises (m : frame) (w : world) :
  has "Timestamp" m = false ->
  forallb year_parses (column_or_empty "Year" m) = false ->
  fill_timestamp m w = (Raise ValueError, w).
Proof.
  intros Hts Hbad. unfold fill_timestamp, ensure. rewrite Hts. cbn [negb].
  unfold column_or_empty in Hbad. unfold has, getitem.
  destruct (get "Year" m) as [years|]; [|discriminate Hbad].
  pose proof (january_first_outcome years) as Hj. rewrite Hbad in Hj.
  unfold bindM, retM, lift. rewrite Hj. reflexivity.
Qed.

Lemma fill_ip_addresses_sure (m : frame) :
  rect m ->
  has "Source IP Address" m && negb (has "Destination IP Address" m)
    && negb (Nat.eqb (n_rows m) 0) = false ->
  mwp (fill_ip_addresses m)
      (fun m' => rect m' /\ touches ["Source IP Address"; "Destination IP Address"] [] m m')
      False.
Proof.
  intros Hr Hok. unfold fill_ip_addresses.
  destruct (has "Source IP Address" m) eqn:Hsrc; cbn [negb andb] in *.
  - destruct (has "Destination IP Address" m) eqn:Hdst; cbn [negb andb] in *.
    + unfold ensure. rewrite Hdst. apply mwp_ret. split; [exact Hr | apply touches_refl].
    + apply ensure_safe; [named | exact Hr |].
      destruct (n_rows m); [apply mwp_ret; exact I | discriminate Hok].
  - apply mwp_bind_any; [draws|]. intros src.
    destruct (set_new "Source IP Address" src
                ["Source IP Address"; "Destination IP Address"] [] m) as [Hr1 Ht1];
      [named | exact Hr | exact Hsrc |].
    eapply mwp_weaken;
      [ apply (ensure_safe "Destination IP Address" _
                 ["Source IP Address"; "Destination IP Address"] []);
          [named | exact Hr1 | draws]
      | | auto ].
    intros m' [Hr' Ht']. split; [exact Hr'|].
    exact (touches_trans _ _ _ _ _ Ht1 Ht').
Qed.

Lemma fill_ip_addresses_raises (m : frame) (w : world) :
  has "Source IP Address" m && negb (has "Destination IP Address" m)
    && negb (Nat.eqb (n_rows m) 0) = true ->
  fill_ip_addresses m w = (Raise NameError, w).
Proof.
  intros H. apply andb_true_iff in H. destruct H as [H Hn].
  apply andb_true_iff in H. destruct H as [Hsrc Hdst].
  unfold fill_ip_addresses, ensure. rewrite Hsrc. cbn [negb]. rewrite Hdst.
  destruct (n_rows m); [discriminate Hn | reflexivity].
Qed.

Lemma fill_attack_signature_sure (m : frame) :
  rect m -> has "Attack Type" m = true ->
  mwp (fill_attack_signature m)
      (fun m' => rect m' /\ touches ["Attack Signature"] [] m m') False.
Proof.
  intros Hr Hty. apply ensure_safe; [named | exact Hr |].
  apply mwp_bind_any.
  - apply mwp_getitem; [auto | congruence].
  - intros types. draws.
Qed.

Lemma fill_severity_level_sure (m : frame) :
  rect m ->
  negb (has "Severity Level" m) && negb (forallb comparable (label_source m)) = false ->
  mwp (fill_severity_level m)
      (fun m' => rect m' /\ touches ["Severity Level"] [] m m') False.
Proof.
  intros Hr Hok. unfold fill_severity_level.
  destruct (has "Severity Level" m) eqn:Hlvl; cbn [negb andb] in Hok.
  - unfold ensure. rewrite Hlvl. apply mwp_ret. split; [exact Hr | apply touches_refl].
  - apply ensure_safe; [named | exact Hr |].
    apply negb_false_iff in Hok. unfold label_source, column_or_empty in Hok.
    unfold has. destruct (get "attack_severity" m) as [sev|] eqn:Hsev.
    + unfold getitem. rewrite Hsev.
      pose proof (labels_outcome _ sev label_of_severity_outcome) as Hl.
      rewrite Hok in Hl. destruct Hl as [ys Hys].
      intros w. unfold bindM, retM, lift. rewrite Hys. exact I.
    + destruct (get FINANCIAL_LOSS m) as [loss|] eqn:Hloss; [|draws].
      unfold getitem. rewrite Hloss.
      pose proof (labels_outcome _ loss label_of_loss_outcome) as Hl.
      rewrite Hok in Hl. destruct Hl as [ys Hys].
      intros w. unfold bindM, retM, lift. rewrite Hys. exact I.
Qed.

Lemma fill_severity_level_raises (m : frame) (w : world) :
  negb (has "Severity Level" m) && negb (forallb comparable (label_source m)) = true ->
  fill_severity_level m w = (Raise TypeError, w).
Proof.
  intros H. apply andb_true_iff in H. destruct H as [Hlvl Hbad].
  apply negb_true_iff in Hbad.
  unfold fill_severity_level, ensure. rewrite Hlvl.
  unfold label_source, column_or_empty in Hbad. unfold has, getitem.
  destruct (get "attack_severity" m) as [sev|].
  - pose proof (labels_outcome _ sev label_of_severity_outcome) as Hl.
    rewrite Hbad in Hl. unfold bindM, retM, lift. rewrite Hl. reflexivity.
  - destruct (get FINANCIAL_LOSS m) as [loss|]; [|discriminate Hbad].
    pose proof (labels_outcome _ loss label_of_loss_outcome) as Hl.
    rewrite Hbad in Hl. unfold bindM, retM, lift. rewrite Hl. reflexivity.
Qed.

Lemma fill_timestamp_type_sure (m : frame) :
  rect m -> has "Timestamp" m = true ->
  mwp (fill_timestamp_type m)
      (fun m' => rect m' /\ touches [] ["Timestamp"] m m') False.
Proof.
  intros Hr Hts. unfold fill_timestamp_type.
  apply mwp_bind_any.
  - eapply mwp_weaken; [apply (coerce_timestamp_spec "Timestamp" m) | auto | congruence].
  - intros ts. apply mwp_ret. apply set_over; [named | exact Hr].
Qed.

(** ** The run as a whole *)

Lemma run_steps_cons_ok (s : frame -> M frame) (rest : list (frame -> M frame))
      (m m1 : frame) (w w1 : world) :
  s m w = (Ok m1, w1) -> run_steps (s :: rest) m w = run_steps rest m1 w1.
Proof. intros H. cbn [run_steps]. unfold bindM. rewrite H. reflexivity. Qed.

Lemma run_steps_cons_raise (s : frame -> M frame) (rest : list (frame -> M frame))
      (m : frame) (w w1 : world) (e : exn) :
  s m w = (Raise e, w1) -> run_steps (s :: rest) m w = (Raise e, w1).
Proof. intros H. cbn [run_steps]. unfold bindM. rewrite H. reflexivity. Qed.

Lemma run_steps_app_ok (a b : list (frame -> M frame)) (m m1 : frame) (w w1 : world) :
  run_steps a m w = (Ok m1, w1) -> run_steps (a ++ b) m w = run_steps b m1 w1.
Proof. intros H. rewrite run_steps_app. unfold bindM. rewrite H. reflexivity. Qed.

Lemma fill_raised (df : frame) (w w' : world) (e : exn) :
  run_steps fill_steps df w = (Raise e, w') -> map_global_schema df w = (Raise e, w').
Proof.
  intros H. unfold map_global_schema, bindM. rewrite fill_placeholders_run, H. reflexivity.
Qed.

Lemma touches_then (N O N1 O1 N2 O2 : list string) (m1 m2 m3 : frame) :
  touches N1 O1 m1 m2 -> touches N2 O2 m2 m3 ->
  incl N1 N -> incl N2 N -> incl O1 O -> incl O2 O -> touches N O m1 m3.
Proof.
  intros H1 H2 HN1 HN2 HO1 HO2.
  apply (touches_trans _ _ _ m2).
  - exact (touches_weaken _ _ _ _ _ _ HN1 HO1 H1).
  - exact (touches_weaken _ _ _ _ _ _ HN2 HO2 H2).
Qed.

Ltac within :=
  let x := fresh "x" in let Hx := fresh "Hx" in
  intros x Hx; simpl in Hx |- *; tauto.

Ltac safe_steps :=
  repeat first
    [ apply Forall_nil
    | apply Forall_cons;
      [ first [ apply fill_device_information_safe | apply fill_attack_type_safe
              | apply fill_anomaly_scores_safe | apply fill_packet_length_safe
              | apply fill_source_port_safe | apply fill_destination_port_safe
              | apply fill_protocol_safe | apply fill_action_taken_safe
              | apply fill_ids_alerts_safe | apply fill_malware_indicators_safe
              | apply fill_firewall_logs_safe | apply fill_proxy_information_safe ];
        named
      | ] ].

Lemma fill_attack_type_has (m : frame) :
  rect m -> mwp (fill_attack_type m) (fun m' => has "Attack Type" m' = true) False.
Proof.
  intros Hr. unfold fill_attack_type.
  destruct (has "Attack Type" m) eqn:Hty;
    [|destruct (has "attack_type" m) eqn:Hlow].
  - apply mwp_getitem_present; [exact Hty|]. intros col _. apply mwp_ret.
    apply has_setitem_mono, Hty.
  - apply mwp_getitem_present; [exact Hlow|]. intros col _. apply mwp_ret.
    rewrite has_setitem, String.eqb_refl. reflexivity.
  - apply mwp_bind_any; [draws|]. intros col. apply mwp_ret.
    rewrite has_setitem, String.eqb_refl. reflexivity.
Qed.

(** The first three steps return unless a year is unreadable. *)
Lemma steps_to_attack_type_sure (df : frame) :
  rect df ->
  has "Timestamp" df = true \/ forallb year_parses (column_or_empty "Year" df) = true ->
  mwp (run_steps steps_to_attack_type df)
      (fun m => rect m
                /\ touches ["Timestamp"; "Device Information"; "Attack Type"] [] df m
                /\ has "Timestamp" m = true /\ has "Attack Type" m = true)
      False.
Proof.
  intros Hr Hok. unfold steps_to_attack_type. cbn [run_steps].
  apply (mwp_bind _ _ _ _ _ (fill_timestamp_sure df Hr Hok)).
  intros m1 (Hr1 & Ht1 & Hts1).
  apply (mwp_bind _ _ _ _ _
           (fill_device_information_safe ["Device Information"] []
              ltac:(named) m1 Hr1)).
  intros m2 (Hr2 & Ht2).
  apply (mwp_bind _ _ _ _ _
           (mwp_conj _ _ _ _
              (fill_attack_type_safe ["Attack Type"] [] ltac:(named) m2 Hr2)
              (fill_attack_type_has m2 Hr2))).
  intros m3 ((Hr3 & Ht3) & Hty3).
  apply mwp_ret. split; [exact Hr3|]. split; [|split].
  - apply (touches_then _ _ _ _ _ _ _ _ _
             (touches_then ["Timestamp"; "Device Information"] [] _ _ _ _ _ _ _ Ht1 Ht2
                ltac:(within) ltac:(within) ltac:(within) ltac:(within))
             Ht3); within.
  - apply (proj1 (proj2 Ht3)), (proj1 (proj2 Ht2)), Hts1.
  - exact Hty3.
Qed.

Lemma all_cells_strings (col : column) :
  all_cells is_str col -> exists ss, col = map Str ss.
Proof.
  induction 1 as [|x rest Hx _ [ss ->]]; [exists []; reflexivity|].
  destruct x as [|q|s|t]; try discriminate Hx. exists (s :: ss). reflexivity.
Qed.

(** The steps before the merge leave alone what the merge depends on. *)
Lemma merge_failure_kept (m m' : frame) :
  touches CANONICAL_COLUMNS [] m m' -> merge_failure m' = merge_failure m.
Proof.
  intros Ht. unfold merge_failure, column_or_empty.
  rewrite (proj1 Ht).
  rewrite !(touches_has_eq _ _ _ _ "Country" Ht), !(touches_has_eq _ _ _ _ "Latitude" Ht),
    !(touches_has_eq _ _ _ _ "lat" Ht), !(touches_has_eq _ _ _ _ "lat_x" Ht),
    !(touches_has_eq _ _ _ _ "lon" Ht), !(touches_has_eq _ _ _ _ "lon_x" Ht)
    by not_in_list.
  destruct Ht as (_ & _ & Hkeep).
  rewrite (Hkeep "Country") by first [not_in_list | right; not_in_list].
  reflexivity.
Qed.

(** What [map_global_schema] ends with on a rectangular table. *)
Lemma map_global_schema_ends (df : frame) (w : world) :
  rect df ->
  match failure df with
  | Some e => exists w', map_global_schema df w = (Raise e, w')
  | None => exists out w', map_global_schema df w = (Ok out, w')
  end.
Proof.
  intros Hr. unfold failure.
  (* the time stamps *)
  destruct (negb (has "Timestamp" df)
            && negb (forallb year_parses (column_or_empty "Year" df))) eqn:C1.
  { apply andb_true_iff in C1. destruct C1 as [Hts Hbad].
    apply negb_true_iff in Hts. apply negb_true_iff in Hbad.
    exists w. apply fill_raised.
    unfold fill_steps, steps_to_attack_type. cbn [app].
    apply run_steps_cons_raise, fill_timestamp_raises; assumption. }
  assert (H1 : has "Timestamp" df = true
               \/ forallb year_parses (column_or_empty "Year" df) = true).
  { destruct (has "Timestamp" df); [left; reflexivity|]. right.
    destruct (forallb year_parses (column_or_empty "Year" df));
      [reflexivity | discriminate C1]. }
  destruct (mwp_returns _ _ w (steps_to_attack_type_sure df Hr H1))
    as (m1 & w1 & E1 & Hr1 & Ht1 & Hts1 & Hty1).
  destruct (mwp_returns _ _ w1
              (run_steps_safe
                 ["Anomaly Scores"; "Packet Length"; "Source Port"; "Destination Port"] []
                 [ fill_anomaly_scores; fill_packet_length; fill_source_port;
                   fill_destination_port ]
                 ltac:(safe_steps) m1 Hr1))
    as (m2 & w2 & E2 & Hr2 & Ht2).
  pose proof (touches_then
                [ "Timestamp"; "Device Information"; "Attack Type"; "Anomaly Scores";
                  "Packet Length"; "Source Port"; "Destination Port" ] []
                _ _ _ _ _ _ _ Ht1 Ht2
                ltac:(within) ltac:(within) ltac:(within) ltac:(within)) as Ht02.
  (* the addresses *)
  assert (Hsrc : has "Source IP Address" m2 = has "Source IP Address" df)
    by (apply (touches_has_eq _ _ _ _ _ Ht02); not_in_list).
  assert (Hdst : has "Destination IP Address" m2 = has "Destination IP Address" df)
    by (apply (touches_has_eq _ _ _ _ _ Ht02); not_in_list).
  assert (Hn2 : n_rows m2 = n_rows df) by exact (proj1 Ht02).
  assert (Hrun2 : run_steps fill_steps df w
                  = run_steps
                      (fill_ip_addresses
                         :: [ fill_protocol; fill_action_taken; fill_ids_alerts;
                              fill_malware_indicators; fill_firewall_logs;
                              fill_proxy_information ]
                         ++ [ fill_attack_signature; fill_severity_level; fill_coordinates;
                              fill_timestamp_type; fill_canonical CANONICAL_COLUMNS ])
                      m2 w2).
  { change fill_steps
      with (steps_to_attack_type
              ++ [ fill_anomaly_scores; fill_packet_length; fill_source_port;
                   fill_destination_port ]
              ++ fill_ip_addresses
                 :: [ fill_protocol; fill_action_taken; fill_ids_alerts;
                      fill_malware_indicators; fill_firewall_logs;
                      fill_proxy_information ]
                 ++ [ fill_attack_signature; fill_severity_level; fill_coordinates;
                      fill_timestamp_type; fill_canonical CANONICAL_COLUMNS ]).
    rewrite (run_steps_app_ok _ _ _ _ _ _ E1), (run_steps_app_ok _ _ _ _ _ _ E2).
    reflexivity. }
  destruct (has "Source IP Address" df && negb (has "Destination IP Address" df)
            && negb (Nat.eqb (n_rows df) 0)) eqn:C2.
  { exists w2. apply fill_raised. rewrite Hrun2.
    apply run_steps_cons_raise, fill_ip_addresses_raises.
    rewrite Hsrc, Hdst, Hn2. exact C2. }
  rewrite <- Hsrc, <- Hdst, <- Hn2 in C2.
  destruct (mwp_returns _ _ w2 (fill_ip_addresses_sure m2 Hr2 C2))
    as (m3 & w3 & E3 & Hr3 & Ht3).
  destruct (mwp_returns _ _ w3
              (run_steps_safe
                 [ "Protocol"; "Action Taken"; "IDS/IPS Alerts"; "Malware Indicators";
                   "Firewall Logs"; "Proxy Information" ] []
                 [ fill_protocol; fill_action_taken; fill_ids_alerts;
                   fill_malware_indicators; fill_firewall_logs; fill_proxy_information ]
                 ltac:(safe_steps) m3 Hr3))
    as (m4 & w4 & E4 & Hr4 & Ht4).
  assert (Hty4 : has "Attack Type" m4 = true).
  { apply (proj1 (proj2 Ht4)), (proj1 (proj2 Ht3)), (proj1 (proj2 Ht2)), Hty1. }
  destruct (mwp_returns _ _ w4 (fill_attack_signature_sure m4 Hr4 Hty4))
    as (m5 & w5 & E5 & Hr5 & Ht5).
  assert (Ht05 : touches NEW_BEFORE_LABEL [] df m5).
  { apply (touches_then _ _ _ _ _ _ _ _ _
             (touches_then NEW_BEFORE_LABEL [] _ _ _ _ _ _ _
                (touches_then NEW_BEFORE_LABEL [] _ _ _ _ _ _ _ Ht02 Ht3
                   ltac:(within) ltac:(within) ltac:(within) ltac:(within))
                Ht4 ltac:(within) ltac:(within) ltac:(within) ltac:(within))
             Ht5); within. }
  assert (Hrun5 : run_steps fill_steps df w
                  = run_steps
                      [ fill_severity_level; fill_coordinates; fill_timestamp_type;
                        fill_canonical CANONICAL_COLUMNS ] m5 w5).
  { rewrite Hrun2, (run_steps_cons_ok _ _ _ _ _ _ E3), (run_steps_app_ok _ _ _ _ _ _ E4).
    apply run_steps_cons_ok, E5. }
  (* the labels *)
  assert (Hlvl : has "Severity Level" m5 = has "Severity Level" df)
    by (apply (touches_has_eq _ _ _ _ _ Ht05); not_in_list).
  assert (Hsource : label_source m5 = label_source df).
  { destruct Ht05 as (_ & _ & Hkeep). unfold label_source, column_or_empty.
    rewrite !Hkeep; [reflexivity | | | |]; first [not_in_list | right; not_in_list]. }
  destruct (negb (has "Severity Level" df)
            && negb (forallb comparable (label_source df))) eqn:C3.
  { exists w5. apply fill_raised. rewrite Hrun5.
    apply run_steps_cons_raise, fill_severity_level_raises.
    rewrite Hlvl, Hsource. exact C3. }
  rewrite <- Hlvl, <- Hsource in C3.
  destruct (mwp_returns _ _ w5 (fill_severity_level_sure m5 Hr5 C3))
    as (m6 & w6 & E6 & Hr6 & Ht6).
  assert (Ht06 : touches CANONICAL_COLUMNS [] df m6).
  { apply (touches_then _ _ _ _ _ _ _ _ _ Ht05 Ht6); within. }
  (* the coordinates *)
  pose proof (merge_failure_kept _ _ Ht06) as Hmerge.
  destruct (merge_failure df) as [e|] eqn:C4.
  { exists w6. apply fill_raised.
    rewrite Hrun5, (run_steps_cons_ok _ _ _ _ _ _ E6).
    apply run_steps_cons_raise, fill_coordinates_raises; assumption. }
  destruct (mwp_returns _ _ w6 (fill_coordinates_sure m6 Hr6 Hmerge))
    as (m7 & w7 & E7 & Hr7 & Ht7).
  assert (Hts7 : has "Timestamp" m7 = true).
  { apply (proj1 (proj2 Ht7)), (proj1 (proj2 Ht6)), (proj1 (proj2 Ht5)),
      (proj1 (proj2 Ht4)), (proj1 (proj2 Ht3)), (proj1 (proj2 Ht2)), Hts1. }
  destruct (mwp_returns _ _ w7 (fill_timestamp_type_sure m7 Hr7 Hts7))
    as (m8 & w8 & E8 & Hr8 & Ht8).
  destruct (mwp_returns _ _ w8
              (fill_canonical_safe CANONICAL_COLUMNS [] (incl_refl _) m8 Hr8))
    as (m9 & w9 & E9 & Hr9 & Ht9).
  assert (Hts9 : has "Timestamp" m9 = true).
  { apply (proj1 (proj2 Ht9)), (proj1 (proj2 Ht8)), Hts7. }
  assert (Hfill : fill_placeholders df w = (Ok m9, w9)).
  { rewrite fill_placeholders_run, Hrun5,
      (run_steps_cons_ok _ _ _ _ _ _ E6), (run_steps_cons_ok _ _ _ _ _ _ E7),
      (run_steps_cons_ok _ _ _ _ _ _ E8), (run_steps_cons_ok _ _ _ _ _ _ E9).
    reflexivity. }
  (* the projection *)
  assert (Ht69 : touches FILL_NEW FILL_OVER m6 m9).
  { apply (touches_then _ _ _ _ _ _ _ _ _
             (touches_then FILL_NEW FILL_OVER _ _ _ _ _ _ _ Ht7 Ht8
                ltac:(within) ltac:(within) ltac:(within) ltac:(within))
             Ht9); within. }
  assert (Ht09 : touches FILL_NEW FILL_OVER df m9).
  { apply (touches_then _ _ _ _ _ _ _ _ _ Ht06 Ht69); within. }
  assert (Hsev9 : has "attack_severity" m9 = has "attack_severity" df).
  { unfold has. rewrite (kept _ _ _ _ "attack_severity" Ht09) by not_in_list.
    reflexivity. }
  assert (Hlabels : exists labels,
             get "Severity Level" m9 = Some labels
             /\ (get "Severity Level" df = Some labels
                 \/ (get "Severity Level" df = None /\ all_cells is_str labels))).
  { destruct (get "Severity Level" df) as [col|] eqn:Hcol.
    - exists col. split; [|left; reflexivity].
      apply (kept_present _ _ _ _ _ _ Ht09); [not_in_list | exact Hcol].
    - assert (Habs : has "Severity Level" m5 = false)
        by (rewrite Hlvl; unfold has; rewrite Hcol; reflexivity).
      destruct (fill_severity_level_text _ _ _ _ Hr5 Habs E6) as (labels & Hg & Hs).
      exists labels. split; [|right; split; [reflexivity | exact Hs]].
      apply (kept_present _ _ _ _ _ _ Ht69); [not_in_list | exact Hg]. }
  destruct Hlabels as (labels & Hg9 & Hfrom).
  unfold map_global_schema, bindM. rewrite Hfill.
  destruct Hfrom as [Hcol | [Hcol Hs]].
  - unfold column_or_empty. rewrite Hcol.
    destruct (negb missing_as_text && negb (has "attack_severity" df)
              && negb (forallb not_null labels)) eqn:C5.
    + apply andb_true_iff in C5. destruct C5 as [C5 Hnull].
      apply andb_true_iff in C5. destruct C5 as [Hm Hsev].
      apply negb_true_iff in Hm, Hsev, Hnull. rewrite <- Hsev9 in Hsev.
      apply (standardize_raises m9 w9 TypeError Hr9 Hts9). intros v.
      apply (std_attack_severity_raises m9 labels v Hsev Hg9).
      apply astype_str_missing; assumption.
    + apply (standardize_returns m9 w9 Hr9 Hts9).
      destruct (has "attack_severity" df) eqn:Hsev.
      { apply (std_attack_severity_sure m9 labels [] Hg9). left. exact Hsev9. }
      assert (Hok : missing_as_text = true \/ all_cells not_null labels).
      { destruct missing_as_text; [left; reflexivity|]. right.
        cbn [negb andb] in C5. apply negb_false_iff in C5.
        unfold all_cells. apply Forall_forall. rewrite forallb_forall in C5. exact C5. }
      destruct (astype_str_strings labels Hok) as [ss Hss].
      apply (std_attack_severity_sure m9 labels ss Hg9). right. exact Hss.
  - unfold column_or_empty. rewrite Hcol. cbn [forallb negb andb].
    rewrite !andb_false_r.
    apply (standardize_returns m9 w9 Hr9 Hts9).
    destruct (all_cells_strings _ Hs) as [ss ->].
    apply (std_attack_severity_sure m9 (map Str ss) ss Hg9). right.
    apply astype_str_strs.
Qed.

End Outcome.

(** * What the canonical fields are made of *)

Section Projection.
Import Adapter AdapterSpec AdapterMore.
Local Open Scope adapter_scope.
Context {cv : Conversions}.

(** A run of [map_global_schema] that returns, taken apart. *)
Lemma normalized_parts (df out : frame) (w w' : world) :
  rect df -> map_global_schema df w = (Ok out, w') ->
  exists mapped w0 ts ty loc sev gb oc w1 w2 w3 w4 w5,
    fill_placeholders df w = (Ok mapped, w0)
    /\ rect mapped /\ touches FILL_NEW FILL_OVER df mapped
    /\ std_timestamp mapped w0 = (Ok ts, w1)
    /\ std_attack_type mapped w1 = (Ok ty, w2)
    /\ std_location mapped w2 = (Ok loc, w3)
    /\ std_attack_severity mapped w3 = (Ok sev, w4)
    /\ std_data_compromised mapped w4 = (Ok gb, w5)
    /\ std_outcome mapped w5 = (Ok oc, w')
    /\ out = assembled mapped ts ty loc sev gb oc.
Proof.
  intros Hr Hrun.
  destruct (map_global_schema_returned _ _ _ _ Hrun) as (mapped & w0 & Hfill & Hstd).
  destruct (fill_placeholders_returned _ _ _ _ Hr Hfill) as (Hr1 & Ht & _).
  destruct (standardize_returned _ _ _ _ Hstd)
    as (ts & ty & loc & sev & gb & oc & w1 & w2 & w3 & w4 & w5
        & Hts & Hty & Hloc & Hsev & Hgb & Hoc & ->).
  exists mapped, w0, ts, ty, loc, sev, gb, oc, w1, w2, w3, w4, w5.
  auto 12.
Qed.

(** The columns of the assembled table. *)
Lemma get_assembled (mapped : frame) (ts ty loc sev gb oc : column) :
  let n := n_rows mapped in
  let out := assembled mapped ts ty loc sev gb oc in
  get "timestamp" out = Some (reindex n ts)
  /\ get "attack_type" out = Some (reindex n (astype_str (reindex n ty)))
  /\ get "target_system" out
     = Some (reindex n (astype_str (reindex n (std_target_system mapped))))
  /\ get "location" out = Some (reindex n (astype_str (reindex n loc)))
  /\ get "industry" out = Some (reindex n (std_industry mapped))
  /\ get "data_compromised_GB" out = Some (reindex n gb)
  /\ get "outcome" out = Some (reindex n oc)
  /\ get "attacker_ip" out = Some (reindex n (std_attacker_ip mapped))
  /\ get "target_ip" out = Some (reindex n (std_target_ip mapped))
  /\ get "mitigation_method" out = Some (reindex n (std_mitigation_method mapped))
  /\ get "attack_duration_min" out = Some (reindex n (std_attack_duration mapped))
  /\ get "response_time_min" out = Some (reindex n (std_response_time mapped))
  /\ get "security_tools_used" out = Some (reindex n (std_security_tools mapped))
  /\ get "user_role" out = Some (reindex n (std_user_role mapped)).
Proof.
  unfold assembled.
  generalize (std_target_system mapped) (std_industry mapped) (std_attacker_ip mapped)
    (std_target_ip mapped) (std_mitigation_method mapped) (std_attack_duration mapped)
    (std_response_time mapped) (std_security_tools mapped) (std_user_role mapped)
    (n_rows mapped).
  intros c1 c2 c3 c4 c5 c6 c7 c8 c9 n. cbv zeta.
  unfold get. cbn [columns get_col String.eqb Ascii.eqb Bool.eqb].
  repeat split.
Qed.

(** X10.  The field data_compromised_GB is the input's column of that
    name made numeric (0 where a cell is missing or not a number); failing
    that, half the financial loss; failing that, a thousandth of the
    number of affected users; failing that, 0 in every row. *)
Theorem data_compromised_estimate (df out : frame) (w w' : world) :
  rect df -> map_global_schema df w = (Ok out, w') ->
  get "data_compromised_GB" out
  = Some match get "data_compromised_GB" df with
         | Some given => numeric_or 0 given
         | None =>
             match get FINANCIAL_LOSS df with
             | Some loss => times 0.5 (numeric_or 0 loss)
             | None =>
                 match get AFFECTED_USERS df with
                 | Some users => times 0.001 (numeric_or 0 users)
                 | None => repeat (Num 0) (n_rows df)
                 end
             end
         end.
Proof.
  intros Hr Hrun.
  destruct (normalized_parts _ _ _ _ Hr Hrun)
    as (mapped & w0 & ts & ty & loc & sev & gb & oc & w1 & w2 & w3 & w4 & w5
        & _ & Hr1 & Ht & _ & _ & _ & _ & Hgb & _ & ->).
  pose proof (proj1 Ht) as Hn1.
  destruct (get_assembled mapped ts ty loc sev gb oc)
    as (_ & _ & _ & _ & _ & -> & _). f_equal.
  unfold std_data_compromised, has, getitem in Hgb.
  rewrite (kept _ _ _ _ "data_compromised_GB" Ht), (kept _ _ _ _ FINANCIAL_LOSS Ht),
    (kept _ _ _ _ AFFECTED_USERS Ht) in Hgb by not_in_list.
  destruct (get "data_compromised_GB" df) as [given|] eqn:Hgiven.
  { injection Hgb as <- _. apply reindex_id.
    rewrite numeric_or_length, Hn1. exact (rect_get _ _ _ Hr Hgiven). }
  destruct (get FINANCIAL_LOSS df) as [loss|] eqn:Hloss.
  { injection Hgb as <- _. rewrite !reindex_id; [reflexivity| |];
      rewrite ?reindex_length, ?times_length, ?numeric_or_length, ?Hn1;
      first [reflexivity | exact (rect_get _ _ _ Hr Hloss)]. }
  destruct (get AFFECTED_USERS df) as [users|] eqn:Husers.
  { injection Hgb as <- _. rewrite !reindex_id; [reflexivity| |];
      rewrite ?reindex_length, ?times_length, ?numeric_or_length, ?Hn1;
      first [reflexivity | exact (rect_get _ _ _ Hr Husers)]. }
  injection Hgb as <- _. cbn [as_series]. rewrite Hn1.
  apply reindex_id, repeat_length.
Qed.

(** X11.  On a table of the Global Threats kind the textual fields are
    copies: location is "Country" and attack_type is "Attack Type", both
    as strings; industry is "Target Industry"; mitigation_method and
    security_tools_used both are "Defense Mechanism Used". *)
Theorem global_threat_columns (df out : frame) (country types industry defense : column)
        (w w' : world) :
  rect df ->
  get "location" df = None -> get "Country" df = Some country ->
  get "Attack Type" df = Some types ->
  get "Industry" df = None -> get "industry" df = None ->
  get "Target Industry" df = Some industry ->
  get "Defense Mechanism Used" df = Some defense ->
  map_global_schema df w = (Ok out, w') ->
  get "location" out = Some (astype_str country)
  /\ get "attack_type" out = Some (astype_str types)
  /\ get "industry" out = Some industry
  /\ get "mitigation_method" out = Some defense
  /\ get "security_tools_used" out = Some defense.
Proof.
  intros Hr Hlocation Hcountry Htypes Hind1 Hind2 Hind3 Hdefense Hrun.
  destruct (normalized_parts _ _ _ _ Hr Hrun)
    as (mapped & w0 & ts & ty & loc & sev & gb & oc & w1 & w2 & w3 & w4 & w5
        & _ & Hr1 & Ht & _ & Hty & Hloc & _ & _ & _ & ->).
  pose proof (proj1 Ht) as Hn1.
  destruct (get_assembled mapped ts ty loc sev gb oc)
    as (_ & -> & _ & -> & -> & _ & _ & _ & _ & -> & _ & _ & -> & _).
  pose proof (rect_get _ _ _ Hr Hcountry) as Lcountry.
  pose proof (rect_get _ _ _ Hr Htypes) as Ltypes.
  pose proof (rect_get _ _ _ Hr Hind3) as Lind.
  pose proof (rect_get _ _ _ Hr Hdefense) as Ldef.
  rewrite <- Hn1 in Lcountry, Ltypes, Lind, Ldef.
  rewrite (std_attack_type_given mapped types) in Hty
    by (apply (kept_present _ _ _ _ _ _ Ht); [not_in_list | exact Htypes]).
  injection Hty as <- _.
  unfold std_location, has, getitem in Hloc.
  rewrite (kept _ _ _ _ "location" Ht), (kept _ _ _ _ "Country" Ht), Hlocation, Hcountry
    in Hloc by not_in_list.
  injection Hloc as <- _. cbn [as_series].
  unfold std_industry, std_mitigation_method, std_security_tools, frame_get.
  rewrite (kept _ _ _ _ "Industry" Ht), (kept _ _ _ _ "industry" Ht),
    (kept _ _ _ _ "Target Industry" Ht), (kept _ _ _ _ "Defense Mechanism Used" Ht)
    by not_in_list.
  rewrite Hind1, Hind2, Hind3, Hdefense. cbn [as_series].
  rewrite !(reindex_id _ country Lcountry), !(reindex_id _ types Ltypes),
    !(reindex_id _ industry Lind), !(reindex_id _ defense Ldef).
  rewrite !reindex_id by (rewrite astype_str_length; assumption).
  repeat split.
Qed.

(** X12.  A field for which the input has no column to read holds a
    constant in every row: location "Unknown", industry "Various",
    attack_duration_min 30, response_time_min 15, security_tools_used
    "Basic Security Suite" and user_role "User". *)
Theorem missing_columns_defaults (df out : frame) (w w' : world) :
  rect df -> map_global_schema df w = (Ok out, w') ->
  let n := n_rows df in
  (get "location" df = None -> get "Country" df = None ->
   get "location" out = Some (repeat (Str "Unknown") n))
  /\ (get "Industry" df = None -> get "industry" df = None ->
      get "Target Industry" df = None ->
      get "industry" out = Some (repeat (Str "Various") n))
  /\ (get "attack_duration_min" df = None -> get "Duration (min)" df = None ->
      get "attack_duration_min" out = Some (repeat (Num 30) n))
  /\ (get "response_time_min" df = None -> get "Response Time (min)" df = None ->
      get "response_time_min" out = Some (repeat (Num 15) n))
  /\ (get "Defense Mechanism Used" df = None -> get "security_tools_used" df = None ->
      get "security_tools_used" out = Some (repeat (Str "Basic Security Suite") n))
  /\ (get "user_role" df = None -> get "user_role" out = Some (repeat (Str "User") n)).
Proof.
  intros Hr Hrun n.
  destruct (normalized_parts _ _ _ _ Hr Hrun)
    as (mapped & w0 & ts & ty & loc & sev & gb & oc & w1 & w2 & w3 & w4 & w5
        & _ & Hr1 & Ht & _ & _ & Hloc & _ & _ & _ & ->).
  pose proof (proj1 Ht) as Hn1. fold n in Hn1.
  destruct (get_assembled mapped ts ty loc sev gb oc)
    as (_ & _ & _ & -> & -> & _ & _ & _ & _ & _ & -> & -> & -> & ->).
  assert (Hnum : forall q, numeric_or q (repeat (Num q) n) = repeat (Num q) n).
  { intros q. apply numeric_or_id, all_cells_repeat. reflexivity. }
  assert (Hstr : forall s, astype_str (repeat (Str s) n) = repeat (Str s) n).
  { intros s. apply astype_str_id, all_cells_repeat. reflexivity. }
  split; [|split; [|split; [|split; [|split]]]].
  - intros H1 H2. unfold std_location, has, getitem in Hloc.
    rewrite (kept _ _ _ _ "location" Ht), (kept _ _ _ _ "Country" Ht), H1, H2 in Hloc
      by not_in_list.
    injection Hloc as <- _. cbn [as_series]. rewrite Hn1.
    rewrite (reindex_id n (repeat _ n)) by apply repeat_length.
    rewrite Hstr. rewrite reindex_id by apply repeat_length. reflexivity.
  - intros H1 H2 H3. unfold std_industry, frame_get.
    rewrite (kept _ _ _ _ "Industry" Ht), (kept _ _ _ _ "industry" Ht),
      (kept _ _ _ _ "Target Industry" Ht), H1, H2, H3 by not_in_list.
    cbn [as_series]. rewrite Hn1, reindex_id by apply repeat_length. reflexivity.
  - intros H1 H2. unfold std_attack_duration, frame_get.
    rewrite (kept _ _ _ _ "attack_duration_min" Ht), (kept _ _ _ _ "Duration (min)" Ht),
      H1, H2 by not_in_list.
    cbn [as_series]. rewrite Hn1, Hnum, reindex_id by apply repeat_length. reflexivity.
  - intros H1 H2. unfold std_response_time, frame_get.
    rewrite (kept _ _ _ _ "response_time_min" Ht),
      (kept _ _ _ _ "Response Time (min)" Ht), H1, H2 by not_in_list.
    cbn [as_series]. rewrite Hn1, Hnum, reindex_id by apply repeat_length. reflexivity.
  - intros H1 H2. unfold std_security_tools, frame_get.
    rewrite (kept _ _ _ _ "Defense Mechanism Used" Ht),
      (kept _ _ _ _ "security_tools_used" Ht), H1, H2 by not_in_list.
    cbn [as_series]. rewrite Hn1, reindex_id by apply repeat_length. reflexivity.
  - intros H1. unfold std_user_role, frame_get.
    rewrite (kept _ _ _ _ "user_role" Ht), H1 by not_in_list.
    cbn [as_series]. rewrite Hn1, reindex_id by apply repeat_length. reflexivity.
Qed.

End Projection.

(** * What the synthesized columns hold *)

Section Synthesized.
Import Adapter AdapterSpec AdapterMore.
Local Open Scope adapter_scope.
Context {cv : Conversions}.

Create HintDb step_specs.

#[local] Hint Resolve fill_timestamp_spec fill_device_information_spec
  fill_attack_type_spec fill_anomaly_scores_spec fill_packet_length_spec
  fill_source_port_spec fill_destination_port_spec fill_ip_addresses_spec
  fill_protocol_spec fill_action_taken_spec fill_ids_alerts_spec
  fill_malware_indicators_spec fill_firewall_logs_spec fill_proxy_information_spec
  fill_attack_signature_spec fill_severity_level_spec fill_coordinates_spec
  fill_timestamp_type_spec fill_canonical_step : step_specs.

Ltac names_within :=
  let x := fresh "x" in let Hx := fresh "Hx" in
  intros x Hx; simpl in Hx |- *; tauto.

Ltac steps_within :=
  repeat (apply Forall_app; split);
  repeat first
    [ apply Forall_nil
    | apply Forall_cons;
      [ eapply step_spec_weaken; [| | | solve [eauto with step_specs]]; names_within | ] ].

(** ** Time stamps *)

Lemma coerce_instants_id (t : Z) (col : column) :
  all_cells is_instant col -> fillna (Instant t) (to_datetime_coerce col) = col.
Proof.
  unfold fillna, to_datetime_coerce. rewrite map_map.
  induction 1 as [|x rest Hx _ IH]; simpl; [reflexivity|].
  rewrite IH. destruct x; try discriminate. reflexivity.
Qed.

(** *** The steps that do not read the clock *)

Lemma timeless_ret {A} (a : A) : timeless (retM a).
Proof. intros w. split; reflexivity. Qed.

Lemma timeless_raise {A} (e : exn) : timeless (@raise A e).
Proof. intros w. split; reflexivity. Qed.

Lemma timeless_lift {A} (r : result A) : timeless (lift r).
Proof. intros w. split; reflexivity. Qed.

Lemma timeless_draw {A} (m : St A) : timeless (draw m).
Proof. intros w. unfold draw. destruct (m (gen w)). split; reflexivity. Qed.

Lemma timeless_getitem (c : string) (m : frame) : timeless (getitem c m).
Proof. intros w. unfold getitem. destruct (get c m); split; reflexivity. Qed.

Lemma timeless_bind {A B} (m : M A) (k : A -> M B) :
  timeless m -> (forall a, timeless (k a)) -> timeless (bindM m k).
Proof.
  intros Hm Hk w. unfold bindM. specialize (Hm w).
  destruct (m w) as [[a|e] w1]; cbn [snd] in Hm.
  - destruct (Hk a w1) as [H1 H2]. destruct Hm as [H3 H4]. split; congruence.
  - exact Hm.
Qed.

Lemma timeless_ensure (c : string) (make : M column) (m : frame) :
  timeless make -> timeless (ensure c make m).
Proof.
  intros Hmake. unfold ensure. destruct (negb (has c m)); [|apply timeless_ret].
  apply timeless_bind; [exact Hmake|]. intros col. apply timeless_ret.
Qed.

Ltac no_clock :=
  repeat first
    [ apply timeless_ret | apply timeless_raise | apply timeless_lift
    | apply timeless_draw | apply timeless_getitem
    | apply timeless_ensure
    | apply timeless_bind; [|intro]
    | match goal with
      | |- timeless (if ?b then _ else _) => destruct b
      | |- timeless (match ?n with O => _ | S _ => _ end) => destruct n
      end ].

(** None of the steps between the first and [fill_timestamp_type] reads
    the clock. *)
Lemma middle_steps_timeless :
  Forall (fun s : frame -> M frame => forall m, timeless (s m))
         ([fill_device_information; fill_attack_type] ++ steps_to_action_taken
            ++ steps_to_severity_level ++ [fill_coordinates]).
Proof.
  unfold steps_to_action_taken, steps_to_severity_level. cbn [app].
  repeat (apply Forall_cons; [intros m|]); [..|apply Forall_nil].
  all: unfold fill_device_information, fill_attack_type, fill_anomaly_scores,
         fill_packet_length, fill_source_port, fill_destination_port, fill_ip_addresses,
         fill_protocol, fill_action_taken, fill_ids_alerts, fill_malware_indicators,
         fill_firewall_logs, fill_proxy_information, fill_attack_signature,
         fill_severity_level, fill_coordinates, np_choice, np_randint, generated_ips,
         unbound_generate_ip.
  all: no_clock.
Qed.

Lemma run_steps_timeless (steps : list (frame -> M frame)) :
  Forall (fun s : frame -> M frame => forall m, timeless (s m)) steps ->
  forall m, timeless (run_steps steps m).
Proof.
  induction 1 as [|s rest Hs _ IH]; intros m; cbn [run_steps].
  - apply timeless_ret.
  - apply timeless_bind; [apply Hs | exact IH].
Qed.

(** [coerce_timestamp] fills the gaps with the reading of the clock at
    which it is called. *)
Lemma coerce_timestamp_returned (name : string) (m : frame) (ts : column) (w w' : world) :
  coerce_timestamp name m w = (Ok ts, w') ->
  exists col, get name m = Some col
              /\ ts = fillna (Instant (clock w (ticks w))) (to_datetime_coerce col).
Proof.
  unfold coerce_timestamp, getitem, bindM, now, retM.
  destruct (get name m) as [col|]; [|discriminate].
  intros H. injection H as <- _. exists col. split; reflexivity.
Qed.

(** The steps after the first leave in "Timestamp" what they find there,
    made instants, the gaps filled with the reading of the clock that the
    first step left. *)
Lemma timestamp_after_first_step (m1 mapped : frame) (col : column) (w1 w' : world) :
  rect m1 -> get "Timestamp" m1 = Some col ->
  run_steps
    (([fill_device_information; fill_attack_type] ++ steps_to_action_taken
        ++ steps_to_severity_level ++ [fill_coordinates])
       ++ [fill_timestamp_type; fill_canonical CANONICAL_COLUMNS]) m1 w1
  = (Ok mapped, w') ->
  get "Timestamp" mapped
  = Some (fillna (Instant (clock w1 (ticks w1))) (to_datetime_coerce col)).
Proof.
  intros Hr1 Hg1 Hrun. rewrite run_steps_app in Hrun.
  apply bindM_returned in Hrun. destruct Hrun as (m2 & w2 & Hmid & Hend).
  assert (Hmid' : rect m2 /\ touches FILL_NEW ["Longitude"] m1 m2).
  { eapply (run_steps_returned _ _ REQUIRED); [|exact Hr1|exact Hmid].
    unfold steps_to_action_taken, steps_to_severity_level. steps_within. }
  destruct Hmid' as [Hr2 Ht2].
  pose proof (run_steps_timeless _ middle_steps_timeless m1 w1) as [Hclock Hticks].
  rewrite Hmid in Hclock, Hticks. cbn [snd] in Hclock, Hticks.
  pose proof (kept_present _ _ _ _ "Timestamp" _ Ht2 ltac:(not_in_list) Hg1) as Hg2.
  cbn [run_steps] in Hend.
  apply bindM_returned in Hend. destruct Hend as (m3 & w3 & Htype & Hend).
  apply bindM_returned in Hend. destruct Hend as (m4 & w4 & Hcanon & Hend).
  injection Hend as <- <-.
  unfold fill_timestamp_type in Htype.
  apply bindM_returned in Htype. destruct Htype as (ts & w5 & Hts & Hset).
  injection Hset as <- <-.
  destruct (coerce_timestamp_returned _ _ _ _ _ Hts) as (col' & Hcol' & Hfilled).
  rewrite Hg2 in Hcol'. injection Hcol' as <-.
  rewrite Hclock, Hticks in Hfilled. subst ts.
  set (t := clock w1 (ticks w1)) in *.
  assert (Hr3 : rect (setitem "Timestamp" (fillna (Instant t) (to_datetime_coerce col)) m2))
    by (apply rect_setitem, Hr2).
  destruct (mwp_returned _ _ _ _ _ _
              (fill_canonical_spec CANONICAL_COLUMNS CANONICAL_COLUMNS [] _ True
                 (incl_refl _) Hr3) Hcanon) as [[_ Ht4] _].
  apply (kept_present _ _ _ _ _ _ Ht4); [intros []|].
  apply get_setitem_same. rewrite coerced_length. exact (rect_get _ _ _ Hr2 Hg2).
Qed.

(** X13.  The time stamps of the result.  A "Timestamp" column of the
    input is converted, and every cell that is missing or unreadable is
    replaced by one and the same reading of the clock, the one taken when
    the normalizer is called.  Without it, the rows are dated to the
    first of January of their "Year", a year that pandas keeps missing
    to that same reading of the clock.  Without either, every row
    carries that reading, whatever a "timestamp" column of the input
    holds. *)
Theorem timestamp_sources (df out : frame) (w w' : world) :
  rect df -> map_global_schema df w = (Ok out, w') ->
  exists ts,
    get "timestamp" out = Some ts /\
    match get "Timestamp" df with
    | Some given => ts = fillna (Instant (clock w (ticks w))) (to_datetime_coerce given)
    | None =>
        match get "Year" df with
        | Some years =>
            exists dates,
              january_first years = Ok dates
              /\ ts = fillna (Instant (clock w (ticks w))) dates
        | None => ts = repeat (Instant (clock w (ticks w))) (n_rows df)
        end
    end.
Proof.
  intros Hr Hrun.
  destruct (normalized_parts _ _ _ _ Hr Hrun)
    as (mapped & w0 & ts & ty & loc & sev & gb & oc & w1 & w2 & w3 & w4 & w5
        & Hfill & Hr1 & Ht & Hts & _ & _ & _ & _ & _ & ->).
  pose proof (proj1 Ht) as Hn1.
  destruct (get_assembled mapped ts ty loc sev gb oc) as (-> & _).
  (* the column that [fill_placeholders] leaves *)
  assert (Hmapped : exists col,
             get "Timestamp" mapped = Some col /\ all_cells is_instant col /\
             match get "Timestamp" df with
             | Some given =>
                 col = fillna (Instant (clock w (ticks w))) (to_datetime_coerce given)
             | None =>
                 match get "Year" df with
                 | Some years =>
                     exists dates,
                       january_first years = Ok dates
                       /\ col = fillna (Instant (clock w (ticks w))) dates
                 | None => col = repeat (Instant (clock w (ticks w))) (n_rows df)
                 end
             end).
  { destruct (fill_placeholders_cut []
                (([fill_device_information; fill_attack_type] ++ steps_to_action_taken
                    ++ steps_to_severity_level ++ [fill_coordinates])
                   ++ [fill_timestamp_type; fill_canonical CANONICAL_COLUMNS])
                fill_timestamp df mapped w w0 eq_refl Hfill)
      as (m0 & m1 & v0 & v1 & Hpre & Hstep & Hpost).
    injection Hpre as <- <-.
    destruct (mwp_returned _ _ _ _ _ _ (fill_timestamp_spec df Hr) Hstep) as [Hrm1 _].
    destruct (get "Timestamp" df) as [given|] eqn:Hgiven.
    - unfold fill_timestamp, ensure in Hstep.
      rewrite (has_get _ _ _ Hgiven) in Hstep. injection Hstep as <- <-.
      pose proof (timestamp_after_first_step _ _ _ _ _ Hr Hgiven Hpost) as Hg.
      eexists. split; [exact Hg|]. split; [apply coerced_instants | reflexivity].
    - apply ensure_returned in Hstep; [|unfold has; rewrite Hgiven; reflexivity].
      destruct Hstep as (col & Hmake & ->).
      unfold has in Hmake. destruct (get "Year" df) as [years|] eqn:Hyears.
      + apply bindM_returned in Hmake. destruct Hmake as (x & v2 & Hx & Hlift).
        pose proof Hx as Hw. unfold getitem in Hw. rewrite Hyears in Hw.
        injection Hw as _ <-.
        apply getitem_returned in Hx. rewrite Hyears in Hx. injection Hx as <-.
        pose proof Hlift as Hw. unfold lift in Hw. injection Hw as _ <-.
        apply lift_returned in Hlift.
        destruct (january_first_instants _ _ Hlift) as [Hi Hl].
        assert (Hlen : List.length col = n_rows df)
          by (rewrite Hl; exact (rect_get _ _ _ Hr Hyears)).
        pose proof (timestamp_after_first_step _ _ col _ _ Hrm1
                      (get_setitem_same _ _ _ Hlen) Hpost) as Hg.
        eexists. split; [exact Hg|]. split; [apply coerced_instants|].
        exists col. split; [exact Hlift | apply coerce_dates, Hi].
      + unfold bindM, now, retM in Hmake. injection Hmake as <- <-.
        pose proof (timestamp_after_first_step _ _ _ _ _ Hrm1
                      (get_setitem_same _ _ _ (repeat_length _ _)) Hpost) as Hg.
        rewrite coerce_instants_id in Hg by (apply all_cells_repeat; reflexivity).
        eexists. split; [exact Hg|].
        split; [apply all_cells_repeat; reflexivity | reflexivity]. }
  destruct Hmapped as (col & Hg & Hi & Hsrc).
  unfold std_timestamp in Hts. rewrite (has_get _ _ _ Hg) in Hts.
  destruct (coerce_timestamp_returned _ _ _ _ _ Hts) as (col' & Hcol' & ->).
  rewrite Hg in Hcol'. injection Hcol' as <-.
  rewrite (coerce_instants_id _ _ Hi).
  exists col. split; [|exact Hsrc].
  f_equal. apply reindex_id. exact (rect_get _ _ _ Hr1 Hg).
Qed.

(** ** Drawn columns *)

Lemma strings_map (P : string -> Prop) (xs : list string) :
  Forall P xs -> strings P (map Str xs).
Proof.
  intros H. unfold strings. apply Forall_map. revert H. apply Forall_impl.
  intros s Hs. exists s. auto.
Qed.

Lemma np_choice_strings (xs : list string) (n : nat) :
  xs <> [] ->
  mwp (np_choice xs n)
      (fun col => strings (fun s => In s xs) col /\ List.length col = n) True.
Proof.
  intros Hne. unfold np_choice.
  apply (mwp_bind _ _ (fun picks => Forall (fun s => In s xs) picks
                                    /\ List.length picks = n)).
  - apply mwp_draw, post_both; [apply draw_n_all, choice_in, Hne | apply draw_n_length].
  - intros picks [Hin Hlen]. apply mwp_ret.
    split; [apply strings_map, Hin | rewrite length_map; exact Hlen].
Qed.

Lemma generate_ip_dotted : post generate_ip dotted_quad.
Proof.
  unfold generate_ip. apply post_bind_any. intros u.
  destruct (negb (Qle_bool 0.3 u)).
  - apply (post_bind _ _ _ _ (randint_range 0 254 ltac:(lia))). intros a Ha.
    apply (post_bind _ _ _ _ (randint_range 1 254 ltac:(lia))). intros b Hb.
    apply post_ret. exists 192, 168, a, b.
    split; [reflexivity | lia].
  - apply (post_bind _ _ _ _ (randint_range 1 222 ltac:(lia))). intros a Ha.
    apply (post_bind _ _ _ _ (randint_range 0 254 ltac:(lia))). intros b Hb.
    apply (post_bind _ _ _ _ (randint_range 0 254 ltac:(lia))). intros c Hc.
    apply (post_bind _ _ _ _ (randint_range 1 254 ltac:(lia))). intros d Hd.
    apply post_ret. exists a, b, c, d. split; [reflexivity | lia].
Qed.

Lemma generated_ips_dotted (n : nat) :
  mwp (generated_ips n)
      (fun col => strings dotted_quad col /\ List.length col = n) True.
Proof.
  unfold generated_ips.
  apply (mwp_bind _ _ (fun ips => Forall dotted_quad ips /\ List.length ips = n)).
  - apply mwp_draw, post_both; [apply draw_n_all, generate_ip_dotted | apply draw_n_length].
  - intros ips [Hin Hlen]. apply mwp_ret.
    split; [apply strings_map, Hin | rewrite length_map; exact Hlen].
Qed.

(** The column of outcomes that [fill_placeholders] draws. *)
Lemma fill_placeholders_actions (df mapped : frame) (w w' : world) :
  rect df -> get "Action Taken" df = None -> get "outcome" df = None ->
  fill_placeholders df w = (Ok mapped, w') ->
  exists col, get "Action Taken" mapped = Some col
              /\ (strings (fun s => In s actions) col /\ List.length col = n_rows df).
Proof.
  intros Hr Hact Hout Hfill.
  apply (fill_placeholders_tracks
           (steps_to_attack_type
              ++ [ fill_anomaly_scores; fill_packet_length; fill_source_port;
                   fill_destination_port; fill_ip_addresses; fill_protocol ])
           (steps_to_severity_level ++ steps_to_end)
           fill_action_taken
           [ "Timestamp"; "Device Information"; "Attack Type"; "Anomaly Scores";
             "Packet Length"; "Source Port"; "Destination Port";
             "Source IP Address"; "Destination IP Address"; "Protocol" ]
           ["Action Taken"] []
           "Action Taken"
           (fun col => strings (fun s => In s actions) col /\ List.length col = n_rows df)
           df mapped w w'); try assumption; try reflexivity.
  - unfold steps_to_attack_type. steps_within.
  - eapply step_spec_weaken; [| | |apply fill_action_taken_spec]; names_within.
  - unfold steps_to_severity_level, steps_to_end. steps_within.
  - not_in_list.
  - intros m m' v v' Hrm Htm Hstep. unfold fill_action_taken in Hstep.
    apply ensure_returned in Hstep;
      [|unfold has; rewrite (kept _ _ _ _ "Action Taken" Htm), Hact by not_in_list;
        reflexivity].
    destruct Hstep as (col & Hmake & ->).
    unfold has in Hmake. rewrite (kept _ _ _ _ "outcome" Htm), Hout in Hmake by not_in_list.
    destruct (mwp_returned _ _ _ _ _ _
                (np_choice_strings actions (n_rows m) ltac:(discriminate)) Hmake)
      as [Hin Hlen].
    exists col. split; [apply get_setitem_same, Hlen|].
    split; [exact Hin | rewrite Hlen; exact (proj1 Htm)].
Qed.

(** X14.  Two fields come from a fixed vocabulary when the input has no
    column for them.  Without "Device Information", target_system is one
    of the six device types in every row, whatever "Target" or "Target
    Industry" hold; without "Action Taken" and "outcome", outcome is one
    of the six actions in every row, whatever the resolution time is. *)
Theorem synthesized_vocabularies (df out : frame) (w w' : world) :
  rect df -> map_global_schema df w = (Ok out, w') ->
  (get "Device Information" df = None ->
   exists col, get "target_system" out = Some col
               /\ strings (fun s => In s device_types) col)
  /\ (get "Action Taken" df = None -> get "outcome" df = None ->
      exists col, get "outcome" out = Some col
                  /\ strings (fun s => In s actions) col).
Proof.
  intros Hr Hrun.
  destruct (normalized_parts _ _ _ _ Hr Hrun)
    as (mapped & w0 & ts & ty & loc & sev & gb & oc & w1 & w2 & w3 & w4 & w5
        & Hfill & Hr1 & Ht & _ & _ & _ & _ & _ & Hoc & ->).
  pose proof (proj1 Ht) as Hn1.
  destruct (get_assembled mapped ts ty loc sev gb oc)
    as (_ & _ & -> & _ & _ & _ & -> & _).
  split.
  - intros Hdev.
    destruct (fill_placeholders_device_information _ _ _ _ Hr Hdev Hfill)
      as (col & Hg & Hall & Hlen).
    rewrite <- Hn1 in Hlen.
    assert (Hstr : all_cells is_str col).
    { revert Hall. apply Forall_impl. intros x. destruct x; simpl; congruence. }
    exists col. split.
    + unfold std_target_system, frame_get. rewrite Hg. cbn [as_series].
      rewrite !(reindex_id _ col Hlen), (astype_str_id col Hstr), (reindex_id _ col Hlen).
      reflexivity.
    + revert Hall. apply Forall_impl. intros x Hx.
      destruct x as [|q|s|t]; try discriminate Hx.
      exists s. split; [reflexivity | apply mem_str_In, Hx].
  - intros Hact Hout.
    destruct (fill_placeholders_actions _ _ _ _ Hr Hact Hout Hfill)
      as (col & Hg & Hin & Hlen).
    rewrite <- Hn1 in Hlen.
    rewrite (std_outcome_given _ _ _ Hg) in Hoc. injection Hoc as <- _.
    exists col. split; [|exact Hin].
    rewrite !(reindex_id _ col Hlen). reflexivity.
Qed.

(** The addresses that [fill_placeholders] writes. *)
Lemma fill_placeholders_addresses (c : string) (df mapped : frame) (w w' : world) :
  c = "Source IP Address" \/ c = "Destination IP Address" ->
  rect df -> get "Source IP Address" df = None -> get c df = None ->
  fill_placeholders df w = (Ok mapped, w') ->
  exists col, get c mapped = Some col
              /\ (strings dotted_quad col /\ List.length col = n_rows df).
Proof.
  intros Hc Hr Hsrc Habs Hfill.
  apply (fill_placeholders_tracks
           (steps_to_attack_type
              ++ [ fill_anomaly_scores; fill_packet_length; fill_source_port;
                   fill_destination_port ])
           (fill_protocol :: fill_action_taken :: steps_to_severity_level ++ steps_to_end)
           fill_ip_addresses
           [ "Timestamp"; "Device Information"; "Attack Type"; "Anomaly Scores";
             "Packet Length"; "Source Port"; "Destination Port" ]
           ["Source IP Address"; "Destination IP Address"] []
           c
           (fun col => strings dotted_quad col /\ List.length col = n_rows df)
           df mapped w w'); try assumption; try reflexivity.
  - unfold steps_to_attack_type. steps_within.
  - eapply step_spec_weaken; [| | |apply fill_ip_addresses_spec]; names_within.
  - unfold steps_to_severity_level, steps_to_end. steps_within.
  - destruct Hc as [-> | ->]; not_in_list.
  - intros m m' v v' Hrm Htm Hstep. unfold fill_ip_addresses in Hstep.
    assert (Hsrc0 : has "Source IP Address" m = false).
    { unfold has. rewrite (kept _ _ _ _ "Source IP Address" Htm), Hsrc by not_in_list.
      reflexivity. }
    rewrite Hsrc0 in Hstep. cbn [negb] in Hstep.
    apply bindM_returned in Hstep. destruct Hstep as (src & v1 & Hmake & Hstep).
    destruct (mwp_returned _ _ _ _ _ _ (generated_ips_dotted (n_rows m)) Hmake)
      as [Hin Hlen].
    pose proof (get_setitem_same "Source IP Address" src m Hlen) as Hg1.
    pose proof (proj1 Htm) as Hn.
    destruct (has "Destination IP Address" (setitem "Source IP Address" src m)) eqn:Hdst.
    + unfold ensure in Hstep. rewrite Hdst in Hstep. injection Hstep as <- _.
      destruct Hc as [-> | ->].
      * exists src. rewrite <- Hn. auto.
      * exfalso. rewrite has_setitem in Hdst. cbn in Hdst.
        unfold has in Hdst.
        rewrite (kept _ _ _ _ "Destination IP Address" Htm), Habs in Hdst by not_in_list.
        discriminate Hdst.
    + apply ensure_returned in Hstep; [|exact Hdst].
      destruct Hstep as (dst & Hmake2 & ->).
      destruct (mwp_returned _ _ _ _ _ _ (generated_ips_dotted _) Hmake2)
        as [Hin2 Hlen2].
      destruct Hc as [-> | ->].
      * exists src. split; [|rewrite <- Hn; auto].
        rewrite get_setitem. cbn. exact Hg1.
      * exists dst. split; [apply get_setitem_same, Hlen2|].
        split; [exact Hin2|]. rewrite Hlen2. cbn [setitem n_rows]. exact Hn.
Qed.

(** X15.  Without a "Source IP Address" column in the input, every
    attacker_ip is an address that [generate_ip] wrote: four numbers
    between dots, the first from 1 to 222, the last from 1 to 254, the
    others from 0 to 254.  The same holds of target_ip when the input
    lacks "Destination IP Address" too.  Columns named attacker_ip and
    target_ip in the input are not read. *)
Theorem synthesized_addresses (df out : frame) (w w' : world) :
  rect df -> get "Source IP Address" df = None ->
  map_global_schema df w = (Ok out, w') ->
  (exists col, get "attacker_ip" out = Some col /\ strings dotted_quad col)
  /\ (get "Destination IP Address" df = None ->
      exists col, get "target_ip" out = Some col /\ strings dotted_quad col).
Proof.
  intros Hr Hsrc Hrun.
  destruct (normalized_parts _ _ _ _ Hr Hrun)
    as (mapped & w0 & ts & ty & loc & sev & gb & oc & w1 & w2 & w3 & w4 & w5
        & Hfill & Hr1 & Ht & _ & _ & _ & _ & _ & _ & ->).
  pose proof (proj1 Ht) as Hn1.
  destruct (get_assembled mapped ts ty loc sev gb oc)
    as (_ & _ & _ & _ & _ & _ & _ & -> & -> & _).
  split.
  - destruct (fill_placeholders_addresses "Source IP Address" _ _ _ _
                ltac:(left; reflexivity) Hr Hsrc Hsrc Hfill) as (col & Hg & Hin & Hlen).
    rewrite <- Hn1 in Hlen.
    exists col. split; [|exact Hin].
    unfold std_attacker_ip, frame_get. rewrite Hg. cbn [as_series].
    rewrite !(reindex_id _ col Hlen). reflexivity.
  - intros Hdst.
    destruct (fill_placeholders_addresses "Destination IP Address" _ _ _ _
                ltac:(right; reflexivity) Hr Hsrc Hdst Hfill) as (col & Hg & Hin & Hlen).
    rewrite <- Hn1 in Hlen.
    exists col. split; [|exact Hin].
    unfold std_target_ip, frame_get. rewrite Hg. cbn [as_series].
    rewrite !(reindex_id _ col Hlen). reflexivity.
Qed.

(** The signatures that [fill_placeholders] writes. *)
Lemma fill_placeholders_signature (df mapped : frame) (types : column) (w w' : world) :
  rect df -> get "Attack Signature" df = None -> get "Attack Type" df = Some types ->
  fill_placeholders df w = (Ok mapped, w') ->
  exists col, get "Attack Signature" mapped = Some col
              /\ exists ks, List.length ks = List.length types
                            /\ Forall (fun k => 1000 <= k <= 9998) ks
                            /\ col = map (fun xk => Str (str_of_cell (fst xk) ++ "_"
                                                          ++ str_of_Z (snd xk))%string)
                                       (combine types ks).
Proof.
  intros Hr Hsig Htypes Hfill.
  apply (fill_placeholders_tracks
           (steps_to_attack_type ++ steps_to_action_taken
              ++ [ fill_ids_alerts; fill_malware_indicators; fill_firewall_logs;
                   fill_proxy_information ])
           (fill_severity_level :: steps_to_end)
           fill_attack_signature
           [ "Timestamp"; "Device Information"; "Attack Type"; "Anomaly Scores";
             "Packet Length"; "Source Port"; "Destination Port"; "Source IP Address";
             "Destination IP Address"; "Protocol"; "Action Taken"; "IDS/IPS Alerts";
             "Malware Indicators"; "Firewall Logs"; "Proxy Information" ]
           ["Attack Signature"] []
           "Attack Signature" _ df mapped w w'); try assumption; try reflexivity.
  - unfold steps_to_attack_type, steps_to_action_taken. steps_within.
  - eapply step_spec_weaken; [| | |apply fill_attack_signature_spec]; names_within.
  - unfold steps_to_end. steps_within.
  - not_in_list.
  - intros m m' v v' Hrm Htm Hstep. unfold fill_attack_signature in Hstep.
    apply ensure_returned in Hstep;
      [|unfold has; rewrite (kept _ _ _ _ "Attack Signature" Htm), Hsig by not_in_list;
        reflexivity].
    destruct Hstep as (col & Hmake & ->).
    apply bindM_returned in Hmake. destruct Hmake as (x & v1 & Hx & Hmake).
    apply getitem_returned in Hx.
    rewrite (kept_present _ _ _ _ "Attack Type" _ Htm ltac:(intros []) Htypes) in Hx.
    injection Hx as <-.
    apply bindM_returned in Hmake. destruct Hmake as (ks & v2 & Hks & Hret).
    injection Hret as <- _.
    assert (Hdrawn : Forall (fun k => 1000 <= k <= 9998) ks
                     /\ List.length ks = List.length types).
    { apply (mwp_returned _ _ True _ _ _ (mwp_draw _ _ _
               (post_both _ _ _
                  (draw_n_all _ _ _ (randint_range 1000 9998 ltac:(lia)))
                  (draw_n_length _ _))) Hks). }
    destruct Hdrawn as [Hin Hlen].
    eexists. split; [|exists ks; split; [exact Hlen | split; [exact Hin | reflexivity]]].
    apply get_setitem_same.
    rewrite length_map, length_combine, Hlen, Nat.min_id.
    rewrite (rect_get _ _ _ Hr Htypes). symmetry. exact (proj1 Htm).
Qed.

(** X16.  When the input names no defense and no mitigation method, the
    field mitigation_method is not the text "Standard Protocol" but the
    synthesized attack signature: the attack type of the row, an
    underscore, and a number from 1000 to 9998. *)
Theorem mitigation_method_is_signature (df out : frame) (types : column) (w w' : world) :
  rect df ->
  get "Defense Mechanism Used" df = None -> get "Defense Mechanism" df = None ->
  get "mitigation_method" df = None -> get "Attack Signature" df = None ->
  get "Attack Type" df = Some types ->
  map_global_schema df w = (Ok out, w') ->
  exists ks,
    List.length ks = n_rows df
    /\ Forall (fun k => 1000 <= k <= 9998) ks
    /\ get "mitigation_method" out
       = Some (map (fun xk => Str (str_of_cell (fst xk) ++ "_" ++ str_of_Z (snd xk))%string)
                 (combine types ks)).
Proof.
  intros Hr Hd1 Hd2 Hmit Hsig Htypes Hrun.
  destruct (normalized_parts _ _ _ _ Hr Hrun)
    as (mapped & w0 & ts & ty & loc & sev & gb & oc & w1 & w2 & w3 & w4 & w5
        & Hfill & Hr1 & Ht & _ & _ & _ & _ & _ & _ & ->).
  pose proof (proj1 Ht) as Hn1.
  destruct (get_assembled mapped ts ty loc sev gb oc)
    as (_ & _ & _ & _ & _ & _ & _ & _ & _ & -> & _).
  destruct (fill_placeholders_signature _ _ _ _ _ Hr Hsig Htypes Hfill)
    as (col & Hg & ks & Hlen & Hin & ->).
  exists ks. split; [rewrite Hlen; exact (rect_get _ _ _ Hr Htypes)|].
  split; [exact Hin|].
  unfold std_mitigation_method, frame_get.
  rewrite (kept _ _ _ _ "Defense Mechanism Used" Ht), (kept _ _ _ _ "Defense Mechanism" Ht),
    (kept _ _ _ _ "mitigation_method" Ht), Hd1, Hd2, Hmit, Hg by not_in_list.
  cbn [as_series]. rewrite !reindex_id; [reflexivity| |];
    rewrite ?reindex_length; try reflexivity; exact (rect_get _ _ _ Hr1 Hg).
Qed.

End Synthesized.

(** * The exceptions of the normalizer *)

Section Exceptions.
Import Adapter AdapterSpec AdapterMore.
Local Open Scope adapter_scope.
Context {cv : Conversions}.


(** X18.  A table with rows that brings its own "Source IP Address" but
    no "Destination IP Address" is not normalized: the function that
    would write the destination addresses is defined only where the
    source addresses are written, and the call ends in a [NameError]. *)
Theorem source_without_destination_raises (df : frame) (w : world) :
  rect df -> n_rows df <> O ->
  has "Timestamp" df = true \/ has "Year" df = false ->
  has "Source IP Address" df = true -> has "Destination IP Address" df = false ->
  exists w', map_global_schema df w = (Raise NameError, w').
Proof.
  intros Hr Hn Hts Hsrc Hdst.
  pose proof (map_global_schema_ends df w Hr) as H.
  assert (Hf : failure df = Some NameError).
  { unfold failure. rewrite Hsrc, Hdst.
    assert (H1 : negb (has "Timestamp" df)
                 && negb (forallb year_parses (column_or_empty "Year" df)) = false).
    { destruct Hts as [-> | Hy]; [reflexivity|].
      unfold column_or_empty. rewrite (lacks_get _ _ Hy). apply andb_false_r. }
    rewrite H1. destruct (n_rows df); [congruence | reflexivity]. }
  rewrite Hf in H. exact H.
Qed.

(** X19.  A severity given in words is not tolerated.  When the input
    has an attack_severity column with a text cell and no "Severity
    Level", the labels cannot be computed and the call ends in a
    [TypeError], although the projection would have read such a cell
    as 5. *)
Theorem worded_severity_raises (df : frame) (sev : column) (s : string) (w : world) :
  rect df ->
  has "Timestamp" df = true \/ has "Year" df = false ->
  has "Source IP Address" df = false \/ has "Destination IP Address" df = true ->
  has "Severity Level" df = false ->
  get "attack_severity" df = Some sev -> In (Str s) sev ->
  exists w', map_global_schema df w = (Raise TypeError, w').
Proof.
  intros Hr Hts Hip Hlvl Hsev Hin.
  pose proof (map_global_schema_ends df w Hr) as H.
  assert (Hf : failure df = Some TypeError).
  { unfold failure.
    assert (H1 : negb (has "Timestamp" df)
                 && negb (forallb year_parses (column_or_empty "Year" df)) = false).
    { destruct Hts as [-> | Hy]; [reflexivity|].
      unfold column_or_empty. rewrite (lacks_get _ _ Hy). apply andb_false_r. }
    assert (H2 : has "Source IP Address" df && negb (has "Destination IP Address" df)
                 && negb (Nat.eqb (n_rows df) 0) = false).
    { destruct Hip as [-> | ->]; [reflexivity|].
      destruct (has "Source IP Address" df); reflexivity. }
    rewrite H1, H2, Hlvl. unfold label_source. rewrite Hsev.
    assert (H3 : forallb comparable sev = false).
    { destruct (forallb comparable sev) eqn:E; [|reflexivity].
      rewrite forallb_forall in E. specialize (E _ Hin). discriminate E. }
    rewrite H3. reflexivity. }
  rewrite Hf in H. exact H.
Qed.

End Exceptions.

(** * The loaders *)

Section LoaderFacts.
Import Adapter AdapterSpec AdapterMore Loaders.
Local Open Scope adapter_scope.
Context {cv : Conversions}.

Lemma or_stop_raised {A} (m : M A) (w w' : world) (e : exn) :
  m w = (Raise e, w') -> or_stop m w = (Raise StopExecution, w').
Proof. intros H. unfold or_stop. rewrite H. reflexivity. Qed.


Lemma load_best_dataset_maps (df : frame) :
  has "Country" df && has FINANCIAL_LOSS df = true
  \/ has "Timestamp" df && has "Attack Type" df = false ->
  load_best_dataset (Some df) = map_global_schema df.
Proof.
  intros [H|H]; unfold load_best_dataset.
  - rewrite H. reflexivity.
  - rewrite H. destruct (has "Country" df && has FINANCIAL_LOSS df); reflexivity.
Qed.

(** The canonical table has no "Year". *)
Lemma assembled_lacks_year (mapped : frame) (ts ty loc sev gb oc : column) :
  get "Year" (assembled mapped ts ty loc sev gb oc) = None.
Proof.
  unfold assembled.
  generalize (std_target_system mapped) (std_industry mapped) (std_attacker_ip mapped)
    (std_target_ip mapped) (std_mitigation_method mapped) (std_attack_duration mapped)
    (std_response_time mapped) (std_security_tools mapped) (std_user_role mapped)
    (n_rows mapped).
  intros c1 c2 c3 c4 c5 c6 c7 c8 c9 n. reflexivity.
Qed.

(** X20.  [load_global_data] cannot use what the adapter maps.  When the
    requested file is missing and the adapter sends the table it found
    through [map_global_schema], the run is stopped, whatever the table
    holds: either the mapping raises, or it returns the canonical table,
    which has no "Year" column to make the dates from. *)
Theorem load_global_data_stops_after_mapping
        (impact : frame -> M column) (df : frame) (w : world) :
  has "Country" df && has FINANCIAL_LOSS df = true
  \/ has "Timestamp" df && has "Attack Type" df = false ->
  exists w', load_global_data impact None true (Some df) w = (Raise StopExecution, w').
Proof.
  intros Hmap. unfold load_global_data.
  rewrite (load_best_dataset_maps df Hmap).
  destruct (map_global_schema df w) as [[out|e] w1] eqn:Hrun.
  - exists w1. apply (or_stop_raised _ _ _ KeyError).
    unfold bindM. rewrite Hrun.
    destruct (map_global_schema_returned _ _ _ _ Hrun) as (mapped & w0 & _ & Hstd).
    destruct (standardize_returned _ _ _ _ Hstd)
      as (ts & ty & loc & sev & gb & oc & ? & ? & ? & ? & ? & _ & _ & _ & _ & _ & _ & ->).
    unfold enrich, bindM, getitem. rewrite assembled_lacks_year. reflexivity.
  - exists w1. apply (or_stop_raised _ _ _ e).
    unfold bindM. rewrite Hrun. reflexivity.
Qed.



(** ** The columns that [load_global_data] adds *)

Lemma severity_category_gap (q : Q) (c : cell) :
  severity_category (Num q) = Ok c -> (c = NaN <-> (q <= 0 \/ 100 < q)%Q).
Proof.
  unfold severity_category, cut, cut_label.
  destruct (Qle_bool q 0) eqn:E0; destruct (Qle_bool q 25) eqn:E1;
    destruct (Qle_bool q 50) eqn:E2; destruct (Qle_bool q 75) eqn:E3;
    destruct (Qle_bool q 100) eqn:E4; cbn [negb andb];
    intros H; injection H as <-;
    repeat match goal with
      | H : Qle_bool _ _ = true |- _ => apply Qle_bool_iff in H
      | H : Qle_bool _ _ = false |- _ =>
          apply not_true_iff_false in H; rewrite Qle_bool_iff in H
      end;
    (split; [intros Hc; try discriminate Hc; try (left; assumption); try (right; lra)
            | intros [Hq|Hq]; try reflexivity; exfalso; lra ]).
Qed.

Lemma clip_between (lo hi q : Q) : (lo <= hi)%Q -> (lo <= clip lo hi q <= hi)%Q.
Proof.
  intros Hlh. unfold clip.
  destruct (Qle_bool q lo) eqn:E1; [lra|].
  destruct (Qle_bool hi q) eqn:E2; [lra|].
  apply not_true_iff_false in E1, E2. rewrite Qle_bool_iff in E1, E2. lra.
Qed.

Lemma severity_score_range (x y : cell) :
  severity_score x = Ok y -> y = NaN \/ exists s, y = Num s /\ (1 <= s <= 10)%Q.
Proof.
  destruct x as [|q|s|t]; cbn [severity_score]; intros H; try discriminate H;
    injection H as <-; [left; reflexivity|].
  right. eexists. split; [reflexivity|].
  pose proof (clip_between 1 10 (q / 10) ltac:(lra)) as [H1 H2].
  destruct (round_half_even_between (clip 1 10 (q / 10) * 10) 10 100) as [H3 H4];
    [unfold inject_Z; lra | unfold inject_Z; lra |].
  unfold round1, Qle. simpl. lia.
Qed.

(** X23.  The severity columns that [load_global_data] adds to the file
    it read.  A financial loss above 100 (or not above 0) is left without
    a "Severity_Category", and only such a loss is; a "Severity_Score"
    is missing or lies between 1 and 10. *)
Theorem load_global_data_severity
        (impact : frame -> M column) (df out : frame) (losses : column)
        (adapter : bool) (found : option frame) (w w' : world) :
  rect df -> get FINANCIAL_LOSS df = Some losses ->
  load_global_data impact (Some (Ok df)) adapter found w = (Ok out, w') ->
  exists categories scores,
    get "Severity_Category" out = Some categories
    /\ get "Severity_Score" out = Some scores
    /\ Forall2 (fun x c => forall q, x = Num q -> (c = NaN <-> (q <= 0 \/ 100 < q)%Q))
               losses categories
    /\ Forall (fun y => y = NaN \/ exists s, y = Num s /\ (1 <= s <= 10)%Q) scores.
Proof.
  intros Hr Hloss Hrun. unfold load_global_data, or_stop in Hrun.
  match type of Hrun with
  | context [bindM ?a ?b w] =>
      destruct (bindM a b w) as [[out0|e] w0] eqn:Hin; [|discriminate Hrun]
  end.
  injection Hrun as <- <-. unfold lift, bindM at 1 in Hin. unfold enrich in Hin.
  apply bindM_returned in Hin. destruct Hin as (year & w1 & _ & Hin).
  apply bindM_returned in Hin. destruct Hin as (date & w2 & _ & Hin).
  apply bindM_returned in Hin. destruct Hin as (loss1 & w3 & Hl1 & Hin).
  apply bindM_returned in Hin. destruct Hin as (cats & w4 & Hcats & Hin).
  apply bindM_returned in Hin. destruct Hin as (loss2 & w5 & Hl2 & Hin).
  apply bindM_returned in Hin. destruct Hin as (scores & w6 & Hscores & Hin).
  apply bindM_returned in Hin. destruct Hin as (hours & w7 & _ & Hin).
  apply bindM_returned in Hin. destruct Hin as (res & w8 & _ & Hin).
  apply bindM_returned in Hin. destruct Hin as (imp & w9 & _ & Hin).
  injection Hin as <- _.
  apply getitem_returned in Hl1, Hl2. unfold FINANCIAL_LOSS in *.
  repeat (rewrite get_setitem in Hl1; cbn [String.eqb Ascii.eqb Bool.eqb andb] in Hl1).
  repeat (rewrite get_setitem in Hl2; cbn [String.eqb Ascii.eqb Bool.eqb andb] in Hl2).
  rewrite Hloss in Hl1, Hl2. injection Hl1 as <-. injection Hl2 as <-.
  apply lift_returned, apply_cells_returned in Hcats.
  apply lift_returned, apply_cells_returned in Hscores.
  pose proof (rect_get _ _ _ Hr Hloss) as Hlen.
  exists cats, scores.
  repeat (rewrite get_setitem; cbn [String.eqb Ascii.eqb Bool.eqb andb setitem n_rows]).
  rewrite !reindex_id
    by (first [ rewrite (Forall2_length_cells _ _ _ Hcats); exact Hlen
              | rewrite (Forall2_length_cells _ _ _ Hscores); exact Hlen ]).
  split; [reflexivity|]. split; [reflexivity|]. split.
  - revert Hcats. apply Forall2_impl. intros x c Hc q ->.
    exact (severity_category_gap q c Hc).
  - clear - Hscores. induction Hscores as [|x y xs ys Hxy _ IH]; constructor; [|exact IH].
    exact (severity_score_range x y Hxy).
Qed.

End LoaderFacts.

(** * The summary of a normalized table *)

Section SummaryFacts.
Import Adapter AdapterSpec AdapterMore Loaders.
Local Open Scope adapter_scope.
Context {cv : Conversions}.

Lemma total_between (a b : Q) (qs : list Q) :
  Forall (fun q => a <= q /\ q <= b)%Q qs ->
  (inject_Z (Z.of_nat (List.length qs)) * a <= total qs
   /\ total qs <= inject_Z (Z.of_nat (List.length qs)) * b)%Q.
Proof.
  induction 1 as [|q rest [Hq1 Hq2] _ [IH1 IH2]]; cbn [total fold_right List.length].
  - unfold inject_Z. simpl. lra.
  - fold (total rest). rewrite Nat2Z.inj_succ. unfold Z.succ. rewrite inject_Z_plus.
    change (inject_Z 1) with 1%Q.
    set (L := inject_Z (Z.of_nat (List.length rest))) in *.
    split; nra.
Qed.

Lemma mean_between (a b : Q) (qs : list Q) :
  qs <> [] -> Forall (fun q => a <= q /\ q <= b)%Q qs ->
  exists m, mean qs = Num m /\ (a <= m /\ m <= b)%Q.
Proof.
  intros Hne Hall. destruct (total_between a b qs Hall) as [H1 H2].
  destruct qs as [|q rest]; [congruence|].
  unfold mean. eexists. split; [reflexivity|].
  assert (Hpos : (0 < inject_Z (Z.of_nat (List.length (q :: rest))))%Q).
  { rewrite <- (Zlt_Qlt 0). simpl. lia. }
  split.
  - apply Qle_shift_div_l; [exact Hpos|]. lra.
  - apply Qle_shift_div_r; [exact Hpos|]. lra.
Qed.

Lemma numbers_of_integers (zs : list Z) :
  numbers (map (fun z => Num (inject_Z z)) zs) = Some (map inject_Z zs).
Proof.
  induction zs as [|z rest IH]; cbn [map numbers]; [reflexivity|].
  rewrite IH. reflexivity.
Qed.

Lemma sev_to_num_between (x : string) : 2 <= sev_to_num x <= 9.
Proof.
  unfold sev_to_num.
  destruct (contains "critical" x); [lia|].
  destruct (contains "high" x); [lia|].
  destruct (contains "medium" x); [lia|].
  destruct (contains "low" x); lia.
Qed.

Lemma no_success (col : column) :
  strings (fun s => In s actions) col ->
  Forall (fun q => 0 <= q /\ q <= 0)%Q (map (fun x => indicator (is_success x)) col).
Proof.
  intros H. apply Forall_map. revert H. apply Forall_impl.
  intros x (s & -> & Hs). simpl in Hs.
  repeat (destruct Hs as [<-|Hs]; [cbn; lra|]). destruct Hs.
Qed.

(** X24.  What [get_data_summary] reports of a table that
    [map_global_schema] made from an input with rows.  When the outcomes
    were synthesized (the input has neither "Action Taken" nor "outcome")
    the success rate is 0: no synthesized action is "Success".  When the
    severities were computed (the input has no attack_severity) their
    average lies between 2 and 9. *)
Theorem summary_of_normalized (df out : frame) (w w' : world) :
  rect df -> n_rows df <> O -> map_global_schema df w = (Ok out, w') ->
  (get "Action Taken" df = None -> get "outcome" df = None ->
   exists q, success_rate out = Num q /\ (q == 0)%Q)
  /\ (get "attack_severity" df = None ->
      exists q, avg_severity out = Ok (Num q) /\ (2 <= q /\ q <= 9)%Q).
Proof.
  intros Hr Hn Hrun.
  destruct (normalized_parts _ _ _ _ Hr Hrun)
    as (mapped & w0 & ts & ty & loc & sev & gb & oc & w1 & w2 & w3 & w4 & w5
        & Hfill & Hr1 & Ht & _ & _ & _ & Hsev & _ & Hoc & ->).
  pose proof (proj1 Ht) as Hn1.
  split.
  - intros Hact Hout.
    destruct (fill_placeholders_actions _ _ _ _ Hr Hact Hout Hfill)
      as (col & Hg & Hin & Hlen).
    rewrite (std_outcome_given _ _ _ Hg) in Hoc. injection Hoc as <- _.
    unfold success_rate.
    destruct (get_assembled mapped ts ty loc sev gb (reindex (n_rows mapped) col))
      as (_ & _ & _ & _ & _ & _ & -> & _).
    rewrite <- Hn1 in Hlen. rewrite !(reindex_id _ col Hlen).
    destruct (mean_between 0 0 (map (fun x => indicator (is_success x)) col))
      as (m & -> & Hm1 & Hm2).
    + intros E. apply (f_equal (@List.length Q)) in E.
      rewrite length_map, Hlen, Hn1 in E. exact (Hn E).
    + apply no_success, Hin.
    + eexists. split; [reflexivity|]. lra.
  - intros Hgiven.
    destruct (fill_placeholders_returned _ _ _ _ Hr Hfill) as (_ & _ & Hall).
    assert (Hlvl : has "Severity Level" mapped = true).
    { rewrite Forall_forall in Hall. apply Hall. simpl. tauto. }
    destruct (has_true_get _ _ Hlvl) as [labels Hlabels].
    destruct (mwp_returned _ _ _ _ _ _ (std_attack_severity_spec mapped Hr1) Hsev)
      as [_ Hlen].
    assert (Hnone : get "attack_severity" mapped = None)
      by (rewrite (kept _ _ _ _ "attack_severity" Ht) by not_in_list; exact Hgiven).
    destruct (std_attack_severity_labelled _ _ _ _ _ Hr1 Hnone Hlabels Hsev)
      as (ss & _ & ->).
    unfold avg_severity. rewrite get_assembled_severity.
    rewrite (reindex_id _ _ Hlen).
    rewrite <- (map_map (fun s => sev_to_num (lower s)) (fun z => Num (inject_Z z))).
    rewrite numbers_of_integers.
    destruct (mean_between 2 9 (map inject_Z (map (fun s => sev_to_num (lower s)) ss)))
      as (m & -> & Hm).
    + intros E. apply (f_equal (@List.length Q)) in E.
      rewrite !length_map in E. rewrite length_map, Hn1 in Hlen.
      rewrite Hlen in E. exact (Hn E).
    + apply Forall_map, Forall_map, Forall_forall. intros x _.
      pose proof (sev_to_num_between (lower x)) as [H1 H2].
      split; [rewrite <- (Zle_Qle 2) | rewrite <- (Zle_Qle _ 9)]; assumption.
    + exists m. split; [reflexivity | exact Hm].
Qed.

End SummaryFacts.

(** * The table as a whole *)

Section Totality.
Import Adapter AdapterSpec AdapterMore.
Local Open Scope adapter_scope.
Context {cv : Conversions}.

Create HintDb field_steps.

#[local] Hint Resolve fill_timestamp_spec fill_device_information_spec
  fill_attack_type_spec fill_anomaly_scores_spec fill_packet_length_spec
  fill_source_port_spec fill_destination_port_spec fill_ip_addresses_spec
  fill_protocol_spec fill_action_taken_spec fill_ids_alerts_spec
  fill_malware_indicators_spec fill_firewall_logs_spec fill_proxy_information_spec
  fill_attack_signature_spec fill_severity_level_spec fill_coordinates_spec
  fill_timestamp_type_spec fill_canonical_step : field_steps.












End Totality.

(** * Sample runs *)

Section MoreSamples.
Import Adapter AdapterSpec AdapterMore Loaders.
Local Open Scope adapter_scope.

Lemma threats_table_rect : rect threats_table.
Proof. repeat constructor. Qed.

Lemma users_table_rect : rect users_table.
Proof. repeat constructor. Qed.

Lemma stamped_table_rect : rect stamped_table.
Proof. repeat constructor. Qed.

Lemma find_dataset_finds_witness :
  find_dataset sample_directory = Some "cybersecurity_attacks.csv"
  /\ find_dataset dangling_directory = Some "zeta.csv".
Proof.
  split.
  - apply (proj1 (proj2 (proj2 (find_dataset_finds sample_directory)))
             [ "Global_Cybersecurity_Threats_2015-2024_LARGE.csv";
               "Global_Cybersecurity_Threats_2015-2024.csv";
               "cybersecurity_large_synthesized_data.csv" ]
             "cybersecurity_attacks.csv" []).
    + reflexivity.
    + reflexivity.
    + intros q Hq. simpl in Hq.
      repeat (destruct Hq as [<-|Hq]; [reflexivity|]). destruct Hq.
  - apply (proj2 (proj2 (proj2 (find_dataset_finds dangling_directory)))).
    intros q Hq. simpl in Hq.
    repeat (destruct Hq as [<-|Hq]; [reflexivity|]). destruct Hq.
Defined.


Lemma source_without_destination_raises_witness :
  exists w',
    @map_global_schema sample_conversions source_only_table (sample_world 3)
    = (Raise NameError, w').
Proof.
  apply (@source_without_destination_raises sample_conversions source_only_table
           (sample_world 3)).
  - repeat constructor.
  - discriminate.
  - left. reflexivity.
  - reflexivity.
  - reflexivity.
Defined.

Lemma worded_severity_raises_witness :
  exists w',
    @map_global_schema sample_conversions worded_severity_table (sample_world 3)
    = (Raise TypeError, w').
Proof.
  apply (@worded_severity_raises sample_conversions worded_severity_table
           [Num 3; Str "high"] "high" (sample_world 3)).
  - repeat constructor.
  - right. reflexivity.
  - left. reflexivity.
  - reflexivity.
  - reflexivity.
  - simpl. tauto.
Defined.

Lemma timestamp_sources_witness :
  exists out w',
    @map_global_schema sample_conversions stamped_table (sample_world 3) = (Ok out, w')
    /\ get "timestamp" out = Some [Instant 7; Instant 1000; Instant 1000].
Proof.
  destruct (@map_global_schema sample_conversions stamped_table (sample_world 3))
    as [[out|e] w'] eqn:E; [|vm_compute in E; discriminate E].
  destruct (@timestamp_sources sample_conversions stamped_table out (sample_world 3) w'
              stamped_table_rect E) as (ts & Hts & Hsrc).
  exists out, w'. split; [reflexivity|]. rewrite Hts. f_equal. exact Hsrc.
Defined.

Lemma data_compromised_estimate_witness :
  exists out w',
    @map_global_schema calendar_conversions threats_table (sample_world 3) = (Ok out, w')
    /\ get "data_compromised_GB" out = Some [Num (80 * 0.5); Num (0 * 0.5)].
Proof.
  destruct (@map_global_schema calendar_conversions threats_table (sample_world 3))
    as [[out|e] w'] eqn:E; [|vm_compute in E; discriminate E].
  exists out, w'. split; [reflexivity|].
  exact (@data_compromised_estimate calendar_conversions threats_table out
           (sample_world 3) w' threats_table_rect E).
Defined.

Lemma global_threat_columns_witness :
  exists out w',
    @map_global_schema calendar_conversions threats_table (sample_world 3) = (Ok out, w')
    /\ get "location" out = Some [Str "UK"; Str "India"]
    /\ get "attack_type" out = Some [Str "Phishing"; Str "DDoS"]
    /\ get "industry" out = Some [Str "Retail"; Str "Banking"]
    /\ get "mitigation_method" out = Some [Str "VPN"; Str "Firewall"]
    /\ get "security_tools_used" out = Some [Str "VPN"; Str "Firewall"].
Proof.
  destruct (@map_global_schema calendar_conversions threats_table (sample_world 3))
    as [[out|e] w'] eqn:E; [|vm_compute in E; discriminate E].
  exists out, w'. split; [reflexivity|].
  exact (@global_threat_columns calendar_conversions threats_table out
           [Str "UK"; Str "India"] [Str "Phishing"; Str "DDoS"]
           [Str "Retail"; Str "Banking"] [Str "VPN"; Str "Firewall"]
           (sample_world 3) w' threats_table_rect
           eq_refl eq_refl eq_refl eq_refl eq_refl eq_refl eq_refl E).
Defined.

Lemma missing_columns_defaults_witness :
  exists out w',
    @map_global_schema sample_conversions users_table (sample_world 3) = (Ok out, w')
    /\ get "location" out = Some [Str "Unknown"; Str "Unknown"]
    /\ get "industry" out = Some [Str "Various"; Str "Various"]
    /\ get "attack_duration_min" out = Some [Num 30; Num 30]
    /\ get "response_time_min" out = Some [Num 15; Num 15]
    /\ get "security_tools_used" out
       = Some [Str "Basic Security Suite"; Str "Basic Security Suite"]
    /\ get "user_role" out = Some [Str "User"; Str "User"].
Proof.
  destruct (@map_global_schema sample_conversions users_table (sample_world 3))
    as [[out|e] w'] eqn:E; [|vm_compute in E; discriminate E].
  exists out, w'. split; [reflexivity|].
  destruct (@missing_columns_defaults sample_conversions users_table out
              (sample_world 3) w' users_table_rect E)
    as (H1 & H2 & H3 & H4 & H5 & H6).
  repeat split.
  - exact (H1 eq_refl eq_refl).
  - exact (H2 eq_refl eq_refl eq_refl).
  - exact (H3 eq_refl eq_refl).
  - exact (H4 eq_refl eq_refl).
  - exact (H5 eq_refl eq_refl).
  - exact (H6 eq_refl).
Defined.

Lemma synthesized_vocabularies_witness :
  exists out w',
    @map_global_schema sample_conversions users_table (sample_world 3) = (Ok out, w')
    /\ (exists col, get "target_system" out = Some col
                    /\ strings (fun s => In s device_types) col)
    /\ (exists col, get "outcome" out = Some col
                    /\ strings (fun s => In s actions) col).
Proof.
  destruct (@map_global_schema sample_conversions users_table (sample_world 3))
    as [[out|e] w'] eqn:E; [|vm_compute in E; discriminate E].
  exists out, w'. split; [reflexivity|].
  destruct (@synthesized_vocabularies sample_conversions users_table out
              (sample_world 3) w' users_table_rect E) as [H1 H2].
  split; [exact (H1 eq_refl) | exact (H2 eq_refl eq_refl)].
Defined.

Lemma synthesized_addresses_witness :
  exists out w',
    @map_global_schema sample_conversions users_table (sample_world 3) = (Ok out, w')
    /\ (exists col, get "attacker_ip" out = Some col /\ strings dotted_quad col)
    /\ (exists col, get "target_ip" out = Some col /\ strings dotted_quad col).
Proof.
  destruct (@map_global_schema sample_conversions users_table (sample_world 3))
    as [[out|e] w'] eqn:E; [|vm_compute in E; discriminate E].
  exists out, w'. split; [reflexivity|].
  destruct (@synthesized_addresses sample_conversions users_table out
              (sample_world 3) w' users_table_rect eq_refl E) as [H1 H2].
  split; [exact H1 | exact (H2 eq_refl)].
Defined.

Lemma mitigation_method_is_signature_witness :
  exists out w' ks,
    @map_global_schema sample_conversions attack_types_table (sample_world 3)
    = (Ok out, w')
    /\ List.length ks = 2%nat
    /\ Forall (fun k => 1000 <= k <= 9998) ks
    /\ get "mitigation_method" out
       = Some (map (fun xk => Str (@str_of_cell sample_conversions (fst xk) ++ "_"
                                    ++ str_of_Z (snd xk))%string)
                 (combine [Str "Phishing"; NaN] ks)).
Proof.
  destruct (@map_global_schema sample_conversions attack_types_table (sample_world 3))
    as [[out|e] w'] eqn:E; [|vm_compute in E; discriminate E].
  destruct (@mitigation_method_is_signature sample_conversions attack_types_table out
              [Str "Phishing"; NaN] (sample_world 3) w'
              ltac:(repeat constructor) eq_refl eq_refl eq_refl eq_refl eq_refl E)
    as (ks & Hlen & Hin & Hg).
  exists out, w', ks. split; [reflexivity|]. auto.
Defined.

Lemma load_global_data_stops_after_mapping_witness :
  exists w',
    @load_global_data calendar_conversions blank_impact None true (Some threats_table)
      (sample_world 3)
    = (Raise StopExecution, w').
Proof.
  apply (@load_global_data_stops_after_mapping calendar_conversions blank_impact
           threats_table (sample_world 3)).
  left. reflexivity.
Defined.



Lemma load_global_data_severity_witness :
  exists out w' categories scores,
    @load_global_data calendar_conversions blank_impact (Some (Ok threats_table))
      false None (sample_world 3) = (Ok out, w')
    /\ get "Severity_Category" out = Some categories
    /\ get "Severity_Score" out = Some scores
    /\ Forall (fun y => y = NaN \/ exists s, y = Num s /\ (1 <= s <= 10)%Q) scores.
Proof.
  destruct (@load_global_data calendar_conversions blank_impact (Some (Ok threats_table))
              false None (sample_world 3)) as [[out|e] w'] eqn:E;
    [|vm_compute in E; discriminate E].
  destruct (@load_global_data_severity calendar_conversions blank_impact threats_table out
              [Num 80; NaN] false None (sample_world 3) w' threats_table_rect eq_refl E)
    as (categories & scores & H1 & H2 & _ & H4).
  exists out, w', categories, scores. split; [reflexivity|]. auto.
Defined.

Lemma summary_of_normalized_witness :
  exists out w',
    @map_global_schema sample_conversions users_table (sample_world 3) = (Ok out, w')
    /\ (exists q, success_rate out = Num q /\ (q == 0)%Q)
    /\ (exists q, avg_severity out = Ok (Num q) /\ (2 <= q /\ q <= 9)%Q).
Proof.
  destruct (@map_global_schema sample_conversions users_table (sample_world 3))
    as [[out|e] w'] eqn:E; [|vm_compute in E; discriminate E].
  exists out, w'. split; [reflexivity|].
  destruct (@summary_of_normalized sample_conversions users_table out
              (sample_world 3) w' users_table_rect ltac:(discriminate) E) as [H1 H2].
  split; [exact (H1 eq_refl eq_refl) | exact (H2 eq_refl)].
Defined.





End MoreSamples.
